(** * abcFxu: the interface between the network package and fast_extract

    A shallow embedding of [src/base/abci/abcFxu.c]: the precondition check
    [Abc_NtkFxuCheck], the marshalling step [Abc_NtkFxuCollectInfo], the
    graph surgery [Abc_NtkFxuReconstruct] and the driver
    [Abc_NtkFastExtract], followed by the properties the specification
    states about them.

    Conventions.  An object pointer is the identifier of the slot of
    [vObjs] that holds the object ([None] is the NULL pointer); a C [int]
    that the fast_extract engine hands back is a [Z]; sizes of vectors are
    list lengths.  Code that can hit an [assert], dereference NULL or read
    past a raw array lives in the [Result] monad. *)

From stdpp Require Import prelude.

(** ** Faults and the error monad *)

Inductive Fault : Set :=
| AssertionFailure   (* an [assert( ... )] of the source is false *)
| NullDereference    (* a field of a NULL pointer is read or written *)
| OutOfBounds.       (* [pArray[i]] with [i] outside the vector *)

Inductive Result (A : Type) : Type :=
| OK (a : A)
| Crash (f : Fault).
Arguments OK {A} a.
Arguments Crash {A} f.

#[global] Instance Result_ret : MRet Result := fun A a => OK a.
#[global] Instance Result_bind : MBind Result := fun A B k r =>
  match r with
  | OK a => k a
  | Crash f => Crash f
  end.

#[global] Instance Fault_eq_dec : EqDecision Fault.
Proof. solve_decision. Defined.

(** [assert( b )] *)
Definition assert (b : bool) : Result unit :=
  if b then OK tt else Crash AssertionFailure.

(** [for ( ... ) body], over the indices [idxs] in order, threading the
    mutated state; a fault in the body ends the run. *)
Fixpoint for_each {S : Type} (body : nat → S → Result S) (idxs : list nat) (s : S)
  : Result S :=
  match idxs with
  | [] => OK s
  | i :: idxs' => s' ← body i s; for_each body idxs' s'
  end.

(** [p->pArray[i]], a raw read with no bounds assertion. *)
Definition Vec_Read {A : Type} (v : list A) (i : nat) : Result A :=
  match v !! i with
  | Some x => OK x
  | None => Crash OutOfBounds
  end.

(** Modelled from the spec: [Vec_PtrFill] (vec.h is not part of the source
    at hand).  The builder "allocates the collections sized to" the given
    size "with all slots initialized" to the entry.  A vector is the list
    of its slots: a count of 0 or less gives a vector without slots, which
    no loop over its count enters and no count of a filled vector is
    below. *)
Definition Vec_PtrFill {A : Type} (nSize : Z) (Entry : A) : list A :=
  replicate (Z.to_nat nSize) Entry.

(** ** C integers

    The counts of the source are [int]s.  The sum of two of them is the
    mathematical sum as long as that is an [int]; past [INT_MAX] it comes
    back reduced to 32 bits, two's complement. *)

Definition INT_MIN : Z := -2147483648.
Definition INT_MAX : Z := 2147483647.

Definition Int_add (a b : Z) : Z :=
  (a + b - INT_MIN) `mod` 4294967296 + INT_MIN.
Arguments Int_add : simpl never.

(** ** The network (abc.h) *)

Module Abc.

(** Modelled from the spec: the kinds of network the driver tells apart
    ([Abc_NtkIsLogic], [Abc_NtkIsSopLogic]); abc.h is not part of the
    source at hand. *)
Inductive Abc_NtkType_t : Set :=
| ABC_NTK_NETLIST | ABC_NTK_LOGIC | ABC_NTK_STRASH.

Inductive Abc_NtkFunc_t : Set :=
| ABC_FUNC_SOP | ABC_FUNC_BDD | ABC_FUNC_AIG | ABC_FUNC_MAP.

(** Modelled from the spec: "every node classified as a logic node", as
    opposed to primary inputs, outputs and latches. *)
Inductive Abc_ObjType_t : Set :=
| ABC_OBJ_PI | ABC_OBJ_PO | ABC_OBJ_NODE | ABC_OBJ_LATCH.

(** Modelled from the spec: a node has "a cover (opaque to this core ...
    swappable only as a whole), an ordered sequence of fanin references
    (other node identifiers ...), and a fanin-edge polarity flag" for
    each of the first two slots.  The identifier of an object is its
    index in [vObjs]. *)
Record Abc_Obj_t (Sop : Type) : Type := mkObj {
  ObjType : Abc_ObjType_t;
  fCompl0 : bool;
  fCompl1 : bool;
  vFanins : list nat;
  pData   : option Sop
}.
Arguments mkObj {Sop}.
Arguments ObjType {Sop}.
Arguments fCompl0 {Sop}.
Arguments fCompl1 {Sop}.
Arguments vFanins {Sop}.
Arguments pData {Sop}.

(** Modelled from the spec: the network "owns the set of all nodes,
    indexed by identifier; identifiers 0..max are a dense namespace with
    possible holes (removed/unused slots hold no node)". *)
Record Abc_Ntk_t (Sop : Type) : Type := mkNtk {
  ntkType  : Abc_NtkType_t;
  ntkFunc  : Abc_NtkFunc_t;
  pManFunc : nat;
  vObjs    : list (option (Abc_Obj_t Sop))
}.
Arguments mkNtk {Sop}.
Arguments ntkType {Sop}.
Arguments ntkFunc {Sop}.
Arguments pManFunc {Sop}.
Arguments vObjs {Sop}.

End Abc.

#[global] Instance Abc_NtkType_eq_dec : EqDecision Abc.Abc_NtkType_t.
Proof. solve_decision. Defined.
#[global] Instance Abc_NtkFunc_eq_dec : EqDecision Abc.Abc_NtkFunc_t.
Proof. solve_decision. Defined.
#[global] Instance Abc_ObjType_eq_dec : EqDecision Abc.Abc_ObjType_t.
Proof. solve_decision. Defined.

Abbreviation Abc_Obj_t := Abc.Abc_Obj_t.
Abbreviation Abc_Ntk_t := Abc.Abc_Ntk_t.

(** An object pointer: NULL, or the object stored under an identifier. *)
Definition ObjPtr : Set := option nat.

(** ** The extraction context (fxu.h) *)

(** [&pNode->vFanins]: a reference into the live network, not a copy of
    the list.  It names the node whose fanin vector it points to. *)
Inductive FaninsRef : Set :=
| FaninsOf (Id : nat).

Module Fxu.

(** Modelled from the spec: "four parallel index-addressable collections,
    all addressed by node identifier", the caller's limit on new nodes
    and the two counts the reconstructor reads; fxu.h is not part of the
    source at hand. *)
Record Fxu_Data_t (Sop : Type) : Type := mkData {
  nNodesExt  : Z;
  pManSop    : option nat;
  vSops      : list (option Sop);
  vFanins    : list (option FaninsRef);
  vSopsNew   : list (option Sop);
  vFaninsNew : list (option (list Z));
  nNodesOld  : Z;
  nNodesNew  : Z
}.
Arguments mkData {Sop}.
Arguments nNodesExt {Sop}.
Arguments pManSop {Sop}.
Arguments vSops {Sop}.
Arguments vFanins {Sop}.
Arguments vSopsNew {Sop}.
Arguments vFaninsNew {Sop}.
Arguments nNodesOld {Sop}.
Arguments nNodesNew {Sop}.

End Fxu.

Abbreviation Fxu_Data_t := Fxu.Fxu_Data_t.

(** What the driver prints. *)
Inductive Message : Set :=
| MsgConvertingToSopsFailed
| MsgDuplicatedOrComplementedFanins
| MsgNetworkCheckFailed
| MsgNotChangedByFx.

Section GraphAccessor.

Context {Sop : Type}.
Implicit Types (pNtk : Abc_Ntk_t Sop) (o : Abc_Obj_t Sop).

(** Modelled from the spec: the network is a network "of logic nodes, each
    described by a cover ... over explicit fanin edges"; [Abc_NtkIsLogic] of
    abc.h tests the kind of the network. *)
Definition Abc_NtkIsLogic pNtk : bool :=
  bool_decide (Abc.ntkType pNtk = Abc.ABC_NTK_LOGIC).

(** Modelled from the spec: "the network's current maximum identifier",
    the number of slots of [vObjs]. *)
Definition Abc_NtkObjNumMax pNtk : nat := length (Abc.vObjs pNtk).

(** Modelled from the spec: the object is "classified as a logic node". *)
Definition Abc_ObjIsNode o : bool :=
  bool_decide (Abc.ObjType o = Abc.ABC_OBJ_NODE).

(** Modelled from the spec: the number of the object's fanin slots. *)
Definition Abc_ObjFaninNum o : nat := length (Abc.vFanins o).

(** The object stored under identifier [Id], if the slot is not a hole. *)
Definition Abc_NtkLive pNtk (Id : nat) : option (Abc_Obj_t Sop) :=
  mjoin (Abc.vObjs pNtk !! Id).

(** Modelled from the spec: "enumerate a node's fanins".
    [Abc_ObjFanin( pObj, i )] is the pointer stored in the network under
    the [i]-th fanin identifier of the object. *)
Definition Abc_ObjFanin pNtk o (i : nat) : ObjPtr :=
  Id ← Abc.vFanins o !! i; _ ← Abc_NtkLive pNtk Id; Some Id.

(** Modelled from the spec: the "fanin-edge polarity flag" of one of "the
    first two slots"; [Abc_ObjFaninC( pObj, i )] is called with [i] in
    0..1 only. *)
Definition Abc_ObjFaninC o (i : nat) : bool :=
  match i with
  | 0 => Abc.fCompl0 o
  | _ => Abc.fCompl1 o
  end.

(** Modelled from the spec: "fetch a node by stable identifier"; an
    out-of-range identifier is "assertion-grade". *)
Definition Abc_NtkObj pNtk (i : Z) : Result ObjPtr :=
  _ ← assert (bool_decide (0 ≤ i < Z.of_nat (length (Abc.vObjs pNtk)))%Z);
  OK (_ ← Abc_NtkLive pNtk (Z.to_nat i); Some (Z.to_nat i)).

(** The network with its vector of objects replaced; the other fields
    are not touched by the code at hand. *)
Definition Abc_NtkWithObjs pNtk (objs : list (option (Abc_Obj_t Sop))) : Abc_Ntk_t Sop :=
  Abc.mkNtk (Abc.ntkType pNtk) (Abc.ntkFunc pNtk) (Abc.pManFunc pNtk) objs.

(** A node as [Abc_NtkCreateNode] leaves it. *)
Definition Abc_ObjFresh : Abc_Obj_t Sop :=
  Abc.mkObj Abc.ABC_OBJ_NODE false false [] None.

(** Writing through an object pointer: [pObj-> ... = ...]. *)
Definition Abc_ObjUpdate pNtk (pObj : ObjPtr) (f : Abc_Obj_t Sop → Abc_Obj_t Sop)
  : Result (Abc_Ntk_t Sop) :=
  match pObj with
  | None => Crash NullDereference
  | Some Id =>
      match Abc_NtkLive pNtk Id with
      | None => Crash NullDereference
      | Some o => OK (Abc_NtkWithObjs pNtk (<[Id := Some (f o)]> (Abc.vObjs pNtk)))
      end
  end.

(** Modelled from the spec: "create a new node"; the node gets the next
    identifier and starts "with no fanins and no cover". *)
Definition Abc_NtkCreateNode pNtk : nat * Abc_Ntk_t Sop :=
  (length (Abc.vObjs pNtk),
   Abc_NtkWithObjs pNtk (Abc.vObjs pNtk ++ [Some Abc_ObjFresh])).

(** Modelled from the spec: "detach all of that node's current fanin
    edges"; the polarity flags go with the edges. *)
Definition Abc_ObjRemoveFanins pNtk (pObj : ObjPtr) : Result (Abc_Ntk_t Sop) :=
  Abc_ObjUpdate pNtk pObj
    (fun o => Abc.mkObj (Abc.ObjType o) false false [] (Abc.pData o)).

(** Modelled from the spec: "add a fanin edge", appended after the
    existing ones. *)
Definition Abc_ObjAddFanin pNtk (pObj pFanin : ObjPtr) : Result (Abc_Ntk_t Sop) :=
  match pFanin with
  | None => Crash NullDereference
  | Some IdFanin =>
      Abc_ObjUpdate pNtk pObj
        (fun o => Abc.mkObj (Abc.ObjType o) (Abc.fCompl0 o) (Abc.fCompl1 o)
                    (Abc.vFanins o ++ [IdFanin]) (Abc.pData o))
  end.

(** [pNode->pData = pSop] *)
Definition Abc_ObjSetData pNtk (pObj : ObjPtr) (pSop : option Sop)
  : Result (Abc_Ntk_t Sop) :=
  Abc_ObjUpdate pNtk pObj
    (fun o => Abc.mkObj (Abc.ObjType o) (Abc.fCompl0 o) (Abc.fCompl1 o)
                (Abc.vFanins o) pSop).

(** Two networks with the same slots occupied. *)
Definition SameShape pNtk pNtk' : Prop :=
  length (Abc.vObjs pNtk) = length (Abc.vObjs pNtk')
  ∧ ∀ j, is_Some (Abc_NtkLive pNtk j) ↔ is_Some (Abc_NtkLive pNtk' j).

End GraphAccessor.

(** ** Abc_NtkFxuCheck *)

Section Check.

Context {Sop : Type}.
Implicit Types (pNtk : Abc_Ntk_t Sop) (pNode : Abc_Obj_t Sop).

(** The inner [Abc_ObjForEachFanin( pNode, pFanin2, k )]; [false] is the
    [return 0]. *)
Fixpoint Abc_NtkFxuCheck_k pNtk pNode (i : nat) (ks : list nat) : bool :=
  match ks with
  | [] => true
  | k :: ks' =>
      if bool_decide (i = k) then Abc_NtkFxuCheck_k pNtk pNode i ks'
      else if bool_decide (Abc_ObjFanin pNtk pNode i = Abc_ObjFanin pNtk pNode k)
           then false
           else Abc_NtkFxuCheck_k pNtk pNode i ks'
  end.

(** The outer [Abc_ObjForEachFanin( pNode, pFanin1, i )]. *)
Fixpoint Abc_NtkFxuCheck_i pNtk pNode (idxs : list nat) : bool :=
  match idxs with
  | [] => true
  | i :: idxs' =>
      if bool_decide (i < 2) && Abc_ObjFaninC pNode i then false
      else if Abc_NtkFxuCheck_k pNtk pNode i (seq 0 (Abc_ObjFaninNum pNode))
           then Abc_NtkFxuCheck_i pNtk pNode idxs'
           else false
  end.

(** [Abc_NtkForEachNode( pNtk, pNode, n )]: holes and objects that are
    not logic nodes are skipped. *)
Fixpoint Abc_NtkFxuCheck_n pNtk (objs : list (option (Abc_Obj_t Sop))) : bool :=
  match objs with
  | [] => true
  | None :: objs' => Abc_NtkFxuCheck_n pNtk objs'
  | Some pNode :: objs' =>
      if negb (Abc_ObjIsNode pNode) then Abc_NtkFxuCheck_n pNtk objs'
      else if Abc_NtkFxuCheck_i pNtk pNode (seq 0 (Abc_ObjFaninNum pNode))
           then Abc_NtkFxuCheck_n pNtk objs'
           else false
  end.

Definition Abc_NtkFxuCheck pNtk : bool :=
  Abc_NtkFxuCheck_n pNtk (Abc.vObjs pNtk).

(** The two defects the check looks for, on one node. *)
Definition InvertedInFirstTwo pNode : Prop :=
  ∃ i, i < 2 ∧ i < Abc_ObjFaninNum pNode ∧ Abc_ObjFaninC pNode i = true.

Definition DuplicatedFanin pNode : Prop :=
  ∃ i k t, i ≠ k ∧ Abc.vFanins pNode !! i = Some t
                 ∧ Abc.vFanins pNode !! k = Some t.

Definition FxuViolation pNtk : Prop :=
  ∃ n pNode, Abc.vObjs pNtk !! n = Some (Some pNode)
             ∧ Abc_ObjIsNode pNode = true
             ∧ (InvertedInFirstTwo pNode ∨ DuplicatedFanin pNode).

(** The data-model invariant "every fanin reference in a live node must
    name a live node in the same network (no dangling edges)". *)
Definition Abc_NtkFaninsLive pNtk : bool :=
  forallb (fun slot =>
             match slot with
             | None => true
             | Some o => forallb (fun Id => bool_decide (is_Some (Abc_NtkLive pNtk Id)))
                           (Abc.vFanins o)
             end) (Abc.vObjs pNtk).

End Check.

(** ** Abc_NtkFxuCollectInfo *)

Section CollectInfo.

Context {Sop : Type}.

(** The cover package (abcSop.c) is not part of the source at hand: the
    two measurements of a cover that the builder consults are taken as
    parameters. *)
Variable Abc_SopGetVarNum : Sop → Z.
Variable Abc_SopGetCubeNum : Sop → Z.

Implicit Types (pNtk : Abc_Ntk_t Sop) (p : Fxu_Data_t Sop).

(** The body of [Abc_NtkForEachNode( pNtk, pNode, i )]: the iterator skips
    holes and objects that are not logic nodes; the cover functions read
    through [pNode->pData]. *)
Definition Abc_NtkFxuCollectInfo_body pNtk (i : nat) p : Result (Fxu_Data_t Sop) :=
  match Abc_NtkLive pNtk i with
  | None => OK p
  | Some pNode =>
      if negb (Abc_ObjIsNode pNode) then OK p
      else
        match Abc.pData pNode with
        | None => Crash NullDereference
        | Some pSop =>
            if bool_decide (Abc_SopGetVarNum pSop < 2)%Z then OK p
            else if bool_decide (Abc_SopGetCubeNum pSop < 1)%Z then OK p
            else
              OK (Fxu.mkData (Fxu.nNodesExt p) (Fxu.pManSop p)
                    (<[i := Some pSop]> (Fxu.vSops p))
                    (<[i := Some (FaninsOf i)]> (Fxu.vFanins p))
                    (Fxu.vSopsNew p) (Fxu.vFaninsNew p)
                    (Fxu.nNodesOld p) (Fxu.nNodesNew p))
        end
  end.

(** The two updated collections are filled to
    [Abc_NtkObjNumMax(pNtk) + p->nNodesExt], a sum of two [int]s. *)
Definition Abc_NtkFxuCollectInfo pNtk p : Result (Fxu_Data_t Sop) :=
  let nMax := Z.of_nat (Abc_NtkObjNumMax pNtk) in
  let p0 :=
    Fxu.mkData (Fxu.nNodesExt p) (Some (Abc.pManFunc pNtk))
      (Vec_PtrFill nMax None)
      (Vec_PtrFill nMax None)
      (Vec_PtrFill (Int_add nMax (Fxu.nNodesExt p)) None)
      (Vec_PtrFill (Int_add nMax (Fxu.nNodesExt p)) None)
      (Fxu.nNodesOld p) (Fxu.nNodesNew p) in
  p1 ← for_each (Abc_NtkFxuCollectInfo_body pNtk) (seq 0 (Abc_NtkObjNumMax pNtk)) p0;
  OK (Fxu.mkData (Fxu.nNodesExt p1) (Fxu.pManSop p1)
        (Fxu.vSops p1) (Fxu.vFanins p1) (Fxu.vSopsNew p1) (Fxu.vFaninsNew p1)
        nMax (Fxu.nNodesNew p1)).

(** Reading through a [&pNode->vFanins] reference in the live network. *)
Definition FaninsRef_deref pNtk (r : FaninsRef) : option (list nat) :=
  match r with
  | FaninsOf Id => Abc.vFanins <$> Abc_NtkLive pNtk Id
  end.

(** The cover that the builder records for identifier [i], if any: the
    object is a logic node and its cover passes both tests of the loop. *)
Definition Fxu_Eligible pNtk (i : nat) : option Sop :=
  pNode ← Abc_NtkLive pNtk i;
  if Abc_ObjIsNode pNode then
    pSop ← Abc.pData pNode;
    if bool_decide (Abc_SopGetVarNum pSop < 2)%Z then None
    else if bool_decide (Abc_SopGetCubeNum pSop < 1)%Z then None
    else Some pSop
  else None.

(** The same, as a relation: a logic node under [i] whose cover has at
    least 2 variables and at least 1 cube. *)
Definition Abc_NodeEligible pNtk (i : nat) (pNode : Abc_Obj_t Sop) (pSop : Sop) : Prop :=
  Abc_NtkLive pNtk i = Some pNode
  ∧ Abc_ObjIsNode pNode = true
  ∧ Abc.pData pNode = Some pSop
  ∧ (2 ≤ Abc_SopGetVarNum pSop)%Z
  ∧ (1 ≤ Abc_SopGetCubeNum pSop)%Z.

(** The network is in cover form: every logic node has a cover for the
    cover functions to read. *)
Definition Abc_ObjHasSop pNtk (i : nat) : bool :=
  match Abc_NtkLive pNtk i with
  | Some pNode => if Abc_ObjIsNode pNode then bool_decide (is_Some (Abc.pData pNode)) else true
  | None => true
  end.

Definition Abc_NtkNodesHaveSop pNtk : bool :=
  forallb (Abc_ObjHasSop pNtk) (seq 0 (Abc_NtkObjNumMax pNtk)).

(** The context with its two original collections replaced. *)
Definition Fxu_WithOriginals p (vSops : list (option Sop))
  (vFanins : list (option FaninsRef)) : Fxu_Data_t Sop :=
  Fxu.mkData (Fxu.nNodesExt p) (Fxu.pManSop p) vSops vFanins
    (Fxu.vSopsNew p) (Fxu.vFaninsNew p) (Fxu.nNodesOld p) (Fxu.nNodesNew p).

(** What the loop of the builder does to slot [i] of the two original
    collections. *)
Definition Abc_NtkFxuCollectInfo_sop pNtk (i : nat) (old : option Sop) : option Sop :=
  match Fxu_Eligible pNtk i with
  | Some pSop => Some pSop
  | None => old
  end.

Definition Abc_NtkFxuCollectInfo_ref pNtk (i : nat) (old : option FaninsRef)
  : option FaninsRef :=
  match Fxu_Eligible pNtk i with
  | Some _ => Some (FaninsOf i)
  | None => old
  end.

(** The context the builder returns, in closed form. *)
Definition Abc_NtkFxuCollectInfo_result pNtk p : Fxu_Data_t Sop :=
  let nMax := Abc_NtkObjNumMax pNtk in
  Fxu.mkData (Fxu.nNodesExt p) (Some (Abc.pManFunc pNtk))
    (Fxu_Eligible pNtk <$> seq 0 nMax)
    ((fun i => (fun _ => FaninsOf i) <$> Fxu_Eligible pNtk i) <$> seq 0 nMax)
    (replicate (Z.to_nat (Int_add (Z.of_nat nMax) (Fxu.nNodesExt p))) None)
    (replicate (Z.to_nat (Int_add (Z.of_nat nMax) (Fxu.nNodesExt p))) None)
    (Z.of_nat nMax) (Fxu.nNodesNew p).

End CollectInfo.

(** ** Abc_NtkFxuReconstruct *)

Section Reconstruct.

Context {Sop : Type}.
Implicit Types (pNtk : Abc_Ntk_t Sop) (p : Fxu_Data_t Sop).

(** [for ( k = 0; k < vFanins->nSize; k++ )]: attach the listed fanins to
    [pNode], in order. *)
Definition Abc_NtkFxuReconstruct_fanins pNtk (pNode : ObjPtr) (vFanins : list Z)
  : Result (Abc_Ntk_t Sop) :=
  for_each (fun k pNtk =>
              Id ← Vec_Read vFanins k;
              pFanin ← Abc_NtkObj pNtk Id;
              Abc_ObjAddFanin pNtk pNode pFanin)
    (seq 0 (length vFanins)) pNtk.

(** First loop: start the new nodes. *)
Definition Abc_NtkFxuReconstruct_create (i : nat) pNtk : Result (Abc_Ntk_t Sop) :=
  let '(Id, pNtk') := Abc_NtkCreateNode pNtk in
  _ ← assert (bool_decide (i = Id));
  OK pNtk'.

(** Second loop: update the old nodes.  (The source reads
    [p->vFaninsNew->pArray[i]] a second time after removing the old fanins;
    nothing has written to the context in between.) *)
Definition Abc_NtkFxuReconstruct_old p (i : nat) pNtk : Result (Abc_Ntk_t Sop) :=
  vFanins ← Vec_Read (Fxu.vFaninsNew p) i;
  match vFanins with
  | None => OK pNtk
  | Some vFanins =>
      pNode ← Abc_NtkObj pNtk (Z.of_nat i);
      pNtk ← Abc_ObjRemoveFanins pNtk pNode;
      pNtk ← Abc_NtkFxuReconstruct_fanins pNtk pNode vFanins;
      pSop ← Vec_Read (Fxu.vSopsNew p) i;
      pNtk ← Abc_ObjSetData pNtk pNode pSop;
      _ ← assert (bool_decide (is_Some pSop));
      OK pNtk
  end.

(** Third loop: set up the new nodes; the fanin list is read without a
    NULL test. *)
Definition Abc_NtkFxuReconstruct_new p (i : nat) pNtk : Result (Abc_Ntk_t Sop) :=
  pNode ← Abc_NtkObj pNtk (Z.of_nat i);
  vFanins ← Vec_Read (Fxu.vFaninsNew p) i;
  match vFanins with
  | None => Crash NullDereference
  | Some vFanins =>
      pNtk ← Abc_NtkFxuReconstruct_fanins pNtk pNode vFanins;
      pSop ← Vec_Read (Fxu.vSopsNew p) i;
      pNtk ← Abc_ObjSetData pNtk pNode pSop;
      _ ← assert (bool_decide (is_Some pSop));
      OK pNtk
  end.

(** The identifiers [i] with
    [p->vFanins->nSize <= i < p->vFanins->nSize + p->nNodesNew]. *)
Definition Fxu_NewIds p : list nat :=
  seq (length (Fxu.vFanins p)) (Z.to_nat (Fxu.nNodesNew p)).

Definition Abc_NtkFxuReconstruct pNtk p : Result (Abc_Ntk_t Sop) :=
  _ ← assert (bool_decide (length (Fxu.vFanins p) < length (Fxu.vFaninsNew p)));
  pNtk ← for_each Abc_NtkFxuReconstruct_create (Fxu_NewIds p) pNtk;
  pNtk ← for_each (Abc_NtkFxuReconstruct_old p) (seq 0 (length (Fxu.vFanins p))) pNtk;
  for_each (Abc_NtkFxuReconstruct_new p) (Fxu_NewIds p) pNtk.

(** *** What a run of the reconstructor amounts to

    The net effect of the second and of the third loop on the slot of one
    identifier, and the conditions on the engine's answer under which no
    assertion fails and no NULL pointer is followed. *)

Definition Abc_NtkFxuReconstruct_old_effect p (i : nat)
  (slot : option (Abc_Obj_t Sop)) : option (Abc_Obj_t Sop) :=
  match Fxu.vFaninsNew p !! i with
  | Some (Some vFanins) =>
      (fun o => Abc.mkObj (Abc.ObjType o) false false (Z.to_nat <$> vFanins)
                  (mjoin (Fxu.vSopsNew p !! i))) <$> slot
  | _ => slot
  end.

Definition Abc_NtkFxuReconstruct_new_effect p (i : nat)
  (slot : option (Abc_Obj_t Sop)) : option (Abc_Obj_t Sop) :=
  match Fxu.vFaninsNew p !! i with
  | Some (Some vFanins) =>
      (fun o => Abc.mkObj (Abc.ObjType o) (Abc.fCompl0 o) (Abc.fCompl1 o)
                  (Abc.vFanins o ++ (Z.to_nat <$> vFanins))
                  (mjoin (Fxu.vSopsNew p !! i))) <$> slot
  | _ => slot
  end.

(** The network after [n] calls of [Abc_NtkCreateNode]. *)
Definition Abc_NtkCreateNodes pNtk (n : nat) : Abc_Ntk_t Sop :=
  Abc_NtkWithObjs pNtk (Abc.vObjs pNtk ++ replicate n (Some Abc_ObjFresh)).

(** Every listed identifier is in range and names a live object. *)
Definition Fxu_FaninsOk pNtk (vFanins : list Z) : bool :=
  forallb (fun Id =>
             bool_decide (0 ≤ Id < Z.of_nat (length (Abc.vObjs pNtk)))%Z
             && bool_decide (is_Some (Abc_NtkLive pNtk (Z.to_nat Id))))
    vFanins.

(** Identifier [i] has an updated fanin list and an updated cover, and the
    network can take them. *)
Definition Fxu_EntryOk pNtk p (i : nat) : bool :=
  match Fxu.vFaninsNew p !! i, Fxu.vSopsNew p !! i with
  | Some (Some vFanins), Some (Some _) =>
      bool_decide (is_Some (Abc_NtkLive pNtk i)) && Fxu_FaninsOk pNtk vFanins
  | _, _ => false
  end.

(** An old identifier either has no updated fanin list or a usable entry. *)
Definition Fxu_OldOk pNtk p (i : nat) : bool :=
  match Fxu.vFaninsNew p !! i with
  | Some None => true
  | _ => Fxu_EntryOk pNtk p i
  end.

(** The engine's side of the contract, as the reconstructor relies on it:
    room for new nodes, the new identifiers continue the network's, and
    every entry is usable once the new nodes exist.  These are exactly the
    answers on which a run ends without a fault
    ([Abc_NtkFxuReconstruct_OK_iff] below). *)
Definition Fxu_ReconstructReady pNtk p : bool :=
  let pNtk1 := Abc_NtkCreateNodes pNtk (Z.to_nat (Fxu.nNodesNew p)) in
  bool_decide (length (Fxu.vFanins p) < length (Fxu.vFaninsNew p))
  && (bool_decide (Fxu.nNodesNew p ≤ 0)%Z
      || bool_decide (length (Fxu.vFanins p) = length (Abc.vObjs pNtk)))
  && forallb (Fxu_OldOk pNtk1 p) (seq 0 (length (Fxu.vFanins p)))
  && forallb (Fxu_EntryOk pNtk1 p) (Fxu_NewIds p).

(** Modelled from the spec: what the engine (the fxu package, not part of
    the source at hand) does with the context [p] it is handed.  It "may
    populate, for any identifier within the extended domain, an updated
    cover and updated fanin list": the answer [p2] has the collections as
    long as they were built.  The updated collections are "pre-extended
    with extra slots for the maximum number of new nodes the caller
    permits": the answer introduces at most [nNodesExt] nodes. *)
Definition Fxu_WithinLimit p p2 : bool :=
  bool_decide (length (Fxu.vFanins p2) = length (Fxu.vFanins p))
  && bool_decide (length (Fxu.vFaninsNew p2) = length (Fxu.vFaninsNew p))
  && bool_decide (Fxu.nNodesNew p2 ≤ Fxu.nNodesExt p)%Z.

(** The vector of objects a successful run leaves behind. *)
Definition Abc_NtkFxuReconstruct_objs pNtk p : list (option (Abc_Obj_t Sop)) :=
  foldl (fun objs i => alter (Abc_NtkFxuReconstruct_new_effect p i) i objs)
    (foldl (fun objs i => alter (Abc_NtkFxuReconstruct_old_effect p i) i objs)
       (Abc.vObjs (Abc_NtkCreateNodes pNtk (Z.to_nat (Fxu.nNodesNew p))))
       (seq 0 (length (Fxu.vFanins p))))
    (Fxu_NewIds p).

End Reconstruct.

(** ** Abc_NtkFastExtract *)

Record Outcome (Sop : Type) : Type := mkOutcome {
  changed : bool;
  network : Abc_Ntk_t Sop;
  context : Fxu_Data_t Sop;
  printed : list Message
}.
Arguments mkOutcome {Sop}.
Arguments changed {Sop}.
Arguments network {Sop}.
Arguments context {Sop}.
Arguments printed {Sop}.

Section FastExtract.

Context {Sop : Type}.
Variable Abc_SopGetVarNum : Sop → Z.
Variable Abc_SopGetCubeNum : Sop → Z.

(** The procedures of other packages that the driver calls are taken as
    parameters: the conversion to covers (it works on the network in place
    and reports success), the sweep (its count is dropped), the engine
    (it reads the context and the live fanin lists the context points
    to, writes the context and returns a count) and the general network
    check. *)
Variable Abc_NtkToSop : Abc_Ntk_t Sop → bool * Abc_Ntk_t Sop.
Variable Abc_NtkCleanup : Abc_Ntk_t Sop → Abc_Ntk_t Sop.
Variable Fxu_FastExtract : Abc_Ntk_t Sop → Fxu_Data_t Sop → Z * Fxu_Data_t Sop.
Variable Abc_NtkCheck : Abc_Ntk_t Sop → bool.

Definition Abc_NtkFastExtract (pNtk : Abc_Ntk_t Sop) (p : Fxu_Data_t Sop)
  : Result (Outcome Sop) :=
  _ ← assert (Abc_NtkIsLogic pNtk);
  let '(fOk, pNtk) := Abc_NtkToSop pNtk in
  if negb fOk then
    OK (mkOutcome false pNtk p [MsgConvertingToSopsFailed])
  else if negb (Abc_NtkFxuCheck pNtk) then
    OK (mkOutcome false pNtk p [MsgDuplicatedOrComplementedFanins])
  else
    let pNtk := Abc_NtkCleanup pNtk in
    p ← Abc_NtkFxuCollectInfo Abc_SopGetVarNum Abc_SopGetCubeNum pNtk p;
    let '(nRes, p) := Fxu_FastExtract pNtk p in
    if bool_decide (nRes > 0)%Z then
      pNtk ← Abc_NtkFxuReconstruct pNtk p;
      OK (mkOutcome true pNtk p
            (if Abc_NtkCheck pNtk then [] else [MsgNetworkCheckFailed]))
    else
      OK (mkOutcome false pNtk p [MsgNotChangedByFx]).

End FastExtract.

(** ** The scenarios of the specification, as data *)

Module Scenario.

(** A cover for the examples: a name, its number of variables and its
    number of cubes. *)
Record cover : Set := mkCover { cv_name : nat; cv_vars : Z; cv_cubes : Z }.

Definition pi : Abc_Obj_t cover := Abc.mkObj Abc.ABC_OBJ_PI false false [] None.
Definition node (fanins : list nat) (c : cover) : Abc_Obj_t cover :=
  Abc.mkObj Abc.ABC_OBJ_NODE false false fanins (Some c).

Definition f3 : cover := mkCover 0 2 3.
Definition fx : cover := mkCover 1 1 1.
Definition gxy : cover := mkCover 2 2 3.

(** Node A is 0 with fanins B = 1 and C = 2, both primary inputs. *)
Definition ntk : Abc_Ntk_t cover :=
  Abc.mkNtk Abc.ABC_NTK_LOGIC Abc.ABC_FUNC_SOP 0
    [Some (node [1; 2] f3); Some pi; Some pi].

(** The same, with the duplicated fanins [B; B]. *)
Definition ntk_dup : Abc_Ntk_t cover :=
  Abc.mkNtk Abc.ABC_NTK_LOGIC Abc.ABC_FUNC_SOP 0
    [Some (node [1; 1] f3); Some pi; Some pi].

(** The caller's context: only the limit on new nodes is set. *)
Definition fresh (nNodesExt : Z) : Fxu_Data_t cover :=
  Fxu.mkData nNodesExt None [] [] [] [] 0 0.

(** The engine's answer of the second scenario: A becomes f(x) over the
    new node 3, which takes over the fanins [B; C] with cover g. *)
Definition extracted (p : Fxu_Data_t cover) : Fxu_Data_t cover :=
  Fxu.mkData (Fxu.nNodesExt p) (Fxu.pManSop p) (Fxu.vSops p) (Fxu.vFanins p)
    (<[3 := Some gxy]> (<[0 := Some fx]> (Fxu.vSopsNew p)))
    (<[3 := Some [1; 2]%Z]> (<[0 := Some [3%Z]]> (Fxu.vFaninsNew p)))
    (Fxu.nNodesOld p) 1.

Definition ToSop_id (pNtk : Abc_Ntk_t cover) : bool * Abc_Ntk_t cover := (true, pNtk).
Definition Cleanup_id (pNtk : Abc_Ntk_t cover) : Abc_Ntk_t cover := pNtk.
Definition Check_yes (pNtk : Abc_Ntk_t cover) : bool := true.

(** "Even a stub that always declines" is a conforming engine. *)
Definition engine_declines (pNtk : Abc_Ntk_t cover) (p : Fxu_Data_t cover)
  : Z * Fxu_Data_t cover := (0%Z, p).
Definition engine_extracts (pNtk : Abc_Ntk_t cover) (p : Fxu_Data_t cover)
  : Z * Fxu_Data_t cover := (1%Z, extracted p).

(** The built context of the first network, and the engine's answer. *)
Definition built : Fxu_Data_t cover :=
  Abc_NtkFxuCollectInfo_result cv_vars cv_cubes ntk (fresh 5).
Definition answer : Fxu_Data_t cover := extracted built.

(** An answer that rewires A but comes without a cover for it. *)
Definition answer_no_cover : Fxu_Data_t cover :=
  Fxu.mkData 5 (Fxu.pManSop built) (Fxu.vSops built) (Fxu.vFanins built)
    (Fxu.vSopsNew built)
    (<[0 := Some [2; 1]%Z]> (Fxu.vFaninsNew built))
    (Fxu.nNodesOld built) 0.

(** An answer that announces one new node but gives it no fanin list. *)
Definition answer_no_fanins : Fxu_Data_t cover :=
  Fxu.mkData 5 (Fxu.pManSop built) (Fxu.vSops built) (Fxu.vFanins built)
    (<[3 := Some gxy]> (Fxu.vSopsNew built))
    (Fxu.vFaninsNew built)
    (Fxu.nNodesOld built) 1.

(** An engine that swaps the two fanins of A and creates no node.  It
    stays within the identifiers the network has. *)
Definition engine_rewires (pNtk : Abc_Ntk_t cover) (p : Fxu_Data_t cover)
  : Z * Fxu_Data_t cover :=
  (1%Z,
   Fxu.mkData (Fxu.nNodesExt p) (Fxu.pManSop p) (Fxu.vSops p) (Fxu.vFanins p)
     (<[0 := Some f3]> (Fxu.vSopsNew p))
     (<[0 := Some [2; 1]%Z]> (Fxu.vFaninsNew p))
     (Fxu.nNodesOld p) 0).

End Scenario.

(** ** Conditions on an answer, for the further properties *)

Section Answers.

Context {Sop : Type}.
Implicit Types (p : Fxu_Data_t Sop).

(** No identifier of the original domain has an updated fanin list. *)
Definition Fxu_NoUpdates p : bool :=
  forallb (fun i => bool_decide (Fxu.vFaninsNew p !! i = Some None))
    (seq 0 (length (Fxu.vFanins p))).

(** No updated fanin list names an identifier twice. *)
Definition Fxu_FaninListsNoDup p : bool :=
  forallb (fun entry =>
             match entry with
             | Some vFanins => bool_decide (NoDup vFanins)
             | None => true
             end) (Fxu.vFaninsNew p).

(** Identifier [i] is one the reconstructor visits: an old one, or one of
    the [nNodesNew] new ones. *)
Definition Fxu_Visited p (i : nat) : Prop :=
  i < length (Fxu.vFanins p) + Z.to_nat (Fxu.nNodesNew p).

End Answers.

(** ** When the driver ends without a fault *)

Section DriverSafety.

Context {Sop : Type}.
Variable Abc_SopGetVarNum : Sop → Z.
Variable Abc_SopGetCubeNum : Sop → Z.
Variable Abc_NtkToSop : Abc_Ntk_t Sop → bool * Abc_Ntk_t Sop.
Variable Abc_NtkCleanup : Abc_Ntk_t Sop → Abc_Ntk_t Sop.
Variable Fxu_FastExtract : Abc_Ntk_t Sop → Fxu_Data_t Sop → Z * Fxu_Data_t Sop.

(** The network is a logic network and, unless the driver declines, the
    swept network is in cover form and the engine either reports nothing
    to do or answers within the contract of the reconstructor. *)
Definition Abc_NtkFastExtractSafe (pNtk : Abc_Ntk_t Sop) (p : Fxu_Data_t Sop) : bool :=
  Abc_NtkIsLogic pNtk
  && (let '(fOk, pNtk1) := Abc_NtkToSop pNtk in
      negb fOk
      || negb (Abc_NtkFxuCheck pNtk1)
      || (let pNtk2 := Abc_NtkCleanup pNtk1 in
          Abc_NtkNodesHaveSop pNtk2
          && (let '(nRes, p2) :=
                Fxu_FastExtract pNtk2
                  (Abc_NtkFxuCollectInfo_result Abc_SopGetVarNum Abc_SopGetCubeNum
                     pNtk2 p) in
              bool_decide (nRes ≤ 0)%Z || Fxu_ReconstructReady pNtk2 p2))).

End DriverSafety.


(** ** Abc_NtkFxuFreeInfo

    Releasing the context is about which allocations go away, so it is
    modelled over a heap of blocks: an address is an index into the heap,
    and a freed or never allocated address holds no block.  The only
    contents that matter are the four collection pointers of the context
    and the entries of a pointer vector. *)

Abbreviation addr := nat.

Inductive block : Set :=
| BlkData (vSops vSopsNew vFanins vFaninsNew : option addr)
| BlkVecPtr (pArray : list (option addr))
| BlkOther.

Abbreviation heap := (list (option block)).

(** The block an address points to; [None] when there is none (NULL is
    not an address here: a pointer that may be NULL is an [option addr]). *)
Definition load (h : heap) (a : addr) : option block := mjoin (h !! a).

(** [ABC_FREE( a )]: releasing an address that holds no block is undefined
    behaviour, [None]. *)
Definition ABC_FREE (h : heap) (a : addr) : option heap :=
  match load h a with
  | Some _ => Some (<[a := None]> h)
  | None => None
  end.

(** Modelled from the spec: the context is "fully released (including every
    per-node fanin-list allocation)"; vec.h is not part of the source at
    hand, and a vector with its array counts as one allocation. *)
Definition Vec_IntFree (h : heap) (a : addr) : option heap := ABC_FREE h a.
Definition Vec_PtrFree (h : heap) (a : addr) : option heap := ABC_FREE h a.

(** [p->nSize] of a pointer vector. *)
Definition Vec_PtrSize (h : heap) (v : addr) : option nat :=
  match load h v with
  | Some (BlkVecPtr pArray) => Some (length pArray)
  | _ => None
  end.

(** [for ( ... ) body] over a heap. *)
Fixpoint for_each_heap (body : nat → heap → option heap) (idxs : list nat) (h : heap)
  : option heap :=
  match idxs with
  | [] => Some h
  | i :: idxs' => h' ← body i h; for_each_heap body idxs' h'
  end.

(** [if ( p->vFaninsNew->pArray[i] ) Vec_IntFree( p->vFaninsNew->pArray[i] )] *)
Definition Abc_NtkFxuFreeInfo_entry (vFaninsNew : addr) (i : nat) (h : heap)
  : option heap :=
  match load h vFaninsNew with
  | Some (BlkVecPtr pArray) =>
      match pArray !! i with
      | Some (Some pVec) => Vec_IntFree h pVec
      | Some None => Some h
      | None => None
      end
  | _ => None
  end.

(** [if ( v ) Vec_PtrFree( v )] *)
Definition Abc_NtkFxuFreeInfo_vec (h : heap) (v : option addr) : option heap :=
  match v with
  | Some a => Vec_PtrFree h a
  | None => Some h
  end.

Definition Abc_NtkFxuFreeInfo (h : heap) (p : addr) : option heap :=
  match load h p with
  | Some (BlkData vSops vSopsNew vFanins vFaninsNew) =>
      h ← match vFaninsNew with
          | Some v =>
              nSize ← Vec_PtrSize h v;
              for_each_heap (Abc_NtkFxuFreeInfo_entry v) (seq 0 nSize) h
          | None => Some h
          end;
      h ← Abc_NtkFxuFreeInfo_vec h vSops;
      h ← Abc_NtkFxuFreeInfo_vec h vSopsNew;
      h ← Abc_NtkFxuFreeInfo_vec h vFanins;
      h ← Abc_NtkFxuFreeInfo_vec h vFaninsNew;
      ABC_FREE h p
  | _ => None
  end.

(** The non-NULL pointers of a list. *)
Definition NonNull (ptrs : list (option addr)) : list addr := omap id ptrs.

(** The addresses the context owns: the fanin lists stored in the updated
    fanin collection, the four collections, and the context itself. *)
Definition Fxu_OwnedBlocks (h : heap) (p : addr) : option (list addr) :=
  match load h p with
  | Some (BlkData vSops vSopsNew vFanins vFaninsNew) =>
      entries ← match vFaninsNew with
                | Some v =>
                    match load h v with
                    | Some (BlkVecPtr pArray) => Some (NonNull pArray)
                    | _ => None
                    end
                | None => Some []
                end;
      Some (entries ++ NonNull [vSops; vSopsNew; vFanins; vFaninsNew] ++ [p])
  | _ => None
  end.

(** Each owned address holds a block and no two of them coincide. *)
Definition Fxu_OwnsDistinct (h : heap) (p : addr) : bool :=
  match Fxu_OwnedBlocks h p with
  | Some blocks =>
      bool_decide (NoDup blocks)
      && forallb (fun a => bool_decide (is_Some (load h a))) blocks
  | None => false
  end.

(** The heap with the listed addresses released. *)
Definition heap_without (h : heap) (blocks : list addr) : heap :=
  foldl (fun h a => <[a := None]> h) h blocks.

(** ** More scenarios *)

Module Scenario2.

Import Scenario.

(** The first network after the engine's answer has been applied. *)
Definition ntk_after : Abc_Ntk_t cover :=
  Abc.mkNtk Abc.ABC_NTK_LOGIC Abc.ABC_FUNC_SOP 0
    [Some (node [3] fx); Some pi; Some pi; Some (node [1; 2] gxy)].

(** The answer of the engine that swaps the two fanins of A, and the
    network it leads to. *)
Definition answer_rewired : Fxu_Data_t cover := snd (engine_rewires ntk built).
Definition ntk_rewired : Abc_Ntk_t cover :=
  Abc.mkNtk Abc.ABC_NTK_LOGIC Abc.ABC_FUNC_SOP 0
    [Some (node [2; 1] f3); Some pi; Some pi].

(** An answer that wires A to B twice. *)
Definition answer_dup : Fxu_Data_t cover :=
  Fxu.mkData 5 (Fxu.pManSop built) (Fxu.vSops built) (Fxu.vFanins built)
    (<[0 := Some f3]> (Fxu.vSopsNew built))
    (<[0 := Some [1; 1]%Z]> (Fxu.vFaninsNew built))
    (Fxu.nNodesOld built) 0.

(** A heap with a context at address 0 after an extraction: the four
    collections at 1 to 4, two new fanin lists at 5 and 6, and, owned by
    the network, three covers at 10 to 12 and the fanin vector of node A
    at 13. *)
Definition heap_owned : heap :=
  [Some (BlkData (Some 1) (Some 2) (Some 3) (Some 4));
   Some (BlkVecPtr [Some 10; None; None]);
   Some (BlkVecPtr [Some 11; None; None; Some 12; None]);
   Some (BlkVecPtr [Some 13; None; None]);
   Some (BlkVecPtr [Some 5; None; None; Some 6; None]);
   Some BlkOther; Some BlkOther; None; None; None;
   Some BlkOther; Some BlkOther; Some BlkOther; Some BlkOther].

(** The same, with one fanin list stored under two identifiers. *)
Definition heap_shared : heap :=
  <[4 := Some (BlkVecPtr [Some 5; None; None; Some 5; None])]> heap_owned.

End Scenario2.

(** ** Properties of the precondition check *)

Section CheckProperties.

Context {Sop : Type}.
Implicit Types (pNtk : Abc_Ntk_t Sop) (pNode : Abc_Obj_t Sop).

Lemma Abc_NtkFxuCheck_k_false pNtk pNode i ks :
  Abc_NtkFxuCheck_k pNtk pNode i ks = false ↔
  ∃ k, k ∈ ks ∧ i ≠ k ∧ Abc_ObjFanin pNtk pNode i = Abc_ObjFanin pNtk pNode k.
Proof.
  induction ks as [|k ks IH]; simpl.
  - split; [done | intros (k & Hk & _); by apply elem_of_nil in Hk].
  - repeat case_bool_decide.
    + rewrite IH. split.
      * intros (k' & ? & ? & ?). exists k'. by rewrite elem_of_cons; auto.
      * intros (k' & [-> | ?]%elem_of_cons & ? & ?); [done | eauto].
    + split; [intros _; exists k; rewrite elem_of_cons; auto | done].
    + rewrite IH. split.
      * intros (k' & ? & ? & ?). exists k'. by rewrite elem_of_cons; auto.
      * intros (k' & [-> | ?]%elem_of_cons & ? & ?); [done | eauto].
Qed.

Lemma Abc_NtkFxuCheck_i_false pNtk pNode idxs :
  Abc_NtkFxuCheck_i pNtk pNode idxs = false ↔
  ∃ i, i ∈ idxs ∧
       ((i < 2 ∧ Abc_ObjFaninC pNode i = true)
        ∨ Abc_NtkFxuCheck_k pNtk pNode i (seq 0 (Abc_ObjFaninNum pNode)) = false).
Proof.
  induction idxs as [|i idxs IH]; simpl.
  - split; [done | intros (k & Hk & _); by apply elem_of_nil in Hk].
  - destruct (bool_decide (i < 2) && Abc_ObjFaninC pNode i) eqn:Hc.
    { apply andb_true_iff in Hc as [Hlt%bool_decide_eq_true Hc].
      split; [intros _; exists i; rewrite elem_of_cons; auto | done]. }
    destruct (Abc_NtkFxuCheck_k pNtk pNode i _) eqn:Hk.
    + rewrite IH. split.
      * intros (i' & ? & ?). exists i'. by rewrite elem_of_cons; auto.
      * intros (i' & [-> | ?]%elem_of_cons & Hbad); [|eauto].
        destruct Hbad as [[Hlt Hc'] | Hk']; [|congruence].
        rewrite Hc', andb_true_r in Hc. by apply bool_decide_eq_false in Hc.
    + split; [intros _; exists i; rewrite elem_of_cons; auto | done].
Qed.

Lemma Abc_NtkFxuCheck_n_false pNtk objs :
  Abc_NtkFxuCheck_n pNtk objs = false ↔
  ∃ pNode, Some pNode ∈ objs ∧ Abc_ObjIsNode pNode = true
           ∧ Abc_NtkFxuCheck_i pNtk pNode (seq 0 (Abc_ObjFaninNum pNode)) = false.
Proof.
  induction objs as [|[pNode|] objs IH]; simpl.
  - split; [done | intros (k & Hk & _); by apply elem_of_nil in Hk].
  - destruct (Abc_ObjIsNode pNode) eqn:Hn; simpl.
    + destruct (Abc_NtkFxuCheck_i pNtk pNode _) eqn:Hi.
      * rewrite IH. split.
        -- intros (o & ? & ?). exists o. by rewrite elem_of_cons; auto.
        -- intros (o & [[= ->] | ?]%elem_of_cons & ? & ?); [congruence | eauto].
      * split; [intros _; exists pNode; rewrite elem_of_cons; auto | done].
    + rewrite IH. split.
      * intros (o & ? & ?). exists o. by rewrite elem_of_cons; auto.
      * intros (o & [[= ->] | ?]%elem_of_cons & ? & ?); [congruence | eauto].
  - rewrite IH. split.
    + intros (o & ? & ?). exists o. by rewrite elem_of_cons; auto.
    + intros (o & [? | ?]%elem_of_cons & ? & ?); [done | eauto].
Qed.

(** On a network without dangling edges, two fanin slots hold the same
    pointer exactly when they hold the same identifier. *)
Lemma Abc_ObjFanin_live pNtk n pNode i t :
  Abc_NtkFaninsLive pNtk = true →
  Abc.vObjs pNtk !! n = Some (Some pNode) →
  Abc.vFanins pNode !! i = Some t →
  Abc_ObjFanin pNtk pNode i = Some t.
Proof.
  intros Hwf Hn Hi. unfold Abc_NtkFaninsLive in Hwf.
  rewrite forallb_forall in Hwf.
  specialize (Hwf (Some pNode)). simpl in Hwf.
  rewrite forallb_forall in Hwf.
  assert (Hlive : is_Some (Abc_NtkLive pNtk t)).
  { eapply bool_decide_eq_true, Hwf.
    - apply list_elem_of_In, list_elem_of_lookup. eauto.
    - apply list_elem_of_In, list_elem_of_lookup. eauto. }
  destruct Hlive as [o' Ho']. unfold Abc_ObjFanin. rewrite Hi. simpl.
  by rewrite Ho'.
Qed.

(** The scan, read off in terms of pointers: no assumption on the
    network. *)
Lemma Abc_NtkFxuCheck_false_ptr pNtk :
  Abc_NtkFxuCheck pNtk = false ↔
  ∃ n pNode, Abc.vObjs pNtk !! n = Some (Some pNode)
    ∧ Abc_ObjIsNode pNode = true
    ∧ ∃ i, i < Abc_ObjFaninNum pNode
        ∧ ((i < 2 ∧ Abc_ObjFaninC pNode i = true)
           ∨ ∃ k, k < Abc_ObjFaninNum pNode ∧ i ≠ k
                  ∧ Abc_ObjFanin pNtk pNode i = Abc_ObjFanin pNtk pNode k).
Proof.
  unfold Abc_NtkFxuCheck. rewrite Abc_NtkFxuCheck_n_false. split.
  - intros (pNode & (n & Hn)%list_elem_of_lookup & Hnode & Hi).
    exists n, pNode. split_and!; [done..|].
    apply Abc_NtkFxuCheck_i_false in Hi as (i & Hi & Hbad).
    apply elem_of_seq in Hi. exists i. split; [lia|].
    destruct Hbad as [? | Hk]; [by left | right].
    apply Abc_NtkFxuCheck_k_false in Hk as (k & Hk%elem_of_seq & ? & ?).
    exists k. split_and!; [lia | done..].
  - intros (n & pNode & Hn & Hnode & i & Hi & Hbad).
    exists pNode. split_and!; [by eapply list_elem_of_lookup_2 | done |].
    apply Abc_NtkFxuCheck_i_false. exists i. split; [apply elem_of_seq; lia|].
    destruct Hbad as [? | (k & Hk & ? & ?)]; [by left | right].
    apply Abc_NtkFxuCheck_k_false. exists k.
    split_and!; [apply elem_of_seq; lia | done..].
Qed.

(** C3.  On every network (one that keeps the invariant of the data model:
    no fanin names a hole), [Abc_NtkFxuCheck] returns false if and only if
    some logic node has an inverted fanin in positional slot 0 or 1, or
    has two distinct fanin slots that reference the same node; otherwise
    it returns true. *)
Theorem Abc_NtkFxuCheck_sound pNtk :
  Abc_NtkFaninsLive pNtk = true →
  (Abc_NtkFxuCheck pNtk = false ↔ FxuViolation pNtk)
  ∧ (¬ FxuViolation pNtk → Abc_NtkFxuCheck pNtk = true).
Proof.
  intros Hwf.
  assert (Hiff : Abc_NtkFxuCheck pNtk = false ↔ FxuViolation pNtk).
  { rewrite Abc_NtkFxuCheck_false_ptr. unfold FxuViolation. split.
    - intros (n & pNode & Hn & Hnode & i & Hi & Hbad).
      exists n, pNode. split_and!; [done..|].
      destruct Hbad as [[? ?] | (k & Hk & Hne & Heq)].
      + left. exists i. done.
      + right.
        destruct (lookup_lt_is_Some_2 _ _ Hi) as [t Ht].
        destruct (lookup_lt_is_Some_2 _ _ Hk) as [t' Ht'].
        rewrite (Abc_ObjFanin_live _ _ _ _ _ Hwf Hn Ht) in Heq.
        rewrite (Abc_ObjFanin_live _ _ _ _ _ Hwf Hn Ht') in Heq.
        exists i, k, t. split_and!; [done..|congruence].
    - intros (n & pNode & Hn & Hnode & Hbad).
      exists n, pNode. split_and!; [done..|].
      destruct Hbad as [(i & ? & ? & ?) | (i & k & t & Hne & Ht & Ht')].
      + exists i. split; [done|]. by left.
      + exists i. split; [by eapply lookup_lt_Some|]. right.
        exists k. split_and!; [by eapply lookup_lt_Some | done |].
        by rewrite (Abc_ObjFanin_live _ _ _ _ _ Hwf Hn Ht),
                   (Abc_ObjFanin_live _ _ _ _ _ Hwf Hn Ht'). }
  split; [done|].
  intros Hno. apply not_false_iff_true. intros Hc. by apply Hno, Hiff.
Qed.

End CheckProperties.

(** ** C integers *)

Lemma Int_add_exact (a b : Z) :
  (INT_MIN ≤ a + b ≤ INT_MAX)%Z → Int_add a b = (a + b)%Z.
Proof.
  unfold Int_add, INT_MIN, INT_MAX. intros Hab.
  rewrite Z.mod_small by lia. lia.
Qed.

(** ** The error monad and the loop combinator *)

Lemma bind_OK {A B : Type} (r : Result A) (k : A → Result B) (b : B) :
  r ≫= k = OK b ↔ ∃ a, r = OK a ∧ k a = OK b.
Proof.
  destruct r as [a|f]; simpl; split.
  - intros H. by exists a.
  - by intros (a' & [= <-] & H).
  - done.
  - by intros (a' & [=] & _).
Qed.

Lemma forallb_pointwise {A : Type} (f g : A → bool) (l : list A) :
  (∀ x, f x = g x) → forallb f l = forallb g l.
Proof. intros Hfg. induction l as [|x l IH]; simpl; [done | by rewrite Hfg, IH]. Qed.

Lemma Vec_Read_middle {A : Type} (pre l : list A) (x : A) :
  Vec_Read (pre ++ x :: l) (length pre) = OK x.
Proof. unfold Vec_Read. by rewrite list_lookup_middle. Qed.

(** Rewriting slots one index at a time: each index sees its own rewrite
    once. *)
Lemma foldl_alter_lookup {A : Type} (eff : nat → A → A) idxs (l : list A) j :
  NoDup idxs →
  foldl (fun l i => alter (eff i) i l) l idxs !! j
  = if decide (j ∈ idxs) then eff j <$> l !! j else l !! j.
Proof.
  revert l. induction idxs as [|i idxs IH]; intros l Hnd.
  - destruct (decide (j ∈ [])) as [Hj|_]; [by apply elem_of_nil in Hj | done].
  - apply NoDup_cons in Hnd as [Hi Hnd]. cbn [foldl]. rewrite IH by done.
    destruct (decide (j = i)) as [->|Hne].
    + destruct (decide (i ∈ idxs)) as [|_]; [done|].
      destruct (decide (i ∈ i :: idxs)) as [_|Hn]; [|exfalso; apply Hn; by left].
      apply list_lookup_alter_eq.
    + rewrite list_lookup_alter_ne by done.
      destruct (decide (j ∈ idxs)) as [Hj|Hj];
        destruct (decide (j ∈ i :: idxs)) as [Hj'|Hj']; try done.
      * exfalso. apply Hj'. by right.
      * exfalso. apply elem_of_cons in Hj' as [|]; done.
Qed.

Lemma foldl_alter_length {A : Type} (eff : nat → A → A) idxs (l : list A) :
  length (foldl (fun l i => alter (eff i) i l) l idxs) = length l.
Proof.
  revert l. induction idxs as [|i idxs IH]; intros l; simpl; [done|].
  by rewrite IH, length_alter.
Qed.

(** ** Properties of the graph accessor *)

Section AccessorProperties.

Context {Sop : Type}.
Implicit Types (pNtk : Abc_Ntk_t Sop) (o : Abc_Obj_t Sop)
  (objs : list (option (Abc_Obj_t Sop))).

Lemma SameShape_refl pNtk : SameShape pNtk pNtk.
Proof. by split. Qed.

Lemma SameShape_trans pNtk1 pNtk2 pNtk3 :
  SameShape pNtk1 pNtk2 → SameShape pNtk2 pNtk3 → SameShape pNtk1 pNtk3.
Proof.
  intros [Hl1 H1] [Hl2 H2]. split; [congruence|].
  intros j. by rewrite H1.
Qed.

Lemma Abc_NtkWithObjs_id pNtk : Abc_NtkWithObjs pNtk (Abc.vObjs pNtk) = pNtk.
Proof. by destruct pNtk. Qed.

Lemma Abc_NtkWithObjs_twice pNtk objs objs' :
  Abc_NtkWithObjs (Abc_NtkWithObjs pNtk objs) objs' = Abc_NtkWithObjs pNtk objs'.
Proof. done. Qed.

Lemma Abc_NtkLive_Some pNtk Id o :
  Abc_NtkLive pNtk Id = Some o ↔ Abc.vObjs pNtk !! Id = Some (Some o).
Proof.
  unfold Abc_NtkLive. destruct (Abc.vObjs pNtk !! Id) as [[o'|]|]; simpl;
    split; congruence.
Qed.

Lemma Abc_NtkLive_lt pNtk Id :
  is_Some (Abc_NtkLive pNtk Id) → Id < length (Abc.vObjs pNtk).
Proof.
  intros [o Ho%Abc_NtkLive_Some]. by eapply lookup_lt_Some.
Qed.

(** Changing the contents of slots, never their occupancy, keeps the
    shape. *)
Lemma SameShape_alter pNtk (g : option (Abc_Obj_t Sop) → option (Abc_Obj_t Sop)) i :
  (∀ slot, is_Some (g slot) ↔ is_Some slot) →
  SameShape pNtk (Abc_NtkWithObjs pNtk (alter g i (Abc.vObjs pNtk))).
Proof.
  intros Hg. split; simpl; [by rewrite length_alter|].
  intros j. unfold Abc_NtkLive. simpl. rewrite list_lookup_alter.
  case_decide as Hij; [subst j|done].
  destruct (Abc.vObjs pNtk !! i) as [slot|]; simpl; [apply symmetry, Hg | done].
Qed.

Lemma alter_lookup_insert objs (g : option (Abc_Obj_t Sop) → option (Abc_Obj_t Sop)) i slot :
  objs !! i = Some slot → alter g i objs = <[i := g slot]> objs.
Proof.
  intros Hi. apply list_eq. intros j. rewrite list_lookup_alter, list_lookup_insert.
  repeat case_decide; try done.
  - subst j. by rewrite Hi.
  - destruct_and?. subst j. exfalso. apply lookup_lt_Some in Hi. tauto.
  - destruct_and?. congruence.
Qed.

Lemma Abc_ObjUpdate_live pNtk Id o f :
  Abc_NtkLive pNtk Id = Some o →
  Abc_ObjUpdate pNtk (Some Id) f
  = OK (Abc_NtkWithObjs pNtk (<[Id := Some (f o)]> (Abc.vObjs pNtk))).
Proof. intros Ho. unfold Abc_ObjUpdate. by rewrite Ho. Qed.

Lemma Abc_NtkLive_insert pNtk Id o :
  Id < length (Abc.vObjs pNtk) →
  Abc_NtkLive (Abc_NtkWithObjs pNtk (<[Id := Some o]> (Abc.vObjs pNtk))) Id = Some o.
Proof.
  intros Hlt. unfold Abc_NtkLive. simpl. by rewrite list_lookup_insert_eq.
Qed.

Lemma SameShape_insert pNtk Id o :
  is_Some (Abc_NtkLive pNtk Id) →
  SameShape pNtk (Abc_NtkWithObjs pNtk (<[Id := Some o]> (Abc.vObjs pNtk))).
Proof.
  intros Hlive. split; simpl; [by rewrite length_insert|].
  intros j. unfold Abc_NtkLive at 2. simpl.
  destruct (decide (Id = j)) as [<-|Hne].
  - rewrite list_lookup_insert_eq by by apply Abc_NtkLive_lt. simpl.
    split; [eauto | done].
  - by rewrite list_lookup_insert_ne.
Qed.

Lemma Abc_NtkObj_live pNtk (Id : nat) :
  is_Some (Abc_NtkLive pNtk Id) → Abc_NtkObj pNtk (Z.of_nat Id) = OK (Some Id).
Proof.
  intros Hlive. unfold Abc_NtkObj.
  rewrite bool_decide_eq_true_2
    by (apply Abc_NtkLive_lt in Hlive; lia).
  simpl. rewrite Nat2Z.id. by destruct Hlive as [o ->].
Qed.

Lemma Abc_NtkObj_ok pNtk (Id : Z) :
  (0 ≤ Id < Z.of_nat (length (Abc.vObjs pNtk)))%Z →
  is_Some (Abc_NtkLive pNtk (Z.to_nat Id)) →
  Abc_NtkObj pNtk Id = OK (Some (Z.to_nat Id)).
Proof.
  intros Hrange Hlive. unfold Abc_NtkObj.
  rewrite bool_decide_eq_true_2 by done. simpl. by destruct Hlive as [o ->].
Qed.

Lemma assert_OK (b : bool) (u : unit) : assert b = OK u → b = true.
Proof. by destruct b. Qed.

Lemma Abc_ObjUpdate_OK pNtk pObj f pNtk' :
  Abc_ObjUpdate pNtk pObj f = OK pNtk' →
  ∃ Id o, pObj = Some Id ∧ Abc_NtkLive pNtk Id = Some o
          ∧ pNtk' = Abc_NtkWithObjs pNtk (<[Id := Some (f o)]> (Abc.vObjs pNtk)).
Proof.
  unfold Abc_ObjUpdate. destruct pObj as [Id|]; [|done].
  destruct (Abc_NtkLive pNtk Id) as [o|] eqn:Ho; [|done].
  intros [= <-]. by exists Id, o.
Qed.

Lemma Abc_NtkObj_OK pNtk (Id : Z) pObj :
  Abc_NtkObj pNtk Id = OK pObj →
  (0 ≤ Id < Z.of_nat (length (Abc.vObjs pNtk)))%Z
  ∧ ∀ n, pObj = Some n → n = Z.to_nat Id ∧ is_Some (Abc_NtkLive pNtk n).
Proof.
  unfold Abc_NtkObj. case_bool_decide as Hrange; [|done]. simpl.
  intros [= <-]. split; [done|]. intros n.
  destruct (Abc_NtkLive pNtk (Z.to_nat Id)) as [o|] eqn:Ho; simpl; [|done].
  intros [= <-]. split; [done|]. rewrite Ho. eauto.
Qed.

End AccessorProperties.

(** ** Properties of the reconstructor *)

Section ReconstructProperties.

Context {Sop : Type}.
Implicit Types (pNtk : Abc_Ntk_t Sop) (p : Fxu_Data_t Sop) (o : Abc_Obj_t Sop)
  (objs : list (option (Abc_Obj_t Sop))).

Lemma Fxu_FaninsOk_shape pNtk pNtk' vFanins :
  SameShape pNtk pNtk' → Fxu_FaninsOk pNtk vFanins = Fxu_FaninsOk pNtk' vFanins.
Proof.
  intros [Hlen Hlive]. unfold Fxu_FaninsOk.
  induction vFanins as [|Id l IH]; simpl; [done|].
  rewrite IH, Hlen. do 2 f_equal. apply bool_decide_ext, Hlive.
Qed.

Lemma Fxu_EntryOk_shape pNtk pNtk' p i :
  SameShape pNtk pNtk' → Fxu_EntryOk pNtk p i = Fxu_EntryOk pNtk' p i.
Proof.
  intros Hs. unfold Fxu_EntryOk.
  destruct (Fxu.vFaninsNew p !! i) as [[l|]|]; [|done..].
  destruct (Fxu.vSopsNew p !! i) as [[c|]|]; [|done..].
  rewrite (Fxu_FaninsOk_shape _ _ _ Hs). f_equal.
  apply bool_decide_ext, Hs.
Qed.

Lemma Fxu_OldOk_shape pNtk pNtk' p i :
  SameShape pNtk pNtk' → Fxu_OldOk pNtk p i = Fxu_OldOk pNtk' p i.
Proof.
  intros Hs. unfold Fxu_OldOk. rewrite (Fxu_EntryOk_shape _ _ _ _ Hs). done.
Qed.

(** The fanin loop on a live node appends the listed identifiers, in
    order, to the fanins the node has. *)
Lemma Abc_NtkFxuReconstruct_fanins_from pNtk n o (pre vFanins : list Z) :
  Abc_NtkLive pNtk n = Some o →
  Fxu_FaninsOk pNtk vFanins = true →
  for_each (fun k pNtk =>
              Id ← Vec_Read (pre ++ vFanins) k;
              pFanin ← Abc_NtkObj pNtk Id;
              Abc_ObjAddFanin pNtk (Some n) pFanin)
    (seq (length pre) (length vFanins)) pNtk
  = OK (Abc_NtkWithObjs pNtk
          (<[n := Some (Abc.mkObj (Abc.ObjType o) (Abc.fCompl0 o) (Abc.fCompl1 o)
                          (Abc.vFanins o ++ (Z.to_nat <$> vFanins)) (Abc.pData o))]>
             (Abc.vObjs pNtk))).
Proof.
  revert pNtk o pre. induction vFanins as [|Id l IH]; intros pNtk o pre Ho Hok.
  - simpl. rewrite app_nil_r. f_equal.
    rewrite list_insert_id; [by rewrite Abc_NtkWithObjs_id|].
    apply Abc_NtkLive_Some in Ho. rewrite Ho. by destruct o.
  - simpl in Hok. apply andb_true_iff in Hok as [Hid Hl].
    apply andb_true_iff in Hid as [Hrange%bool_decide_eq_true Hlive%bool_decide_eq_true].
    cbn [length seq for_each].
    rewrite Vec_Read_middle.
    cbn [mbind Result_bind]. rewrite (Abc_NtkObj_ok _ _ Hrange Hlive).
    cbn [mbind Result_bind Abc_ObjAddFanin]. rewrite (Abc_ObjUpdate_live _ _ _ _ Ho).
    cbn [mbind Result_bind].
    assert (Hn : is_Some (Abc_NtkLive pNtk n)) by eauto.
    set (o1 := Abc.mkObj _ _ _ (Abc.vFanins o ++ [Z.to_nat Id]) _).
    set (pNtk1 := Abc_NtkWithObjs pNtk _).
    assert (Hs : SameShape pNtk pNtk1) by by apply SameShape_insert.
    specialize (IH pNtk1 o1 (pre ++ [Id])).
    rewrite length_app, Nat.add_1_r, <- app_assoc in IH. simpl in IH.
    rewrite IH.
    + f_equal. unfold pNtk1. rewrite Abc_NtkWithObjs_twice. simpl.
      rewrite list_insert_insert_eq. by rewrite <- app_assoc.
    + apply Abc_NtkLive_insert. by apply Abc_NtkLive_lt.
    + by rewrite <- (Fxu_FaninsOk_shape _ _ _ Hs).
Qed.

Lemma Abc_NtkFxuReconstruct_fanins_ok pNtk n o (vFanins : list Z) :
  Abc_NtkLive pNtk n = Some o →
  Fxu_FaninsOk pNtk vFanins = true →
  Abc_NtkFxuReconstruct_fanins pNtk (Some n) vFanins
  = OK (Abc_NtkWithObjs pNtk
          (<[n := Some (Abc.mkObj (Abc.ObjType o) (Abc.fCompl0 o) (Abc.fCompl1 o)
                          (Abc.vFanins o ++ (Z.to_nat <$> vFanins)) (Abc.pData o))]>
             (Abc.vObjs pNtk))).
Proof. apply (Abc_NtkFxuReconstruct_fanins_from pNtk n o []). Qed.

Lemma Abc_NtkFxuReconstruct_old_ok pNtk p i :
  Fxu_OldOk pNtk p i = true →
  Abc_NtkFxuReconstruct_old p i pNtk
  = OK (Abc_NtkWithObjs pNtk
          (alter (Abc_NtkFxuReconstruct_old_effect p i) i (Abc.vObjs pNtk))).
Proof.
  unfold Fxu_OldOk, Fxu_EntryOk, Abc_NtkFxuReconstruct_old,
    Abc_NtkFxuReconstruct_old_effect, Vec_Read.
  destruct (Fxu.vFaninsNew p !! i) as [[l|]|]; [| |done].
  - destruct (Fxu.vSopsNew p !! i) as [[c|]|]; [|done..].
    intros [Hlive%bool_decide_eq_true Hok]%andb_true_iff.
    cbn [mbind Result_bind]. rewrite (Abc_NtkObj_live _ _ Hlive).
    destruct Hlive as [o Ho]. cbn [mbind Result_bind].
    unfold Abc_ObjRemoveFanins. rewrite (Abc_ObjUpdate_live _ _ _ _ Ho).
    cbn [mbind Result_bind].
    assert (Hlt : i < length (Abc.vObjs pNtk)) by (apply Abc_NtkLive_lt; eauto).
    set (pNtk1 := Abc_NtkWithObjs pNtk _).
    assert (Hs : SameShape pNtk pNtk1) by (apply SameShape_insert; eauto).
    erewrite Abc_NtkFxuReconstruct_fanins_ok;
      [| by apply Abc_NtkLive_insert | by rewrite <- (Fxu_FaninsOk_shape _ _ _ Hs)].
    cbn [mbind Result_bind].
    unfold Abc_ObjSetData. erewrite Abc_ObjUpdate_live; cycle 1.
    { apply Abc_NtkLive_insert. simpl. by rewrite length_insert. }
    cbn [mbind Result_bind assert bool_decide]. rewrite bool_decide_eq_true_2 by eauto.
    cbn. f_equal. unfold Abc_NtkWithObjs. simpl. f_equal.
    rewrite !list_insert_insert_eq.
    apply Abc_NtkLive_Some in Ho. by rewrite (alter_lookup_insert _ _ _ _ Ho).
  - intros _. cbn. by rewrite list_alter_id, Abc_NtkWithObjs_id.
Qed.

Lemma Abc_NtkFxuReconstruct_new_ok pNtk p i :
  Fxu_EntryOk pNtk p i = true →
  Abc_NtkFxuReconstruct_new p i pNtk
  = OK (Abc_NtkWithObjs pNtk
          (alter (Abc_NtkFxuReconstruct_new_effect p i) i (Abc.vObjs pNtk))).
Proof.
  unfold Fxu_EntryOk, Abc_NtkFxuReconstruct_new,
    Abc_NtkFxuReconstruct_new_effect, Vec_Read.
  destruct (Fxu.vFaninsNew p !! i) as [[l|]|]; [|done..].
  destruct (Fxu.vSopsNew p !! i) as [[c|]|]; [|done..].
  intros [Hlive%bool_decide_eq_true Hok]%andb_true_iff.
  rewrite (Abc_NtkObj_live _ _ Hlive).
  destruct Hlive as [o Ho]. cbn [mbind Result_bind].
  assert (Hlt : i < length (Abc.vObjs pNtk)) by (apply Abc_NtkLive_lt; eauto).
  rewrite (Abc_NtkFxuReconstruct_fanins_ok _ _ _ _ Ho Hok).
  cbn [mbind Result_bind].
  unfold Abc_ObjSetData. erewrite Abc_ObjUpdate_live; cycle 1.
  { by apply Abc_NtkLive_insert. }
  cbn [mbind Result_bind assert bool_decide]. rewrite bool_decide_eq_true_2 by eauto.
  cbn. f_equal. unfold Abc_NtkWithObjs. simpl. f_equal.
  rewrite !list_insert_insert_eq.
  apply Abc_NtkLive_Some in Ho. by rewrite (alter_lookup_insert _ _ _ _ Ho).
Qed.

Lemma Abc_NtkFxuReconstruct_old_effect_is_Some p i slot :
  is_Some (Abc_NtkFxuReconstruct_old_effect p i slot) ↔ is_Some slot.
Proof.
  unfold Abc_NtkFxuReconstruct_old_effect.
  destruct (Fxu.vFaninsNew p !! i) as [[l|]|]; [apply fmap_is_Some | done..].
Qed.

Lemma Abc_NtkFxuReconstruct_new_effect_is_Some p i slot :
  is_Some (Abc_NtkFxuReconstruct_new_effect p i slot) ↔ is_Some slot.
Proof.
  unfold Abc_NtkFxuReconstruct_new_effect.
  destruct (Fxu.vFaninsNew p !! i) as [[l|]|]; [apply fmap_is_Some | done..].
Qed.

Lemma Abc_NtkFxuReconstruct_create_next pNtk :
  Abc_NtkFxuReconstruct_create (length (Abc.vObjs pNtk)) pNtk
  = OK (Abc_NtkWithObjs pNtk (Abc.vObjs pNtk ++ [Some Abc_ObjFresh])).
Proof.
  unfold Abc_NtkFxuReconstruct_create. simpl.
  by rewrite bool_decide_eq_true_2.
Qed.

(** The first loop: the nodes are created exactly when the identifiers
    asked for continue the network's. *)
Lemma Abc_NtkFxuReconstruct_create_ok pNtk (a n : nat) :
  n = 0 ∨ a = length (Abc.vObjs pNtk) →
  for_each Abc_NtkFxuReconstruct_create (seq a n) pNtk
  = OK (Abc_NtkCreateNodes pNtk n).
Proof.
  revert a pNtk. induction n as [|n IH]; intros a pNtk Ha.
  - simpl. unfold Abc_NtkCreateNodes. simpl.
    by rewrite app_nil_r, Abc_NtkWithObjs_id.
  - destruct Ha as [Hz | Ha]; [done|]. subst a. simpl.
    rewrite Abc_NtkFxuReconstruct_create_next. cbn [mbind Result_bind].
    rewrite IH.
    + unfold Abc_NtkCreateNodes. simpl. by rewrite <- app_assoc.
    + right. simpl. rewrite length_app. simpl. lia.
Qed.

(** A loop whose body rewrites the slot of its own index. *)
Lemma for_each_alter (body : nat → Abc_Ntk_t Sop → Result (Abc_Ntk_t Sop))
    (eff : nat → option (Abc_Obj_t Sop) → option (Abc_Obj_t Sop))
    (ok : Abc_Ntk_t Sop → nat → bool) idxs pNtk :
  (∀ i pNtk, ok pNtk i = true →
     body i pNtk = OK (Abc_NtkWithObjs pNtk (alter (eff i) i (Abc.vObjs pNtk)))) →
  (∀ i pNtk pNtk', SameShape pNtk pNtk' → ok pNtk i = ok pNtk' i) →
  (∀ i slot, is_Some (eff i slot) ↔ is_Some slot) →
  forallb (ok pNtk) idxs = true →
  for_each body idxs pNtk
  = OK (Abc_NtkWithObjs pNtk
          (foldl (fun objs i => alter (eff i) i objs) (Abc.vObjs pNtk) idxs))
  ∧ SameShape pNtk
      (Abc_NtkWithObjs pNtk
         (foldl (fun objs i => alter (eff i) i objs) (Abc.vObjs pNtk) idxs)).
Proof.
  intros Hbody Hshape Heff. revert pNtk.
  induction idxs as [|i idxs IH]; intros pNtk Hok.
  - simpl. rewrite Abc_NtkWithObjs_id. split; [done | apply SameShape_refl].
  - simpl in Hok. apply andb_true_iff in Hok as [Hi Hok]. simpl.
    rewrite (Hbody _ _ Hi). simpl.
    set (pNtk1 := Abc_NtkWithObjs pNtk _).
    assert (Hs : SameShape pNtk pNtk1) by (apply SameShape_alter, Heff).
    destruct (IH pNtk1) as [Hrun Hs'].
    { erewrite forallb_pointwise; [exact Hok|].
      intros j. symmetry. by apply Hshape. }
    rewrite Hrun. split; [done|].
    eapply SameShape_trans; [exact Hs | exact Hs'].
Qed.

(** A run on an answer that honours the contract ends without a fault, in
    the network described by the two effects. *)
Lemma Abc_NtkFxuReconstruct_ok pNtk p :
  Fxu_ReconstructReady pNtk p = true →
  Abc_NtkFxuReconstruct pNtk p
  = OK (Abc_NtkWithObjs pNtk (Abc_NtkFxuReconstruct_objs pNtk p)).
Proof.
  unfold Fxu_ReconstructReady, Abc_NtkFxuReconstruct, Abc_NtkFxuReconstruct_objs.
  intros [[[Hsz Hid]%andb_true_iff Hold]%andb_true_iff Hnew]%andb_true_iff.
  rewrite Hsz. cbn [assert mbind Result_bind].
  unfold Fxu_NewIds in *. rewrite Abc_NtkFxuReconstruct_create_ok; cycle 1.
  { apply orb_true_iff in Hid as [Hid%bool_decide_eq_true | Hid%bool_decide_eq_true];
      [left; lia | by right]. }
  cbn [mbind Result_bind].
  set (pNtk1 := Abc_NtkCreateNodes pNtk _) in *.
  destruct (for_each_alter (Abc_NtkFxuReconstruct_old p)
              (Abc_NtkFxuReconstruct_old_effect p) (fun pNtk i => Fxu_OldOk pNtk p i)
              (seq 0 (length (Fxu.vFanins p))) pNtk1) as [Hrun2 Hs2].
  { intros. by apply Abc_NtkFxuReconstruct_old_ok. }
  { intros. by apply Fxu_OldOk_shape. }
  { apply Abc_NtkFxuReconstruct_old_effect_is_Some. }
  { exact Hold. }
  rewrite Hrun2. cbn [mbind Result_bind].
  set (pNtk2 := Abc_NtkWithObjs pNtk1 _) in *.
  destruct (for_each_alter (Abc_NtkFxuReconstruct_new p)
              (Abc_NtkFxuReconstruct_new_effect p) (fun pNtk i => Fxu_EntryOk pNtk p i)
              (seq (length (Fxu.vFanins p)) (Z.to_nat (Fxu.nNodesNew p))) pNtk2)
    as [Hrun3 _].
  { intros. by apply Abc_NtkFxuReconstruct_new_ok. }
  { intros. by apply Fxu_EntryOk_shape. }
  { apply Abc_NtkFxuReconstruct_new_effect_is_Some. }
  { erewrite forallb_pointwise; [exact Hnew|].
    intros j. symmetry. by apply Fxu_EntryOk_shape. }
  rewrite Hrun3. done.
Qed.

Lemma Fxu_ReconstructReady_inv pNtk p :
  Fxu_ReconstructReady pNtk p = true →
  let n := Z.to_nat (Fxu.nNodesNew p) in
  let nOld := length (Fxu.vFanins p) in
  nOld < length (Fxu.vFaninsNew p)
  ∧ (n = 0 ∨ nOld = length (Abc.vObjs pNtk))
  ∧ (∀ i, i < nOld → Fxu_OldOk (Abc_NtkCreateNodes pNtk n) p i = true)
  ∧ (∀ i, nOld ≤ i < nOld + n → Fxu_EntryOk (Abc_NtkCreateNodes pNtk n) p i = true).
Proof.
  unfold Fxu_ReconstructReady, Fxu_NewIds.
  intros [[[Hsz Hid]%andb_true_iff Hold]%andb_true_iff Hnew]%andb_true_iff.
  cbn zeta. split_and!.
  - by apply bool_decide_eq_true in Hsz.
  - apply orb_true_iff in Hid as [Hid%bool_decide_eq_true | Hid%bool_decide_eq_true];
      [left; lia | by right].
  - intros i Hi. rewrite forallb_forall in Hold. apply Hold.
    apply list_elem_of_In, elem_of_seq. lia.
  - intros i Hi. rewrite forallb_forall in Hnew. apply Hnew.
    apply list_elem_of_In, elem_of_seq. lia.
Qed.

(** The slots of the old identifiers are where they were after the new
    nodes have been created. *)
Lemma Abc_NtkCreateNodes_old pNtk (n nOld i : nat) :
  n = 0 ∨ nOld = length (Abc.vObjs pNtk) → i < nOld →
  Abc.vObjs (Abc_NtkCreateNodes pNtk n) !! i = Abc.vObjs pNtk !! i.
Proof.
  intros [-> | ->] Hi; simpl.
  - by rewrite app_nil_r.
  - by apply lookup_app_l.
Qed.

Lemma Abc_NtkCreateNodes_new pNtk (n k : nat) :
  k < n →
  Abc.vObjs (Abc_NtkCreateNodes pNtk n) !! (length (Abc.vObjs pNtk) + k)
  = Some (Some Abc_ObjFresh).
Proof.
  intros Hk. simpl. rewrite lookup_app_r by lia.
  apply lookup_replicate_2. lia.
Qed.

Lemma Abc_NtkFxuReconstruct_objs_lookup pNtk p j :
  Abc_NtkFxuReconstruct_objs pNtk p !! j
  = if decide (j ∈ Fxu_NewIds p)
    then Abc_NtkFxuReconstruct_new_effect p j
           <$> (Abc.vObjs (Abc_NtkCreateNodes pNtk (Z.to_nat (Fxu.nNodesNew p))) !! j)
    else if decide (j ∈ seq 0 (length (Fxu.vFanins p)))
      then Abc_NtkFxuReconstruct_old_effect p j
             <$> (Abc.vObjs (Abc_NtkCreateNodes pNtk (Z.to_nat (Fxu.nNodesNew p))) !! j)
      else Abc.vObjs (Abc_NtkCreateNodes pNtk (Z.to_nat (Fxu.nNodesNew p))) !! j.
Proof.
  unfold Abc_NtkFxuReconstruct_objs.
  rewrite foldl_alter_lookup by apply NoDup_seq.
  rewrite foldl_alter_lookup by apply NoDup_seq.
  destruct (decide (j ∈ Fxu_NewIds p)) as [Hnew|_]; [|done].
  rewrite decide_False; [done|].
  unfold Fxu_NewIds in Hnew. rewrite elem_of_seq in *. lia.
Qed.

Lemma Abc_NtkFxuReconstruct_objs_length pNtk p :
  length (Abc_NtkFxuReconstruct_objs pNtk p)
  = length (Abc.vObjs pNtk) + Z.to_nat (Fxu.nNodesNew p).
Proof.
  unfold Abc_NtkFxuReconstruct_objs. rewrite !foldl_alter_length. simpl.
  by rewrite length_app, length_replicate.
Qed.

Lemma Abc_NtkFxuReconstruct_objs_old pNtk p i (vFanins : list Z) :
  Fxu_ReconstructReady pNtk p = true →
  i < length (Fxu.vFanins p) →
  Fxu.vFaninsNew p !! i = Some (Some vFanins) →
  ∃ o pSop,
    Abc_NtkLive pNtk i = Some o
    ∧ Fxu.vSopsNew p !! i = Some (Some pSop)
    ∧ Abc_NtkFxuReconstruct_objs pNtk p !! i
      = Some (Some (Abc.mkObj (Abc.ObjType o) false false (Z.to_nat <$> vFanins)
                      (Some pSop))).
Proof.
  intros Hready Hi Hl.
  destruct (Fxu_ReconstructReady_inv _ _ Hready) as (Hsz & Hid & Hold & Hnew).
  specialize (Hold i Hi). unfold Fxu_OldOk, Fxu_EntryOk in Hold. rewrite Hl in Hold.
  destruct (Fxu.vSopsNew p !! i) as [[pSop|]|] eqn:Hsop; [|done..].
  apply andb_true_iff in Hold as [[o Ho]%bool_decide_eq_true _].
  apply Abc_NtkLive_Some in Ho.
  rewrite (Abc_NtkCreateNodes_old _ _ _ _ Hid Hi) in Ho.
  exists o, pSop. split_and!; [by apply Abc_NtkLive_Some | done |].
  rewrite Abc_NtkFxuReconstruct_objs_lookup.
  rewrite decide_False by (unfold Fxu_NewIds; rewrite elem_of_seq; lia).
  rewrite decide_True by (rewrite elem_of_seq; lia).
  rewrite (Abc_NtkCreateNodes_old _ _ _ _ Hid Hi), Ho.
  unfold Abc_NtkFxuReconstruct_old_effect. by rewrite Hl, Hsop.
Qed.

(** C4.  On an answer of the engine that honours the contract, the run ends
    without a fault, and every identifier of the original domain that has a
    recorded updated fanin list (empty or not) names a node that has lost
    all the fanins it had, has exactly the listed fanins in the listed
    order, and has the updated cover stored at that identifier. *)
Theorem Abc_NtkFxuReconstruct_updates_old pNtk p i (vFanins : list Z) :
  Fxu_ReconstructReady pNtk p = true →
  i < length (Fxu.vFanins p) →
  Fxu.vFaninsNew p !! i = Some (Some vFanins) →
  ∃ pNtk' o pSop,
    Abc_NtkFxuReconstruct pNtk p = OK pNtk'
    ∧ Abc_NtkLive pNtk i = Some o
    ∧ Fxu.vSopsNew p !! i = Some (Some pSop)
    ∧ Abc_NtkLive pNtk' i
      = Some (Abc.mkObj (Abc.ObjType o) false false (Z.to_nat <$> vFanins) (Some pSop)).
Proof.
  intros Hready Hi Hl.
  destruct (Abc_NtkFxuReconstruct_objs_old _ _ _ _ Hready Hi Hl)
    as (o & pSop & Ho & Hsop & Hslot).
  eexists _, o, pSop. split_and!; [by apply Abc_NtkFxuReconstruct_ok | done..|].
  by apply Abc_NtkLive_Some.
Qed.

(** C5.  On an answer of the engine that honours the contract, the run ends
    without a fault, and every identifier of the original domain that has
    no updated fanin list keeps its slot as it was: the same object with the
    same fanin sequence and the same cover (or the same hole). *)
Theorem Abc_NtkFxuReconstruct_frame pNtk p i :
  Fxu_ReconstructReady pNtk p = true →
  i < length (Fxu.vFanins p) →
  Fxu.vFaninsNew p !! i = Some None →
  ∃ pNtk',
    Abc_NtkFxuReconstruct pNtk p = OK pNtk'
    ∧ Abc.vObjs pNtk' !! i = Abc.vObjs pNtk !! i
    ∧ (Abc.vFanins <$> Abc_NtkLive pNtk' i) = (Abc.vFanins <$> Abc_NtkLive pNtk i)
    ∧ (Abc.pData <$> Abc_NtkLive pNtk' i) = (Abc.pData <$> Abc_NtkLive pNtk i).
Proof.
  intros Hready Hi Hl.
  destruct (Fxu_ReconstructReady_inv _ _ Hready) as (Hsz & Hid & Hold & Hnew).
  eexists. split; [by apply Abc_NtkFxuReconstruct_ok|].
  assert (Hslot : Abc_NtkFxuReconstruct_objs pNtk p !! i = Abc.vObjs pNtk !! i).
  { rewrite Abc_NtkFxuReconstruct_objs_lookup.
    rewrite decide_False by (unfold Fxu_NewIds; rewrite elem_of_seq; lia).
    rewrite decide_True by (rewrite elem_of_seq; lia).
    rewrite (Abc_NtkCreateNodes_old _ _ _ _ Hid Hi).
    unfold Abc_NtkFxuReconstruct_old_effect. rewrite Hl.
    by destruct (Abc.vObjs pNtk !! i). }
  unfold Abc_NtkLive. simpl. by rewrite Hslot.
Qed.

(** C6.  On an answer of the engine that honours the contract and reports
    [nNodesNew > 0], the run ends without a fault and has created exactly
    [nNodesNew] nodes: the network is longer by that many slots, the old
    slots are occupied as before, and the new identifiers are consecutive
    from the maximum identifier the network had; each new node has exactly
    the fanins of its updated fanin list, in that order, and the cover the
    updated covers hold for it. *)
Theorem Abc_NtkFxuReconstruct_creates_new pNtk p :
  Fxu_ReconstructReady pNtk p = true →
  (0 < Fxu.nNodesNew p)%Z →
  ∃ pNtk',
    Abc_NtkFxuReconstruct pNtk p = OK pNtk'
    ∧ length (Fxu.vFanins p) = Abc_NtkObjNumMax pNtk
    ∧ Abc_NtkObjNumMax pNtk' = Abc_NtkObjNumMax pNtk + Z.to_nat (Fxu.nNodesNew p)
    ∧ (∀ j, j < Abc_NtkObjNumMax pNtk →
         is_Some (Abc_NtkLive pNtk' j) ↔ is_Some (Abc_NtkLive pNtk j))
    ∧ ∀ k, k < Z.to_nat (Fxu.nNodesNew p) →
        let i := Abc_NtkObjNumMax pNtk + k in
        ∃ vFanins pSop,
          Fxu.vFaninsNew p !! i = Some (Some vFanins)
          ∧ Fxu.vSopsNew p !! i = Some (Some pSop)
          ∧ Abc.vObjs pNtk !! i = None
          ∧ Abc_NtkLive pNtk' i
            = Some (Abc.mkObj Abc.ABC_OBJ_NODE false false (Z.to_nat <$> vFanins)
                      (Some pSop)).
Proof.
  intros Hready Hpos.
  destruct (Fxu_ReconstructReady_inv _ _ Hready) as (Hsz & Hid & Hold & Hnew).
  destruct Hid as [Hz | Hid]; [lia|].
  unfold Abc_NtkObjNumMax.
  eexists. split; [by apply Abc_NtkFxuReconstruct_ok|]. simpl.
  split_and!.
  - done.
  - apply Abc_NtkFxuReconstruct_objs_length.
  - intros j Hj. unfold Abc_NtkLive. simpl.
    rewrite Abc_NtkFxuReconstruct_objs_lookup.
    rewrite decide_False by (unfold Fxu_NewIds; rewrite elem_of_seq; lia).
    rewrite decide_True by (rewrite elem_of_seq; lia).
    rewrite (Abc_NtkCreateNodes_old pNtk _ (length (Fxu.vFanins p)) j) by (auto; lia).
    destruct (Abc.vObjs pNtk !! j) as [slot|]; simpl; [|done].
    apply Abc_NtkFxuReconstruct_old_effect_is_Some.
  - intros k Hk.
    specialize (Hnew (length (Abc.vObjs pNtk) + k)).
    rewrite Hid in Hnew. specialize (Hnew ltac:(lia)).
    unfold Fxu_EntryOk in Hnew.
    destruct (Fxu.vFaninsNew p !! _) as [[vFanins|]|] eqn:Hl; [|done..].
    destruct (Fxu.vSopsNew p !! _) as [[pSop|]|] eqn:Hsop; [|done..].
    exists vFanins, pSop. split_and!; [done..| |].
    + apply lookup_ge_None. lia.
    + apply Abc_NtkLive_Some. cbn [Abc.vObjs Abc_NtkWithObjs].
      rewrite Abc_NtkFxuReconstruct_objs_lookup.
      rewrite decide_True by (unfold Fxu_NewIds; rewrite elem_of_seq; lia).
      rewrite (Abc_NtkCreateNodes_new _ _ _ Hk).
      unfold Abc_NtkFxuReconstruct_new_effect. by rewrite Hl, Hsop.
Qed.

(** *** The contract is exactly what a run needs

    The converse of [Abc_NtkFxuReconstruct_ok]: a run that ends without a
    fault was given an answer that honours the contract. *)

Lemma Abc_NtkFxuReconstruct_fanins_from_OK pNtk n o (pre vFanins : list Z) pNtk' :
  Abc_NtkLive pNtk n = Some o →
  for_each (fun k pNtk =>
              Id ← Vec_Read (pre ++ vFanins) k;
              pFanin ← Abc_NtkObj pNtk Id;
              Abc_ObjAddFanin pNtk (Some n) pFanin)
    (seq (length pre) (length vFanins)) pNtk = OK pNtk' →
  Fxu_FaninsOk pNtk vFanins = true.
Proof.
  revert pNtk o pre. induction vFanins as [|Id l IH]; intros pNtk o pre Ho Hrun.
  - done.
  - cbn [length seq for_each] in Hrun. rewrite Vec_Read_middle in Hrun.
    cbn [mbind Result_bind] in Hrun.
    apply bind_OK in Hrun as (pNtk1 & Hstep & Hrest).
    apply bind_OK in Hstep as (pFanin & Hobj & Hadd).
    apply Abc_NtkObj_OK in Hobj as [Hrange Hptr].
    unfold Abc_ObjAddFanin in Hadd. destruct pFanin as [t|]; [|done].
    destruct (Hptr t eq_refl) as [-> Hlive].
    rewrite (Abc_ObjUpdate_live _ _ _ _ Ho) in Hadd. injection Hadd as <-.
    set (pNtk1 := Abc_NtkWithObjs pNtk _) in *.
    assert (Hs : SameShape pNtk pNtk1) by (apply SameShape_insert; eauto).
    simpl. rewrite andb_true_iff. split.
    + apply andb_true_iff. split; by apply bool_decide_eq_true.
    + rewrite (Fxu_FaninsOk_shape _ _ _ Hs).
      eapply (IH pNtk1 _ (pre ++ [Id])).
      * apply Abc_NtkLive_insert. apply Abc_NtkLive_lt. eauto.
      * rewrite length_app, Nat.add_1_r, <- app_assoc. exact Hrest.
Qed.

Lemma Abc_NtkFxuReconstruct_fanins_OK pNtk n o (vFanins : list Z) pNtk' :
  Abc_NtkLive pNtk n = Some o →
  Abc_NtkFxuReconstruct_fanins pNtk (Some n) vFanins = OK pNtk' →
  Fxu_FaninsOk pNtk vFanins = true.
Proof. apply (Abc_NtkFxuReconstruct_fanins_from_OK pNtk n o []). Qed.

Lemma Abc_NtkFxuReconstruct_old_OK pNtk p i pNtk' :
  Abc_NtkFxuReconstruct_old p i pNtk = OK pNtk' → Fxu_OldOk pNtk p i = true.
Proof.
  unfold Abc_NtkFxuReconstruct_old, Fxu_OldOk, Fxu_EntryOk, Vec_Read.
  destruct (Fxu.vFaninsNew p !! i) as [[l|]|]; [|done..].
  cbn [mbind Result_bind]. intros Hrun.
  apply bind_OK in Hrun as (pNode & Hobj & Hrun).
  apply bind_OK in Hrun as (pNtk1 & Hrem & Hrun).
  apply bind_OK in Hrun as (pNtk2 & Hfan & Hrun).
  apply bind_OK in Hrun as (pSop & Hsop & Hrun).
  apply bind_OK in Hrun as (pNtk3 & Hset & Hrun).
  apply bind_OK in Hrun as (u & Hassert & _).
  apply assert_OK, bool_decide_eq_true in Hassert. destruct Hassert as [c ->].
  destruct (Fxu.vSopsNew p !! i) as [pSop|]; [|done]. injection Hsop as ->.
  apply Abc_ObjUpdate_OK in Hrem as (Id & o & -> & Ho & ->).
  apply Abc_NtkObj_OK in Hobj as [_ Hptr].
  destruct (Hptr Id eq_refl) as [HId Hlive]. rewrite Nat2Z.id in HId. subst Id.
  set (pNtk1 := Abc_NtkWithObjs pNtk _) in *.
  assert (Hs : SameShape pNtk pNtk1) by (apply SameShape_insert; eauto).
  apply andb_true_iff. split; [by apply bool_decide_eq_true|].
  rewrite (Fxu_FaninsOk_shape _ _ _ Hs).
  eapply Abc_NtkFxuReconstruct_fanins_OK; [|exact Hfan].
  apply Abc_NtkLive_insert. by apply Abc_NtkLive_lt.
Qed.

Lemma Abc_NtkFxuReconstruct_new_OK pNtk p i pNtk' :
  Abc_NtkFxuReconstruct_new p i pNtk = OK pNtk' → Fxu_EntryOk pNtk p i = true.
Proof.
  unfold Abc_NtkFxuReconstruct_new, Fxu_EntryOk, Vec_Read. intros Hrun.
  apply bind_OK in Hrun as (pNode & Hobj & Hrun).
  destruct (Fxu.vFaninsNew p !! i) as [[l|]|]; [|done..].
  cbn [mbind Result_bind] in Hrun.
  apply bind_OK in Hrun as (pNtk2 & Hfan & Hrun).
  apply bind_OK in Hrun as (pSop & Hsop & Hrun).
  apply bind_OK in Hrun as (pNtk3 & Hset & Hrun).
  apply bind_OK in Hrun as (u & Hassert & _).
  apply assert_OK, bool_decide_eq_true in Hassert. destruct Hassert as [c ->].
  destruct (Fxu.vSopsNew p !! i) as [pSop|]; [|done]. injection Hsop as ->.
  apply Abc_ObjUpdate_OK in Hset as (Id & o2 & -> & Ho2 & _).
  apply Abc_NtkObj_OK in Hobj as [_ Hptr].
  destruct (Hptr Id eq_refl) as [HId Hlive]. rewrite Nat2Z.id in HId. subst Id.
  apply andb_true_iff. split; [by apply bool_decide_eq_true|].
  destruct Hlive as [o Ho].
  by eapply Abc_NtkFxuReconstruct_fanins_OK.
Qed.

Lemma Abc_NtkFxuReconstruct_create_OK pNtk (a n : nat) pNtk' :
  for_each Abc_NtkFxuReconstruct_create (seq a n) pNtk = OK pNtk' →
  n = 0 ∨ a = length (Abc.vObjs pNtk).
Proof.
  destruct n as [|n]; [by left|]. intros Hrun. right.
  cbn [seq for_each] in Hrun. apply bind_OK in Hrun as (pNtk1 & Hstep & _).
  unfold Abc_NtkFxuReconstruct_create in Hstep. simpl in Hstep.
  by case_bool_decide.
Qed.

Lemma for_each_alter_OK (body : nat → Abc_Ntk_t Sop → Result (Abc_Ntk_t Sop))
    (eff : nat → option (Abc_Obj_t Sop) → option (Abc_Obj_t Sop))
    (ok : Abc_Ntk_t Sop → nat → bool) idxs pNtk pNtk' :
  (∀ i pNtk, ok pNtk i = true →
     body i pNtk = OK (Abc_NtkWithObjs pNtk (alter (eff i) i (Abc.vObjs pNtk)))) →
  (∀ i pNtk pNtk', body i pNtk = OK pNtk' → ok pNtk i = true) →
  (∀ i pNtk pNtk', SameShape pNtk pNtk' → ok pNtk i = ok pNtk' i) →
  (∀ i slot, is_Some (eff i slot) ↔ is_Some slot) →
  for_each body idxs pNtk = OK pNtk' →
  forallb (ok pNtk) idxs = true.
Proof.
  intros Hbody Hconv Hshape Heff. revert pNtk.
  induction idxs as [|i idxs IH]; intros pNtk Hrun; [done|].
  cbn [for_each] in Hrun. apply bind_OK in Hrun as (pNtk1 & Hstep & Hrest).
  pose proof (Hconv _ _ _ Hstep) as Hi.
  rewrite (Hbody _ _ Hi) in Hstep. injection Hstep as <-.
  simpl. rewrite Hi. simpl.
  erewrite forallb_pointwise; [exact (IH _ Hrest)|].
  intros j. apply Hshape, SameShape_alter, Heff.
Qed.

Lemma Abc_NtkFxuReconstruct_OK_ready pNtk p pNtk' :
  Abc_NtkFxuReconstruct pNtk p = OK pNtk' → Fxu_ReconstructReady pNtk p = true.
Proof.
  unfold Abc_NtkFxuReconstruct, Fxu_ReconstructReady, Fxu_NewIds. intros Hrun.
  apply bind_OK in Hrun as (u & Hsz%assert_OK & Hrun).
  apply bind_OK in Hrun as (pNtk1 & Hcreate & Hrun).
  apply bind_OK in Hrun as (pNtk2 & Hold & Hnew).
  pose proof (Abc_NtkFxuReconstruct_create_OK _ _ _ _ Hcreate) as Hid.
  rewrite (Abc_NtkFxuReconstruct_create_ok _ _ _ Hid) in Hcreate.
  injection Hcreate as <-.
  set (pNtk1 := Abc_NtkCreateNodes pNtk _) in *.
  assert (Hok2 : forallb (Fxu_OldOk pNtk1 p)
                   (seq 0 (length (Fxu.vFanins p))) = true).
  { eapply (for_each_alter_OK (Abc_NtkFxuReconstruct_old p)
              (Abc_NtkFxuReconstruct_old_effect p) (fun pNtk i => Fxu_OldOk pNtk p i));
      [ intros; by apply Abc_NtkFxuReconstruct_old_ok
      | intros; by eapply Abc_NtkFxuReconstruct_old_OK
      | intros; by apply Fxu_OldOk_shape
      | apply Abc_NtkFxuReconstruct_old_effect_is_Some
      | exact Hold ]. }
  destruct (for_each_alter (Abc_NtkFxuReconstruct_old p)
              (Abc_NtkFxuReconstruct_old_effect p) (fun pNtk i => Fxu_OldOk pNtk p i)
              (seq 0 (length (Fxu.vFanins p))) pNtk1) as [Hrun2 Hs2];
    [ intros; by apply Abc_NtkFxuReconstruct_old_ok
    | intros; by apply Fxu_OldOk_shape
    | apply Abc_NtkFxuReconstruct_old_effect_is_Some
    | exact Hok2 | ].
  rewrite Hrun2 in Hold. injection Hold as <-.
  assert (Hok3 : forallb (Fxu_EntryOk pNtk1 p)
                   (seq (length (Fxu.vFanins p)) (Z.to_nat (Fxu.nNodesNew p))) = true).
  { erewrite forallb_pointwise.
    - eapply (for_each_alter_OK (Abc_NtkFxuReconstruct_new p)
                (Abc_NtkFxuReconstruct_new_effect p) (fun pNtk i => Fxu_EntryOk pNtk p i));
        [ intros; by apply Abc_NtkFxuReconstruct_new_ok
        | intros; by eapply Abc_NtkFxuReconstruct_new_OK
        | intros; by apply Fxu_EntryOk_shape
        | apply Abc_NtkFxuReconstruct_new_effect_is_Some
        | exact Hnew ].
    - intros j. by apply Fxu_EntryOk_shape. }
  rewrite Hsz, Hok2, Hok3. simpl. rewrite !andb_true_r.
  rewrite orb_true_iff. destruct Hid as [Hz | Hid].
  - left. apply bool_decide_eq_true_2. lia.
  - right. by apply bool_decide_eq_true_2.
Qed.

(** The reconstructor ends without a fault exactly on the answers that
    honour the contract. *)
Lemma Abc_NtkFxuReconstruct_OK_iff pNtk p :
  (∃ pNtk', Abc_NtkFxuReconstruct pNtk p = OK pNtk')
  ↔ Fxu_ReconstructReady pNtk p = true.
Proof.
  split.
  - intros [pNtk' Hrun]. by eapply Abc_NtkFxuReconstruct_OK_ready.
  - intros Hready. eexists. by apply Abc_NtkFxuReconstruct_ok.
Qed.

Lemma Abc_NtkFxuReconstruct_not_ready pNtk p :
  Fxu_ReconstructReady pNtk p = false → ∃ f, Abc_NtkFxuReconstruct pNtk p = Crash f.
Proof.
  intros Hnot. destruct (Abc_NtkFxuReconstruct pNtk p) as [pNtk'|f] eqn:Hrun.
  - apply Abc_NtkFxuReconstruct_OK_ready in Hrun. congruence.
  - by exists f.
Qed.

(** C9.  An identifier of the original domain with a recorded updated
    fanin list must come with a cover: a run that ends without a fault found
    a non-NULL updated cover there and installed it as the node's cover;
    with NULL in the updated covers the run faults, and the step that
    rewires the node stops at the assertion [pNode->pData != NULL] once the
    fanins are attached. *)
Theorem Abc_NtkFxuReconstruct_old_needs_cover pNtk p i (vFanins : list Z) :
  i < length (Fxu.vFanins p) →
  Fxu.vFaninsNew p !! i = Some (Some vFanins) →
  (∀ pNtk', Abc_NtkFxuReconstruct pNtk p = OK pNtk' →
     ∃ pSop, Fxu.vSopsNew p !! i = Some (Some pSop)
             ∧ (Abc.pData <$> Abc_NtkLive pNtk' i) = Some (Some pSop))
  ∧ (Fxu.vSopsNew p !! i = Some None →
       (∃ f, Abc_NtkFxuReconstruct pNtk p = Crash f)
       ∧ ∀ pNtk1, is_Some (Abc_NtkLive pNtk1 i) →
                  Fxu_FaninsOk pNtk1 vFanins = true →
                  Abc_NtkFxuReconstruct_old p i pNtk1 = Crash AssertionFailure).
Proof.
  intros Hi Hl. split.
  - intros pNtk' Hrun.
    pose proof (Abc_NtkFxuReconstruct_OK_ready _ _ _ Hrun) as Hready.
    rewrite (Abc_NtkFxuReconstruct_ok _ _ Hready) in Hrun. injection Hrun as <-.
    destruct (Abc_NtkFxuReconstruct_objs_old _ _ _ _ Hready Hi Hl)
      as (o & pSop & Ho & Hsop & Hslot).
    exists pSop. split; [done|].
    unfold Abc_NtkLive. simpl. by rewrite Hslot.
  - intros Hnull. split.
    + apply Abc_NtkFxuReconstruct_not_ready. apply not_true_is_false. intros Hready.
      destruct (Abc_NtkFxuReconstruct_objs_old _ _ _ _ Hready Hi Hl)
        as (o & pSop & _ & Hsop & _).
      congruence.
    + intros pNtk1 Hlive Hok.
      unfold Abc_NtkFxuReconstruct_old, Vec_Read. rewrite Hl, Hnull.
      cbn [mbind Result_bind]. rewrite (Abc_NtkObj_live _ _ Hlive).
      destruct Hlive as [o Ho]. cbn [mbind Result_bind].
      unfold Abc_ObjRemoveFanins. rewrite (Abc_ObjUpdate_live _ _ _ _ Ho).
      cbn [mbind Result_bind].
      assert (Hlt : i < length (Abc.vObjs pNtk1)) by (apply Abc_NtkLive_lt; eauto).
      set (pNtk2 := Abc_NtkWithObjs pNtk1 _).
      assert (Hs : SameShape pNtk1 pNtk2) by (apply SameShape_insert; eauto).
      erewrite Abc_NtkFxuReconstruct_fanins_ok;
        [| by apply Abc_NtkLive_insert | by rewrite <- (Fxu_FaninsOk_shape _ _ _ Hs)].
      cbn [mbind Result_bind].
      unfold Abc_ObjSetData. erewrite Abc_ObjUpdate_live; cycle 1.
      { apply Abc_NtkLive_insert. simpl. by rewrite length_insert. }
      done.
Qed.

(** C10.  The third loop reads the updated fanin list of every new
    identifier without a NULL test: a run that ends without a fault found a
    non-NULL list at each index from the original-domain size up to that
    size plus [nNodesNew]; with NULL at such an index the run faults, and
    the step that sets the node up follows the NULL pointer. *)
Theorem Abc_NtkFxuReconstruct_new_needs_fanins pNtk p i :
  (Z.of_nat (length (Fxu.vFanins p)) ≤ Z.of_nat i
   < Z.of_nat (length (Fxu.vFanins p)) + Fxu.nNodesNew p)%Z →
  (∀ pNtk', Abc_NtkFxuReconstruct pNtk p = OK pNtk' →
     ∃ vFanins, Fxu.vFaninsNew p !! i = Some (Some vFanins))
  ∧ (Fxu.vFaninsNew p !! i = Some None →
       (∃ f, Abc_NtkFxuReconstruct pNtk p = Crash f)
       ∧ ∀ pNtk1, i < Abc_NtkObjNumMax pNtk1 →
                  Abc_NtkFxuReconstruct_new p i pNtk1 = Crash NullDereference).
Proof.
  intros Hi.
  assert (Hentry : Fxu_ReconstructReady pNtk p = true →
                   ∃ vFanins, Fxu.vFaninsNew p !! i = Some (Some vFanins)).
  { intros Hready.
    destruct (Fxu_ReconstructReady_inv _ _ Hready) as (_ & _ & _ & Hnew).
    specialize (Hnew i ltac:(lia)). unfold Fxu_EntryOk in Hnew.
    destruct (Fxu.vFaninsNew p !! i) as [[l|]|]; [by exists l | done..]. }
  split.
  - intros pNtk' Hrun. by eapply Hentry, Abc_NtkFxuReconstruct_OK_ready.
  - intros Hnull. split.
    + apply Abc_NtkFxuReconstruct_not_ready. apply not_true_is_false. intros Hready.
      destruct (Hentry Hready) as [l Hl]. congruence.
    + intros pNtk1 Hlt. unfold Abc_NtkFxuReconstruct_new, Abc_NtkObj, Vec_Read.
      rewrite bool_decide_eq_true_2 by (unfold Abc_NtkObjNumMax in Hlt; lia).
      cbn [assert mbind Result_bind]. by rewrite Hnull.
Qed.

End ReconstructProperties.

(** ** Properties of the builder *)

Section CollectInfoProperties.

Context {Sop : Type}.
Variable Abc_SopGetVarNum : Sop → Z.
Variable Abc_SopGetCubeNum : Sop → Z.
Implicit Types (pNtk : Abc_Ntk_t Sop) (p : Fxu_Data_t Sop).

Local Abbreviation Eligible := (Fxu_Eligible Abc_SopGetVarNum Abc_SopGetCubeNum).
Local Abbreviation NodeEligible := (Abc_NodeEligible Abc_SopGetVarNum Abc_SopGetCubeNum).
Local Abbreviation body := (Abc_NtkFxuCollectInfo_body Abc_SopGetVarNum Abc_SopGetCubeNum).
Local Abbreviation eff_sop := (Abc_NtkFxuCollectInfo_sop Abc_SopGetVarNum Abc_SopGetCubeNum).
Local Abbreviation eff_ref := (Abc_NtkFxuCollectInfo_ref Abc_SopGetVarNum Abc_SopGetCubeNum).
Local Abbreviation result :=
  (Abc_NtkFxuCollectInfo_result Abc_SopGetVarNum Abc_SopGetCubeNum).

Lemma Fxu_Eligible_Some pNtk i pSop :
  Eligible pNtk i = Some pSop ↔ ∃ pNode, NodeEligible pNtk i pNode pSop.
Proof.
  unfold Fxu_Eligible, Abc_NodeEligible. split.
  - destruct (Abc_NtkLive pNtk i) as [pNode|]; simpl; [|done].
    destruct (Abc_ObjIsNode pNode) eqn:Hnode; [|done].
    destruct (Abc.pData pNode) as [c|] eqn:Hdata; simpl; [|done].
    repeat case_bool_decide; try done.
    intros [= ->]. exists pNode. split_and!; try done; lia.
  - intros (pNode & Hl & Hn & Hd & Hv & Hc). rewrite Hl. simpl.
    rewrite Hn, Hd. simpl.
    rewrite bool_decide_eq_false_2 by lia.
    by rewrite bool_decide_eq_false_2 by lia.
Qed.

Lemma Abc_NtkFxuCollectInfo_body_ok pNtk i p :
  Abc_ObjHasSop pNtk i = true →
  body pNtk i p
  = OK (Fxu_WithOriginals p (alter (eff_sop pNtk i) i (Fxu.vSops p))
          (alter (eff_ref pNtk i) i (Fxu.vFanins p))).
Proof.
  unfold Abc_ObjHasSop, Abc_NtkFxuCollectInfo_body, Abc_NtkFxuCollectInfo_sop,
    Abc_NtkFxuCollectInfo_ref, Fxu_Eligible.
  assert (Hsame : OK p = OK (Fxu_WithOriginals p
                               (alter (fun old => old) i (Fxu.vSops p))
                               (alter (fun old => old) i (Fxu.vFanins p)))).
  { rewrite !list_alter_id by done. by destruct p. }
  destruct (Abc_NtkLive pNtk i) as [pNode|]; simpl; [|by intros _].
  destruct (Abc_ObjIsNode pNode); simpl; [|by intros _].
  destruct (Abc.pData pNode) as [c|]; simpl; [intros _ | done].
  repeat case_bool_decide; try done.
  unfold Fxu_WithOriginals. by rewrite !list_insert_alter.
Qed.

Lemma Abc_NtkFxuCollectInfo_body_OK pNtk i p p' :
  body pNtk i p = OK p' → Abc_ObjHasSop pNtk i = true.
Proof.
  unfold Abc_ObjHasSop, Abc_NtkFxuCollectInfo_body.
  destruct (Abc_NtkLive pNtk i) as [pNode|]; [|done].
  destruct (Abc_ObjIsNode pNode); simpl; [|done].
  destruct (Abc.pData pNode) as [c|]; [|done].
  intros _. apply bool_decide_eq_true. eauto.
Qed.

Lemma Abc_NtkFxuCollectInfo_loop pNtk idxs p :
  forallb (Abc_ObjHasSop pNtk) idxs = true →
  for_each (body pNtk) idxs p
  = OK (Fxu_WithOriginals p
          (foldl (fun v i => alter (eff_sop pNtk i) i v) (Fxu.vSops p) idxs)
          (foldl (fun v i => alter (eff_ref pNtk i) i v) (Fxu.vFanins p) idxs)).
Proof.
  revert p. induction idxs as [|i idxs IH]; intros p Hok.
  - simpl. by destruct p.
  - simpl in Hok. apply andb_true_iff in Hok as [Hi Hok]. simpl.
    rewrite (Abc_NtkFxuCollectInfo_body_ok _ _ _ Hi). simpl.
    by rewrite IH.
Qed.

Lemma Abc_NtkFxuCollectInfo_loop_OK pNtk idxs p p' :
  for_each (body pNtk) idxs p = OK p' → forallb (Abc_ObjHasSop pNtk) idxs = true.
Proof.
  revert p. induction idxs as [|i idxs IH]; intros p Hrun; [done|].
  cbn [for_each] in Hrun. apply bind_OK in Hrun as (p1 & Hstep & Hrest).
  simpl. rewrite (Abc_NtkFxuCollectInfo_body_OK _ _ _ _ Hstep). simpl.
  by eapply IH.
Qed.

Lemma Abc_NtkFxuCollectInfo_ok pNtk p :
  Abc_NtkNodesHaveSop pNtk = true →
  Abc_NtkFxuCollectInfo Abc_SopGetVarNum Abc_SopGetCubeNum pNtk p
  = OK (result pNtk p).
Proof.
  intros Hok. unfold Abc_NtkFxuCollectInfo, Abc_NtkFxuCollectInfo_result.
  rewrite (Abc_NtkFxuCollectInfo_loop _ _ _ Hok). cbn. unfold Vec_PtrFill.
  rewrite Nat2Z.id. do 2 f_equal.
  - apply list_eq. intros j.
    rewrite foldl_alter_lookup by apply NoDup_seq. rewrite list_lookup_fmap.
    destruct (decide (j < Abc_NtkObjNumMax pNtk)) as [Hj|Hj].
    + rewrite decide_True by (apply elem_of_seq; lia).
      rewrite lookup_replicate_2, lookup_seq_lt by done. simpl.
      unfold Abc_NtkFxuCollectInfo_sop. by destruct (Eligible pNtk j).
    + rewrite decide_False by (rewrite elem_of_seq; lia).
      rewrite lookup_seq_ge by lia. apply lookup_replicate_None. lia.
  - apply list_eq. intros j.
    rewrite foldl_alter_lookup by apply NoDup_seq. rewrite list_lookup_fmap.
    destruct (decide (j < Abc_NtkObjNumMax pNtk)) as [Hj|Hj].
    + rewrite decide_True by (apply elem_of_seq; lia).
      rewrite lookup_replicate_2, lookup_seq_lt by done. simpl.
      unfold Abc_NtkFxuCollectInfo_ref. by destruct (Eligible pNtk j).
    + rewrite decide_False by (rewrite elem_of_seq; lia).
      rewrite lookup_seq_ge by lia. apply lookup_replicate_None. lia.
Qed.

(** The builder ends without a fault exactly on networks in cover form. *)
Lemma Abc_NtkFxuCollectInfo_OK_iff pNtk p :
  (∃ p', Abc_NtkFxuCollectInfo Abc_SopGetVarNum Abc_SopGetCubeNum pNtk p = OK p')
  ↔ Abc_NtkNodesHaveSop pNtk = true.
Proof.
  split.
  - intros [p' Hrun]. unfold Abc_NtkFxuCollectInfo in Hrun.
    apply bind_OK in Hrun as (p1 & Hloop & _).
    by eapply Abc_NtkFxuCollectInfo_loop_OK.
  - intros Hok. eexists. by apply Abc_NtkFxuCollectInfo_ok.
Qed.

(** C7.  On a network in cover form the builder ends without a fault, and
    the original collections hold, under the node's own identifier, the
    cover and the reference to the live fanin list of exactly the logic
    nodes whose cover has at least 2 variables and at least 1 cube; every
    other slot of the two collections is empty.  The reference reads the
    fanin list the node has in whatever state the network is in. *)
Theorem Abc_NtkFxuCollectInfo_eligible pNtk p :
  Abc_NtkNodesHaveSop pNtk = true →
  ∃ p',
    Abc_NtkFxuCollectInfo Abc_SopGetVarNum Abc_SopGetCubeNum pNtk p = OK p'
    ∧ length (Fxu.vSops p') = Abc_NtkObjNumMax pNtk
    ∧ length (Fxu.vFanins p') = Abc_NtkObjNumMax pNtk
    ∧ (∀ i pSop,
         Fxu.vSops p' !! i = Some (Some pSop)
         ↔ ∃ pNode, NodeEligible pNtk i pNode pSop)
    ∧ (∀ i r,
         Fxu.vFanins p' !! i = Some (Some r)
         ↔ r = FaninsOf i ∧ ∃ pNode pSop, NodeEligible pNtk i pNode pSop)
    ∧ (∀ i pNode pSop pNtk',
         NodeEligible pNtk i pNode pSop →
         FaninsRef_deref pNtk (FaninsOf i) = Some (Abc.vFanins pNode)
         ∧ FaninsRef_deref pNtk' (FaninsOf i) = Abc.vFanins <$> Abc_NtkLive pNtk' i).
Proof.
  intros Hok. exists (result pNtk p).
  split; [by apply Abc_NtkFxuCollectInfo_ok|]. simpl.
  split_and!.
  - by rewrite length_fmap, length_seq.
  - by rewrite length_fmap, length_seq.
  - intros i pSop. rewrite <- Fxu_Eligible_Some, list_lookup_fmap.
    destruct (decide (i < Abc_NtkObjNumMax pNtk)) as [Hi|Hi].
    + rewrite lookup_seq_lt by done. simpl. split; congruence.
    + rewrite lookup_seq_ge by lia. simpl. split; [done|].
      unfold Fxu_Eligible, Abc_NtkLive, Abc_NtkObjNumMax in *.
      rewrite lookup_ge_None_2 by lia. done.
  - intros i r. rewrite list_lookup_fmap.
    destruct (decide (i < Abc_NtkObjNumMax pNtk)) as [Hi|Hi].
    + rewrite lookup_seq_lt by done. simpl.
      destruct (Eligible pNtk i) as [c|] eqn:Hc; simpl.
      * split.
        -- intros [= <-]. split; [done|].
           apply Fxu_Eligible_Some in Hc as [pNode Hc]. eauto.
        -- by intros [-> _].
      * split; [done|]. intros [_ (pNode & pSop & He)].
        assert (Eligible pNtk i = Some pSop) by (apply Fxu_Eligible_Some; eauto).
        congruence.
    + rewrite lookup_seq_ge by lia. simpl. split; [done|].
      intros [_ (pNode & pSop & (Hl & _))]. exfalso.
      unfold Abc_NtkLive, Abc_NtkObjNumMax in *.
      rewrite lookup_ge_None_2 in Hl by lia. done.
  - intros i pNode pSop pNtk' (Hl & _). simpl. by rewrite Hl.
Qed.

(** C8.  On a network in cover form, with a limit [nNodesExt] that is not
    negative and small enough for [Abc_NtkObjNumMax(pNtk) + p->nNodesExt]
    to be an [int], the builder ends without a fault; the original fanin
    collection has as many slots as the maximum identifier, the two updated
    collections have that many plus [nNodesExt], all of them empty.  So
    whenever the reconstructor runs, that is, whenever the engine has kept
    the collections as long as they were built and reports a positive
    number of new nodes within the limit, the updated fanin collection is
    strictly longer than the original one and the entry assertion of the
    reconstructor holds. *)
Theorem Abc_NtkFxuCollectInfo_room pNtk p :
  Abc_NtkNodesHaveSop pNtk = true →
  (0 ≤ Fxu.nNodesExt p)%Z →
  (Z.of_nat (Abc_NtkObjNumMax pNtk) + Fxu.nNodesExt p ≤ INT_MAX)%Z →
  ∃ p',
    Abc_NtkFxuCollectInfo Abc_SopGetVarNum Abc_SopGetCubeNum pNtk p = OK p'
    ∧ length (Fxu.vFanins p') = Abc_NtkObjNumMax pNtk
    ∧ Z.of_nat (length (Fxu.vSopsNew p'))
      = (Z.of_nat (Abc_NtkObjNumMax pNtk) + Fxu.nNodesExt p)%Z
    ∧ Z.of_nat (length (Fxu.vFaninsNew p'))
      = (Z.of_nat (Abc_NtkObjNumMax pNtk) + Fxu.nNodesExt p)%Z
    ∧ (∀ i, i < length (Fxu.vSopsNew p') →
         Fxu.vSopsNew p' !! i = Some None ∧ Fxu.vFaninsNew p' !! i = Some None)
    ∧ ∀ p2,
        Fxu_WithinLimit p' p2 = true →
        (0 < Fxu.nNodesNew p2)%Z →
        bool_decide (length (Fxu.vFanins p2) < length (Fxu.vFaninsNew p2)) = true.
Proof.
  intros Hok Hext Hsum. exists (result pNtk p).
  split; [by apply Abc_NtkFxuCollectInfo_ok|]. simpl.
  rewrite length_fmap, length_seq, !length_replicate.
  rewrite Int_add_exact by (unfold INT_MIN; lia).
  split_and!; [done | lia | lia | |].
  - intros i Hi. by rewrite !lookup_replicate_2.
  - intros p2 Hlimit Hnew. unfold Fxu_WithinLimit in Hlimit. simpl in Hlimit.
    rewrite !andb_true_iff, !bool_decide_eq_true in Hlimit.
    destruct Hlimit as [[Hlen Hlen'] Hmax].
    rewrite length_fmap, length_seq in Hlen. rewrite length_replicate in Hlen'.
    rewrite Int_add_exact in Hlen' by (unfold INT_MIN; lia).
    apply bool_decide_eq_true. lia.
Qed.

End CollectInfoProperties.

(** ** Properties of the driver *)

Section FastExtractProperties.

Context {Sop : Type}.
Variable Abc_SopGetVarNum : Sop → Z.
Variable Abc_SopGetCubeNum : Sop → Z.
Variable Abc_NtkToSop : Abc_Ntk_t Sop → bool * Abc_Ntk_t Sop.
Variable Abc_NtkCleanup : Abc_Ntk_t Sop → Abc_Ntk_t Sop.
Variable Fxu_FastExtract : Abc_Ntk_t Sop → Fxu_Data_t Sop → Z * Fxu_Data_t Sop.
Variable Abc_NtkCheck : Abc_Ntk_t Sop → bool.

Implicit Types (pNtk : Abc_Ntk_t Sop) (p : Fxu_Data_t Sop).

Local Abbreviation FastExtract :=
  (Abc_NtkFastExtract Abc_SopGetVarNum Abc_SopGetCubeNum Abc_NtkToSop
     Abc_NtkCleanup Fxu_FastExtract Abc_NtkCheck).
Local Abbreviation CollectInfo_result :=
  (Abc_NtkFxuCollectInfo_result Abc_SopGetVarNum Abc_SopGetCubeNum).



End FastExtractProperties.

(** ** More about the reconstructor *)

Section ReconstructMore.

Context {Sop : Type}.
Implicit Types (pNtk : Abc_Ntk_t Sop) (p : Fxu_Data_t Sop) (o : Abc_Obj_t Sop)
  (objs : list (option (Abc_Obj_t Sop))).

Lemma Abc_NtkFxuReconstruct_OK_inv pNtk p pNtk' :
  Abc_NtkFxuReconstruct pNtk p = OK pNtk' →
  Fxu_ReconstructReady pNtk p = true
  ∧ pNtk' = Abc_NtkWithObjs pNtk (Abc_NtkFxuReconstruct_objs pNtk p).
Proof.
  intros Hrun. pose proof (Abc_NtkFxuReconstruct_OK_ready _ _ _ Hrun) as Hready.
  split; [done|]. rewrite (Abc_NtkFxuReconstruct_ok _ _ Hready) in Hrun. congruence.
Qed.

Lemma Abc_NtkFaninsLive_spec pNtk :
  Abc_NtkFaninsLive pNtk = true
  ↔ ∀ j o Id, Abc.vObjs pNtk !! j = Some (Some o) → Id ∈ Abc.vFanins o →
              is_Some (Abc_NtkLive pNtk Id).
Proof.
  unfold Abc_NtkFaninsLive. rewrite forallb_forall. split.
  - intros Hall j o Id Hj HId.
    specialize (Hall (Some o)). simpl in Hall. rewrite forallb_forall in Hall.
    eapply bool_decide_eq_true, Hall.
    + apply list_elem_of_In. by eapply list_elem_of_lookup_2.
    + by apply list_elem_of_In.
  - intros Hall [o|] Hin; [|done]. apply forallb_forall. intros Id HId.
    apply bool_decide_eq_true.
    apply list_elem_of_In, list_elem_of_lookup in Hin as [j Hj].
    eapply Hall; [exact Hj | by apply list_elem_of_In].
Qed.

Lemma Fxu_FaninsOk_spec pNtk (vFanins : list Z) :
  Fxu_FaninsOk pNtk vFanins = true
  ↔ ∀ Id, Id ∈ vFanins →
      (0 ≤ Id < Z.of_nat (length (Abc.vObjs pNtk)))%Z
      ∧ is_Some (Abc_NtkLive pNtk (Z.to_nat Id)).
Proof.
  unfold Fxu_FaninsOk. rewrite forallb_forall. split.
  - intros Hall Id HId%list_elem_of_In. specialize (Hall Id HId).
    apply andb_true_iff in Hall as [H1%bool_decide_eq_true H2%bool_decide_eq_true].
    done.
  - intros Hall Id HId%list_elem_of_In. destruct (Hall Id HId) as [H1 H2].
    apply andb_true_iff. split; by apply bool_decide_eq_true.
Qed.

(** The result has the slots of the network with its new nodes, occupied
    as there. *)
Lemma Abc_NtkFxuReconstruct_objs_shape pNtk p :
  SameShape (Abc_NtkCreateNodes pNtk (Z.to_nat (Fxu.nNodesNew p)))
    (Abc_NtkWithObjs pNtk (Abc_NtkFxuReconstruct_objs pNtk p)).
Proof.
  split.
  - simpl. rewrite Abc_NtkFxuReconstruct_objs_length.
    by rewrite length_app, length_replicate.
  - intros j. unfold Abc_NtkLive at 2. cbn [Abc.vObjs Abc_NtkWithObjs].
    rewrite Abc_NtkFxuReconstruct_objs_lookup. unfold Abc_NtkLive.
    destruct (Abc.vObjs (Abc_NtkCreateNodes pNtk _) !! j) as [slot|];
      repeat case_decide; simpl; try done.
    + symmetry. apply Abc_NtkFxuReconstruct_new_effect_is_Some.
    + symmetry. apply Abc_NtkFxuReconstruct_old_effect_is_Some.
Qed.

Lemma Abc_NtkCreateNodes_live pNtk n j o :
  Abc_NtkLive pNtk j = Some o → Abc_NtkLive (Abc_NtkCreateNodes pNtk n) j = Some o.
Proof.
  intros Ho%Abc_NtkLive_Some. apply Abc_NtkLive_Some. simpl.
  rewrite lookup_app_l; [done|]. by eapply lookup_lt_Some.
Qed.

(** Every slot of the result is either an entry of the answer put in
    place, or the slot the network had. *)
Lemma Abc_NtkFxuReconstruct_objs_cases pNtk p j o' :
  Fxu_ReconstructReady pNtk p = true →
  Abc_NtkFxuReconstruct_objs pNtk p !! j = Some (Some o') →
  (∃ vFanins pSop,
     Fxu.vFaninsNew p !! j = Some (Some vFanins)
     ∧ Fxu.vSopsNew p !! j = Some (Some pSop)
     ∧ Fxu_FaninsOk (Abc_NtkCreateNodes pNtk (Z.to_nat (Fxu.nNodesNew p))) vFanins = true
     ∧ Abc.fCompl0 o' = false ∧ Abc.fCompl1 o' = false
     ∧ Abc.vFanins o' = (Z.to_nat <$> vFanins)
     ∧ Abc.pData o' = Some pSop)
  ∨ (Abc.vObjs pNtk !! j = Some (Some o')
     ∧ (Fxu_Visited p j → Fxu.vFaninsNew p !! j = Some None)).
Proof.
  intros Hready.
  destruct (Fxu_ReconstructReady_inv _ _ Hready) as (Hsz & Hid & Hold & Hnew).
  rewrite Abc_NtkFxuReconstruct_objs_lookup.
  set (n := Z.to_nat (Fxu.nNodesNew p)) in *.
  destruct (decide (j ∈ Fxu_NewIds p)) as [Hj|Hj].
  - unfold Fxu_NewIds in Hj. apply elem_of_seq in Hj. fold n in Hj.
    destruct Hid as [Hz | Hid]; [lia|].
    specialize (Hnew j Hj). unfold Fxu_EntryOk in Hnew.
    destruct (Fxu.vFaninsNew p !! j) as [[l|]|] eqn:Hl; [|done..].
    destruct (Fxu.vSopsNew p !! j) as [[c|]|] eqn:Hc; [|done..].
    apply andb_true_iff in Hnew as [_ Hok].
    assert (HX : Abc.vObjs (Abc_NtkCreateNodes pNtk n) !! j = Some (Some Abc_ObjFresh)).
    { replace j with (length (Abc.vObjs pNtk) + (j - length (Abc.vObjs pNtk))) by lia.
      apply Abc_NtkCreateNodes_new. lia. }
    rewrite HX.
    unfold Abc_NtkFxuReconstruct_new_effect. rewrite Hl, Hc. simpl.
    intros [= <-]. left. exists l, c. by split_and!.
  - destruct (decide (j ∈ seq 0 (length (Fxu.vFanins p)))) as [Hj'|Hj'].
    + apply elem_of_seq in Hj'.
      rewrite (Abc_NtkCreateNodes_old _ _ _ _ Hid) by lia.
      specialize (Hold j ltac:(lia)). unfold Fxu_OldOk, Fxu_EntryOk in Hold.
      unfold Abc_NtkFxuReconstruct_old_effect.
      destruct (Fxu.vFaninsNew p !! j) as [[l|]|] eqn:Hl; [| |done].
      * destruct (Fxu.vSopsNew p !! j) as [[c|]|] eqn:Hc; [|done..].
        apply andb_true_iff in Hold as [_ Hok].
        destruct (Abc.vObjs pNtk !! j) as [[o|]|]; simpl; [|done..].
        intros [= <-]. left. exists l, c. by split_and!.
      * destruct (Abc.vObjs pNtk !! j) as [slot|]; simpl; [|done].
        intros [= ->]. by right.
    + intros Hslot. right. simpl in Hslot.
      assert (Hnv : ¬ Fxu_Visited p j).
      { unfold Fxu_Visited. fold n. unfold Fxu_NewIds in Hj. fold n in Hj.
        rewrite elem_of_seq in Hj, Hj'. lia. }
      destruct (decide (j < length (Abc.vObjs pNtk))) as [Hlt|Hge].
      * by rewrite lookup_app_l in Hslot.
      * exfalso. rewrite lookup_app_r in Hslot by lia.
        apply lookup_replicate in Hslot as [_ Hn]. fold n in Hn.
        destruct Hid as [Hz | Hid]; [lia|].
        apply Hj. unfold Fxu_NewIds. apply elem_of_seq. fold n.
        rewrite elem_of_seq in Hj'. lia.
Qed.

(** A live object stays live, with its type. *)
Lemma Abc_NtkFxuReconstruct_objs_live pNtk p j o :
  Abc_NtkLive pNtk j = Some o →
  ∃ o', Abc_NtkFxuReconstruct_objs pNtk p !! j = Some (Some o')
        ∧ Abc.ObjType o' = Abc.ObjType o.
Proof.
  intros Ho. rewrite Abc_NtkFxuReconstruct_objs_lookup.
  apply (Abc_NtkCreateNodes_live _ (Z.to_nat (Fxu.nNodesNew p))) in Ho.
  apply Abc_NtkLive_Some in Ho. rewrite Ho.
  unfold Abc_NtkFxuReconstruct_new_effect, Abc_NtkFxuReconstruct_old_effect.
  destruct (Fxu.vFaninsNew p !! j) as [[l|]|]; repeat case_decide; simpl; eauto.
Qed.

Lemma Abc_NtkFxuReconstruct_live_mono pNtk p pNtk' j :
  Abc_NtkFxuReconstruct pNtk p = OK pNtk' →
  is_Some (Abc_NtkLive pNtk j) → is_Some (Abc_NtkLive pNtk' j).
Proof.
  intros [_ ->]%Abc_NtkFxuReconstruct_OK_inv [o Ho].
  destruct (Abc_NtkFxuReconstruct_objs_live pNtk p j o Ho) as (o' & Ho' & _).
  exists o'. by apply Abc_NtkLive_Some.
Qed.

(** The identifiers of a usable list are live in the result. *)
Lemma Abc_NtkFxuReconstruct_listed_live pNtk p (vFanins : list Z) Id :
  Fxu_FaninsOk (Abc_NtkCreateNodes pNtk (Z.to_nat (Fxu.nNodesNew p))) vFanins = true →
  Id ∈ vFanins →
  (0 ≤ Id < Z.of_nat (length (Abc.vObjs pNtk) + Z.to_nat (Fxu.nNodesNew p)))%Z
  ∧ is_Some (Abc_NtkLive
               (Abc_NtkWithObjs pNtk (Abc_NtkFxuReconstruct_objs pNtk p)) (Z.to_nat Id)).
Proof.
  intros Hok HId.
  destruct (proj1 (Fxu_FaninsOk_spec _ _) Hok Id HId) as [Hrange Hlive].
  simpl in Hrange. rewrite length_app, length_replicate in Hrange.
  split; [done|]. by apply (Abc_NtkFxuReconstruct_objs_shape pNtk p).
Qed.

(** X1.  The reconstructor keeps the network free of dangling edges: when
    no fanin of the network names a hole and the run ends without a fault,
    no fanin of the resulting network names a hole. *)
Theorem Abc_NtkFxuReconstruct_keeps_fanins_live pNtk p pNtk' :
  Abc_NtkFaninsLive pNtk = true →
  Abc_NtkFxuReconstruct pNtk p = OK pNtk' →
  Abc_NtkFaninsLive pNtk' = true.
Proof.
  intros Hwf Hrun. pose proof Hrun as [Hready ->]%Abc_NtkFxuReconstruct_OK_inv.
  apply Abc_NtkFaninsLive_spec. intros j o' Id Hj HId. simpl in Hj.
  destruct (Abc_NtkFxuReconstruct_objs_cases _ _ _ _ Hready Hj)
    as [(l & c & _ & _ & Hok & _ & _ & Hfan & _) | [Hsame _]].
  - rewrite Hfan in HId. apply list_elem_of_fmap in HId as (z & -> & Hz).
    by apply (Abc_NtkFxuReconstruct_listed_live _ _ _ _ Hok Hz).
  - eapply Abc_NtkFxuReconstruct_live_mono; [exact Hrun|].
    eapply (proj1 (Abc_NtkFaninsLive_spec pNtk) Hwf); eauto.
Qed.

(** X2.  The reconstructor never removes or retypes an object and never
    touches the kind of the network: after a run that ends without a fault
    the network has the type, the representation and the manager it had,
    every live identifier is live with an object of the same type, and
    every hole among the old identifiers is still a hole. *)
Theorem Abc_NtkFxuReconstruct_keeps_objects pNtk p pNtk' :
  Abc_NtkFxuReconstruct pNtk p = OK pNtk' →
  Abc.ntkType pNtk' = Abc.ntkType pNtk
  ∧ Abc.ntkFunc pNtk' = Abc.ntkFunc pNtk
  ∧ Abc.pManFunc pNtk' = Abc.pManFunc pNtk
  ∧ (∀ j o, Abc_NtkLive pNtk j = Some o →
       ∃ o', Abc_NtkLive pNtk' j = Some o' ∧ Abc.ObjType o' = Abc.ObjType o)
  ∧ (∀ j, j < Abc_NtkObjNumMax pNtk → Abc_NtkLive pNtk j = None →
       Abc_NtkLive pNtk' j = None).
Proof.
  intros [Hready ->]%Abc_NtkFxuReconstruct_OK_inv. split_and!; [done..| |].
  - intros j o Ho.
    destruct (Abc_NtkFxuReconstruct_objs_live pNtk p j o Ho) as (o' & Ho' & Hty).
    exists o'. split; [by apply Abc_NtkLive_Some | done].
  - intros j Hj Hhole. unfold Abc_NtkLive, Abc_NtkObjNumMax in *.
    cbn [Abc.vObjs Abc_NtkWithObjs]. rewrite Abc_NtkFxuReconstruct_objs_lookup.
    cbn [Abc.vObjs Abc_NtkCreateNodes Abc_NtkWithObjs].
    rewrite lookup_app_l by done.
    destruct (Abc.vObjs pNtk !! j) as [[o|]|] eqn:Hslot; [done| |].
    + unfold Abc_NtkFxuReconstruct_new_effect, Abc_NtkFxuReconstruct_old_effect.
      destruct (Fxu.vFaninsNew p !! j) as [[l|]|]; repeat case_decide; done.
    + apply lookup_ge_None in Hslot. lia.
Qed.

(** X3.  After a run that ends without a fault, every updated fanin list
    the reconstructor has used, for an old or a new identifier, names only
    identifiers below the size the network has now (the old size plus
    [nNodesNew]), each of them a live object: no list refers past the nodes
    the answer introduces, and none refers to a hole. *)
Theorem Abc_NtkFxuReconstruct_fanins_in_range
    pNtk p pNtk' i (vFanins : list Z) (k : nat) (Id : Z) :
  Abc_NtkFxuReconstruct pNtk p = OK pNtk' →
  Fxu_Visited p i →
  Fxu.vFaninsNew p !! i = Some (Some vFanins) →
  vFanins !! k = Some Id →
  Abc_NtkObjNumMax pNtk' = Abc_NtkObjNumMax pNtk + Z.to_nat (Fxu.nNodesNew p)
  ∧ (0 ≤ Id < Z.of_nat (Abc_NtkObjNumMax pNtk'))%Z
  ∧ is_Some (Abc_NtkLive pNtk' (Z.to_nat Id)).
Proof.
  intros [Hready ->]%Abc_NtkFxuReconstruct_OK_inv Hi Hl HId%list_elem_of_lookup_2.
  destruct (Fxu_ReconstructReady_inv _ _ Hready) as (Hsz & Hid & Hold & Hnew).
  unfold Abc_NtkObjNumMax. cbn [Abc.vObjs Abc_NtkWithObjs].
  rewrite Abc_NtkFxuReconstruct_objs_length. split; [done|].
  assert (Hok : Fxu_FaninsOk
                  (Abc_NtkCreateNodes pNtk (Z.to_nat (Fxu.nNodesNew p))) vFanins = true).
  { unfold Fxu_Visited in Hi.
    destruct (decide (i < length (Fxu.vFanins p))) as [Hlt|Hge].
    - specialize (Hold i Hlt). unfold Fxu_OldOk, Fxu_EntryOk in Hold.
      rewrite Hl in Hold. destruct (Fxu.vSopsNew p !! i) as [[c|]|]; [|done..].
      by apply andb_true_iff in Hold as [_ Hok].
    - specialize (Hnew i ltac:(lia)). unfold Fxu_EntryOk in Hnew.
      rewrite Hl in Hnew. destruct (Fxu.vSopsNew p !! i) as [[c|]|]; [|done..].
      by apply andb_true_iff in Hnew as [_ Hok]. }
  by apply (Abc_NtkFxuReconstruct_listed_live _ _ _ _ Hok HId).
Qed.

Lemma Abc_NtkCreateNodes_0 pNtk : Abc_NtkCreateNodes pNtk 0 = pNtk.
Proof.
  unfold Abc_NtkCreateNodes. simpl. by rewrite app_nil_r, Abc_NtkWithObjs_id.
Qed.

Lemma Abc_NtkFxuReconstruct_noop pNtk p :
  length (Fxu.vFanins p) < length (Fxu.vFaninsNew p) →
  (Fxu.nNodesNew p ≤ 0)%Z →
  Fxu_NoUpdates p = true →
  Abc_NtkFxuReconstruct pNtk p = OK pNtk.
Proof.
  intros Hsz Hnew Hnone.
  assert (Hn : Z.to_nat (Fxu.nNodesNew p) = 0) by lia.
  unfold Fxu_NoUpdates in Hnone. rewrite forallb_forall in Hnone.
  assert (Hentry : ∀ i, i < length (Fxu.vFanins p) → Fxu.vFaninsNew p !! i = Some None).
  { intros i Hi. eapply bool_decide_eq_true, Hnone.
    apply list_elem_of_In, elem_of_seq. lia. }
  assert (Hobjs : Abc_NtkFxuReconstruct_objs pNtk p = Abc.vObjs pNtk).
  { apply list_eq. intros j. rewrite Abc_NtkFxuReconstruct_objs_lookup.
    unfold Fxu_NewIds. rewrite Hn, Abc_NtkCreateNodes_0.
    rewrite decide_False by (cbn; apply not_elem_of_nil).
    case_decide as Hj; [|done]. apply elem_of_seq in Hj.
    unfold Abc_NtkFxuReconstruct_old_effect. rewrite Hentry by lia.
    by destruct (Abc.vObjs pNtk !! j). }
  rewrite Abc_NtkFxuReconstruct_ok.
  - by rewrite Hobjs, Abc_NtkWithObjs_id.
  - unfold Fxu_ReconstructReady, Fxu_NewIds. rewrite Hn. cbn [seq forallb].
    rewrite andb_true_r, !andb_true_iff. split_and!.
    + by apply bool_decide_eq_true.
    + apply orb_true_iff. left. by apply bool_decide_eq_true.
    + apply forallb_forall. intros i Hi%list_elem_of_In%elem_of_seq.
      unfold Fxu_OldOk. by rewrite Hentry by lia.
Qed.

(** X4.  An answer without updates is applied as a no-op: when the entry
    assertion holds, no new node is announced and no old identifier has an
    updated fanin list, the run ends without a fault and returns the very
    network it was given, whatever that network is. *)
Theorem Abc_NtkFxuReconstruct_no_updates pNtk p :
  length (Fxu.vFanins p) < length (Fxu.vFaninsNew p) →
  (Fxu.nNodesNew p ≤ 0)%Z →
  Fxu_NoUpdates p = true →
  Abc_NtkFxuReconstruct pNtk p = OK pNtk.
Proof. apply Abc_NtkFxuReconstruct_noop. Qed.

Lemma Abc_NtkFxuReconstruct_create_other pNtk (i : nat) :
  i ≠ length (Abc.vObjs pNtk) →
  Abc_NtkFxuReconstruct_create i pNtk = Crash AssertionFailure.
Proof.
  intros Hne. unfold Abc_NtkFxuReconstruct_create. simpl.
  by rewrite bool_decide_eq_false_2.
Qed.

Lemma Abc_NtkFxuReconstruct_mismatch pNtk p :
  length (Fxu.vFanins p) < length (Fxu.vFaninsNew p) →
  (0 < Fxu.nNodesNew p)%Z →
  length (Fxu.vFanins p) ≠ length (Abc.vObjs pNtk) →
  Abc_NtkFxuReconstruct pNtk p = Crash AssertionFailure.
Proof.
  intros Hsz Hnew Hne. unfold Abc_NtkFxuReconstruct, Fxu_NewIds.
  rewrite bool_decide_eq_true_2 by done. cbn [assert mbind Result_bind].
  destruct (Z.to_nat (Fxu.nNodesNew p)) as [|n] eqn:Hn; [lia|].
  cbn [seq for_each]. by rewrite Abc_NtkFxuReconstruct_create_other.
Qed.

(** X5.  The context and the network must agree on the number of
    identifiers: when the entry assertion holds and new nodes are announced
    but the original collections were sized for another number of slots
    than the network has, the run stops at the assertion
    [i == pNode->Id] on the first node it creates. *)
Theorem Abc_NtkFxuReconstruct_id_mismatch pNtk p :
  length (Fxu.vFanins p) < length (Fxu.vFaninsNew p) →
  (0 < Fxu.nNodesNew p)%Z →
  length (Fxu.vFanins p) ≠ Abc_NtkObjNumMax pNtk →
  Abc_NtkFxuReconstruct pNtk p = Crash AssertionFailure.
Proof. apply Abc_NtkFxuReconstruct_mismatch. Qed.

(** X6.  An answer that introduces nodes cannot be applied twice: after a
    run that ends without a fault and has created nodes, a second run with
    the same context on the resulting network stops at the assertion
    [i == pNode->Id]. *)
Theorem Abc_NtkFxuReconstruct_twice_new_faults pNtk p pNtk' :
  (0 < Fxu.nNodesNew p)%Z →
  Abc_NtkFxuReconstruct pNtk p = OK pNtk' →
  Abc_NtkFxuReconstruct pNtk' p = Crash AssertionFailure.
Proof.
  intros Hnew [Hready ->]%Abc_NtkFxuReconstruct_OK_inv.
  destruct (Fxu_ReconstructReady_inv _ _ Hready) as (Hsz & Hid & _ & _).
  destruct Hid as [Hz | Hid]; [lia|].
  apply Abc_NtkFxuReconstruct_mismatch; [done..|].
  cbn [Abc.vObjs Abc_NtkWithObjs]. rewrite Abc_NtkFxuReconstruct_objs_length. lia.
Qed.

Lemma Abc_NtkFxuReconstruct_old_effect_idem p j (slot : option (Abc_Obj_t Sop)) :
  Abc_NtkFxuReconstruct_old_effect p j (Abc_NtkFxuReconstruct_old_effect p j slot)
  = Abc_NtkFxuReconstruct_old_effect p j slot.
Proof.
  unfold Abc_NtkFxuReconstruct_old_effect.
  destruct (Fxu.vFaninsNew p !! j) as [[l|]|]; [|done..]. by destruct slot.
Qed.

(** X7.  An answer that only rewires old nodes can be applied again without
    effect: after a run that ends without a fault and announces no new
    node, a second run with the same context on the resulting network ends
    without a fault and returns that network unchanged. *)
Theorem Abc_NtkFxuReconstruct_twice_same pNtk p pNtk' :
  (Fxu.nNodesNew p ≤ 0)%Z →
  Abc_NtkFxuReconstruct pNtk p = OK pNtk' →
  Abc_NtkFxuReconstruct pNtk' p = OK pNtk'.
Proof.
  intros Hnew [Hready ->]%Abc_NtkFxuReconstruct_OK_inv.
  assert (Hn : Z.to_nat (Fxu.nNodesNew p) = 0) by lia.
  set (pNtk' := Abc_NtkWithObjs pNtk _).
  assert (Hs : SameShape pNtk pNtk').
  { pose proof (Abc_NtkFxuReconstruct_objs_shape pNtk p) as Hs.
    by rewrite Hn, Abc_NtkCreateNodes_0 in Hs. }
  assert (Hlook : ∀ j, Abc.vObjs pNtk' !! j
                       = if decide (j < length (Fxu.vFanins p))
                         then Abc_NtkFxuReconstruct_old_effect p j <$> Abc.vObjs pNtk !! j
                         else Abc.vObjs pNtk !! j).
  { intros j. unfold pNtk'. cbn [Abc.vObjs Abc_NtkWithObjs].
    rewrite Abc_NtkFxuReconstruct_objs_lookup. unfold Fxu_NewIds.
    rewrite Hn, Abc_NtkCreateNodes_0.
    rewrite decide_False by (cbn; apply not_elem_of_nil).
    repeat case_decide; try done; rewrite elem_of_seq in *; lia. }
  assert (Hobjs : Abc_NtkFxuReconstruct_objs pNtk' p = Abc.vObjs pNtk').
  { apply list_eq. intros j. rewrite Abc_NtkFxuReconstruct_objs_lookup.
    unfold Fxu_NewIds. rewrite Hn, Abc_NtkCreateNodes_0.
    rewrite decide_False by (cbn; apply not_elem_of_nil).
    case_decide as Hj; [|done]. apply elem_of_seq in Hj.
    rewrite Hlook, decide_True by lia.
    destruct (Abc.vObjs pNtk !! j) as [slot|]; simpl; [|done].
    by rewrite Abc_NtkFxuReconstruct_old_effect_idem. }
  rewrite Abc_NtkFxuReconstruct_ok.
  - by rewrite Hobjs, Abc_NtkWithObjs_id.
  - destruct (Fxu_ReconstructReady_inv _ _ Hready) as (Hsz & _ & Hold & _).
    rewrite Hn, Abc_NtkCreateNodes_0 in Hold.
    unfold Fxu_ReconstructReady, Fxu_NewIds. rewrite Hn, Abc_NtkCreateNodes_0.
    cbn [seq forallb]. rewrite andb_true_r, !andb_true_iff. split_and!.
    + by apply bool_decide_eq_true.
    + apply orb_true_iff. left. by apply bool_decide_eq_true.
    + apply forallb_forall. intros i Hi%list_elem_of_In%elem_of_seq.
      rewrite <- (Fxu_OldOk_shape _ _ _ _ Hs). apply Hold. lia.
Qed.

(** A visited identifier with an updated fanin list has exactly the listed
    fanins afterwards. *)
Lemma Abc_NtkFxuReconstruct_objs_visited pNtk p i (vFanins : list Z) o' :
  Fxu_ReconstructReady pNtk p = true →
  Fxu_Visited p i →
  Fxu.vFaninsNew p !! i = Some (Some vFanins) →
  Abc_NtkFxuReconstruct_objs pNtk p !! i = Some (Some o') →
  Abc.vFanins o' = (Z.to_nat <$> vFanins).
Proof.
  intros Hready Hi Hl Hslot.
  destruct (Abc_NtkFxuReconstruct_objs_cases _ _ _ _ Hready Hslot)
    as [(l & c & Hl' & _ & _ & _ & _ & Hfan & _) | [_ Hnone]].
  - congruence.
  - specialize (Hnone Hi). congruence.
Qed.

(** X8.  The reconstructor does not validate what it installs: when a
    visited identifier whose object is a logic node has an updated fanin
    list that names some identifier in two positions, the run may well end
    without a fault, and the network it leaves is one the precondition check
    rejects. *)
Theorem Abc_NtkFxuReconstruct_duplicate_fails_check
    pNtk p pNtk' i (vFanins : list Z) o' (a b : nat) (Id : Z) :
  Abc_NtkFxuReconstruct pNtk p = OK pNtk' →
  Fxu_Visited p i →
  Fxu.vFaninsNew p !! i = Some (Some vFanins) →
  Abc_NtkLive pNtk' i = Some o' →
  Abc_ObjIsNode o' = true →
  a ≠ b →
  vFanins !! a = Some Id →
  vFanins !! b = Some Id →
  Abc_NtkFxuCheck pNtk' = false.
Proof.
  intros [Hready ->]%Abc_NtkFxuReconstruct_OK_inv Hi Hl Ho'%Abc_NtkLive_Some
    Hnode Hab Ha Hb.
  cbn [Abc.vObjs Abc_NtkWithObjs] in Ho'.
  pose proof (Abc_NtkFxuReconstruct_objs_visited _ _ _ _ _ Hready Hi Hl Ho') as Hfan.
  apply Abc_NtkFxuCheck_false_ptr. exists i, o'. split_and!; [done..|].
  exists a. unfold Abc_ObjFaninNum. rewrite Hfan, length_fmap.
  split; [by eapply lookup_lt_Some|]. right. exists b.
  split_and!; [by eapply lookup_lt_Some | done |].
  unfold Abc_ObjFanin. by rewrite Hfan, !list_lookup_fmap, Ha, Hb.
Qed.

(** Pointers that coincide after the run coincided before it. *)
Lemma Abc_NtkFxuReconstruct_fanin_ptr pNtk p pNtk' o (i k : nat) :
  Abc_NtkFxuReconstruct pNtk p = OK pNtk' →
  i < Abc_ObjFaninNum o → k < Abc_ObjFaninNum o →
  Abc_ObjFanin pNtk' o i = Abc_ObjFanin pNtk' o k →
  Abc_ObjFanin pNtk o i = Abc_ObjFanin pNtk o k.
Proof.
  intros Hrun Hi Hk. unfold Abc_ObjFanin, Abc_ObjFaninNum in *.
  destruct (lookup_lt_is_Some_2 _ _ Hi) as [x ->].
  destruct (lookup_lt_is_Some_2 _ _ Hk) as [y ->]. simpl.
  pose proof (Abc_NtkFxuReconstruct_live_mono _ _ _ x Hrun) as Hx.
  pose proof (Abc_NtkFxuReconstruct_live_mono _ _ _ y Hrun) as Hy.
  destruct (Abc_NtkLive pNtk' x) as [ox'|] eqn:Hx';
    destruct (Abc_NtkLive pNtk' y) as [oy'|] eqn:Hy'; simpl; try done.
  - by intros [= ->].
  - intros _.
    destruct (Abc_NtkLive pNtk x) as [ox|]; [by destruct Hx; eauto|].
    destruct (Abc_NtkLive pNtk y) as [oy|]; [by destruct Hy; eauto|]. done.
Qed.

(** X9.  The reconstructor keeps a valid network valid when the answer has
    no duplicates: when the network passes the precondition check, no
    updated fanin list names an identifier twice and the run ends without a
    fault, the resulting network passes the precondition check. *)
Theorem Abc_NtkFxuReconstruct_keeps_check pNtk p pNtk' :
  Abc_NtkFxuCheck pNtk = true →
  Fxu_FaninListsNoDup p = true →
  Abc_NtkFxuReconstruct pNtk p = OK pNtk' →
  Abc_NtkFxuCheck pNtk' = true.
Proof.
  intros Hcheck Hnodup Hrun. apply not_false_iff_true. intros Hbad.
  apply Abc_NtkFxuCheck_false_ptr in Hbad
    as (n & node & Hn & Hnode & i & Hi & Hviol).
  pose proof Hrun as [Hready Heq]%Abc_NtkFxuReconstruct_OK_inv.
  rewrite Heq in Hn. cbn [Abc.vObjs Abc_NtkWithObjs] in Hn.
  destruct (Abc_NtkFxuReconstruct_objs_cases _ _ _ _ Hready Hn)
    as [(l & c & Hl & _ & Hok & Hc0 & Hc1 & Hfan & _) | [Hsame _]].
  - destruct Hviol as [[Hlt Hc] | (k & Hk & Hne & Hptr)].
    + destruct i as [|[|i]]; simpl in Hc; [congruence | congruence | lia].
    + unfold Abc_ObjFaninNum in Hi, Hk. rewrite Hfan, length_fmap in Hi, Hk.
      destruct (lookup_lt_is_Some_2 _ _ Hi) as [zi Hzi].
      destruct (lookup_lt_is_Some_2 _ _ Hk) as [zk Hzk].
      unfold Abc_ObjFanin in Hptr.
      rewrite Hfan, !list_lookup_fmap, Hzi, Hzk in Hptr. simpl in Hptr.
      destruct (Abc_NtkFxuReconstruct_listed_live _ _ _ zi Hok) as [Hri [oi Hoi]];
        [by eapply list_elem_of_lookup_2|].
      destruct (Abc_NtkFxuReconstruct_listed_live _ _ _ zk Hok) as [Hrk [ok Hok']];
        [by eapply list_elem_of_lookup_2|].
      rewrite <- Heq in Hoi, Hok'. rewrite Hoi, Hok' in Hptr. simpl in Hptr.
      injection Hptr as Hz. assert (zi = zk) by lia. subst zk.
      unfold Fxu_FaninListsNoDup in Hnodup. rewrite forallb_forall in Hnodup.
      specialize (Hnodup (Some l)). simpl in Hnodup.
      assert (Hnd : NoDup l).
      { eapply bool_decide_eq_true, Hnodup.
        apply list_elem_of_In. by eapply list_elem_of_lookup_2. }
      apply Hne. by eapply NoDup_lookup.
  - assert (Abc_NtkFxuCheck pNtk = false); [|congruence].
    apply Abc_NtkFxuCheck_false_ptr. exists n, node. split_and!; [done..|].
    exists i. split; [done|].
    destruct Hviol as [? | (k & Hk & Hne & Hptr)]; [by left | right].
    exists k. split_and!; [done..|].
    by eapply Abc_NtkFxuReconstruct_fanin_ptr.
Qed.

End ReconstructMore.

(** ** More about the builder *)

Section CollectInfoMore.

Context {Sop : Type}.
Variable Abc_SopGetVarNum : Sop → Z.
Variable Abc_SopGetCubeNum : Sop → Z.
Implicit Types (pNtk : Abc_Ntk_t Sop) (p : Fxu_Data_t Sop).

Local Abbreviation CollectInfo :=
  (Abc_NtkFxuCollectInfo Abc_SopGetVarNum Abc_SopGetCubeNum).
Local Abbreviation CollectInfo_body :=
  (Abc_NtkFxuCollectInfo_body Abc_SopGetVarNum Abc_SopGetCubeNum).
Local Abbreviation CollectInfo_result :=
  (Abc_NtkFxuCollectInfo_result Abc_SopGetVarNum Abc_SopGetCubeNum).

Lemma Abc_NtkFxuCollectInfo_body_Crash pNtk i p :
  Abc_ObjHasSop pNtk i = false →
  CollectInfo_body pNtk i p = Crash NullDereference.
Proof.
  unfold Abc_ObjHasSop, Abc_NtkFxuCollectInfo_body.
  destruct (Abc_NtkLive pNtk i) as [pNode|]; [|done].
  destruct (Abc_ObjIsNode pNode); simpl; [|done].
  destruct (Abc.pData pNode) as [c|]; [|done].
  intros Hno. apply bool_decide_eq_false in Hno. exfalso. apply Hno. eauto.
Qed.

Lemma Abc_NtkFxuCollectInfo_loop_Crash pNtk idxs p :
  forallb (Abc_ObjHasSop pNtk) idxs = false →
  for_each (CollectInfo_body pNtk) idxs p = Crash NullDereference.
Proof.
  revert p. induction idxs as [|i idxs IH]; intros p Hno; [done|].
  simpl in Hno. cbn [for_each].
  destruct (Abc_ObjHasSop pNtk i) eqn:Hi.
  - rewrite (Abc_NtkFxuCollectInfo_body_ok _ _ _ _ _ Hi). cbn [mbind Result_bind].
    by apply IH.
  - by rewrite (Abc_NtkFxuCollectInfo_body_Crash _ _ _ Hi).
Qed.

(** The builder in closed form: the context of
    [Abc_NtkFxuCollectInfo_result], or a NULL dereference at the first
    logic node that has no cover. *)
Lemma Abc_NtkFxuCollectInfo_closed pNtk p :
  CollectInfo pNtk p
  = if Abc_NtkNodesHaveSop pNtk then OK (CollectInfo_result pNtk p)
    else Crash NullDereference.
Proof.
  destruct (Abc_NtkNodesHaveSop pNtk) eqn:Hok.
  - by apply Abc_NtkFxuCollectInfo_ok.
  - unfold Abc_NtkFxuCollectInfo. by rewrite Abc_NtkFxuCollectInfo_loop_Crash.
Qed.

(** X10.  The builder starts from scratch: of the context it is handed it
    keeps the limit [nNodesExt] and the count [nNodesNew] and nothing else.
    Two contexts that agree on these two fields give the same result, so
    collections left over from an earlier attempt never leak into a new
    one. *)
Theorem Abc_NtkFxuCollectInfo_discards_context pNtk p q :
  Fxu.nNodesExt p = Fxu.nNodesExt q →
  Fxu.nNodesNew p = Fxu.nNodesNew q →
  Abc_NtkFxuCollectInfo Abc_SopGetVarNum Abc_SopGetCubeNum pNtk p
  = Abc_NtkFxuCollectInfo Abc_SopGetVarNum Abc_SopGetCubeNum pNtk q.
Proof.
  intros Hext Hnew. rewrite !Abc_NtkFxuCollectInfo_closed.
  unfold Abc_NtkFxuCollectInfo_result. by rewrite Hext, Hnew.
Qed.

(** X11.  Building a context and applying it untouched is a no-op: on a
    network in cover form, with a limit [nNodesExt] of at least 1 that is
    small enough for [Abc_NtkObjNumMax(pNtk) + p->nNodesExt] to be an
    [int], and no new node announced, the builder ends without a fault, and
    the reconstructor run on the context it returns ends without a fault
    and returns the network as it was. *)
Theorem Abc_NtkFxuCollectInfo_then_Reconstruct pNtk p :
  Abc_NtkNodesHaveSop pNtk = true →
  (0 < Fxu.nNodesExt p)%Z →
  (Z.of_nat (Abc_NtkObjNumMax pNtk) + Fxu.nNodesExt p ≤ INT_MAX)%Z →
  (Fxu.nNodesNew p ≤ 0)%Z →
  ∃ p', CollectInfo pNtk p = OK p' ∧ Abc_NtkFxuReconstruct pNtk p' = OK pNtk.
Proof.
  intros Hok Hext Hsum Hnew. exists (CollectInfo_result pNtk p).
  split; [by apply Abc_NtkFxuCollectInfo_ok|].
  apply Abc_NtkFxuReconstruct_noop.
  - simpl. rewrite length_fmap, length_seq, length_replicate.
    rewrite Int_add_exact by (unfold INT_MIN; lia). lia.
  - done.
  - unfold Fxu_NoUpdates. simpl. rewrite length_fmap, length_seq.
    apply forallb_forall. intros i Hi%list_elem_of_In%elem_of_seq.
    apply bool_decide_eq_true. apply lookup_replicate_2.
    rewrite Int_add_exact by (unfold INT_MIN; lia). lia.
Qed.

End CollectInfoMore.

(** ** More about the driver *)

Section FastExtractMore.

Context {Sop : Type}.
Variable Abc_SopGetVarNum : Sop → Z.
Variable Abc_SopGetCubeNum : Sop → Z.
Variable Abc_NtkToSop : Abc_Ntk_t Sop → bool * Abc_Ntk_t Sop.
Variable Abc_NtkCleanup : Abc_Ntk_t Sop → Abc_Ntk_t Sop.
Variable Fxu_FastExtract : Abc_Ntk_t Sop → Fxu_Data_t Sop → Z * Fxu_Data_t Sop.
Variable Abc_NtkCheck : Abc_Ntk_t Sop → bool.

Implicit Types (pNtk : Abc_Ntk_t Sop) (p : Fxu_Data_t Sop).

Local Abbreviation FastExtract :=
  (Abc_NtkFastExtract Abc_SopGetVarNum Abc_SopGetCubeNum Abc_NtkToSop
     Abc_NtkCleanup Fxu_FastExtract Abc_NtkCheck).
Local Abbreviation CollectInfo_result :=
  (Abc_NtkFxuCollectInfo_result Abc_SopGetVarNum Abc_SopGetCubeNum).

(** X12.  The return value tells whether the reconstructor has run.
    Whenever the driver ends without a fault, either it returns false and
    the network it leaves is the converted network or the swept one, with
    no reconstruction applied, or it returns true and the network it leaves
    is the reconstructor's result on the swept network for the context it
    hands back. *)
Theorem Abc_NtkFastExtract_return_value pNtk p out :
  FastExtract pNtk p = OK out →
  (changed out = false
   ∧ (network out = (Abc_NtkToSop pNtk).2
      ∨ network out = Abc_NtkCleanup (Abc_NtkToSop pNtk).2))
  ∨ (changed out = true
     ∧ Abc_NtkFxuReconstruct (Abc_NtkCleanup (Abc_NtkToSop pNtk).2) (context out)
       = OK (network out)).
Proof.
  unfold Abc_NtkFastExtract. intros Hrun.
  apply bind_OK in Hrun as (u & _ & Hrun).
  destruct (Abc_NtkToSop pNtk) as [[|] pNtk1]; cbn [negb snd] in *;
    [|injection Hrun as <-; left; auto].
  destruct (Abc_NtkFxuCheck pNtk1); cbn [negb] in Hrun;
    [|injection Hrun as <-; left; auto].
  apply bind_OK in Hrun as (p1 & _ & Hrun).
  destruct (Fxu_FastExtract _ p1) as [nRes p2].
  case_bool_decide.
  - apply bind_OK in Hrun as (pNtk3 & Hrec & [= <-]). right. by split.
  - injection Hrun as <-. left. auto.
Qed.

(** X13.  When the conversion succeeds, the check passes, the swept network
    is in cover form and the engine returns a positive count with an answer
    within the contract, the driver ends without a fault and returns true;
    the network it leaves is the reconstructor's result on the swept
    network, longer than the swept network by [nNodesNew] identifiers.  A
    failing general network check changes nothing of this: it only adds a
    message, and nothing is rolled back. *)
Theorem Abc_NtkFastExtract_extracts pNtk p pNtk1 nRes p2 :
  Abc_NtkIsLogic pNtk = true →
  Abc_NtkToSop pNtk = (true, pNtk1) →
  Abc_NtkFxuCheck pNtk1 = true →
  Abc_NtkNodesHaveSop (Abc_NtkCleanup pNtk1) = true →
  Fxu_FastExtract (Abc_NtkCleanup pNtk1)
    (CollectInfo_result (Abc_NtkCleanup pNtk1) p) = (nRes, p2) →
  (0 < nRes)%Z →
  Fxu_ReconstructReady (Abc_NtkCleanup pNtk1) p2 = true →
  ∃ out,
    FastExtract pNtk p = OK out
    ∧ changed out = true
    ∧ context out = p2
    ∧ Abc_NtkFxuReconstruct (Abc_NtkCleanup pNtk1) p2 = OK (network out)
    ∧ Abc_NtkObjNumMax (network out)
      = Abc_NtkObjNumMax (Abc_NtkCleanup pNtk1) + Z.to_nat (Fxu.nNodesNew p2)
    ∧ printed out
      = if Abc_NtkCheck (network out) then [] else [MsgNetworkCheckFailed].
Proof.
  intros Hlogic Hsop Hcheck Hcover Hengine Hres Hready.
  unfold Abc_NtkFastExtract. rewrite Hlogic. cbn [assert mbind Result_bind].
  rewrite Hsop. cbn [negb]. rewrite Hcheck. cbn [negb].
  rewrite (Abc_NtkFxuCollectInfo_ok _ _ _ _ Hcover). cbn [mbind Result_bind].
  rewrite Hengine. rewrite bool_decide_eq_true_2 by lia.
  rewrite (Abc_NtkFxuReconstruct_ok _ _ Hready). cbn [mbind Result_bind].
  eexists. split; [reflexivity|]. cbn [changed network context printed].
  split_and!; [done..| |done].
  unfold Abc_NtkObjNumMax. cbn [Abc.vObjs Abc_NtkWithObjs].
  apply Abc_NtkFxuReconstruct_objs_length.
Qed.

(** X14.  The driver ends without a fault exactly when the network is a
    logic network and one of these holds: the conversion fails, the check
    fails, or the swept network is in cover form and the engine either
    returns 0 or less or answers within the contract of the reconstructor.
    A decline never faults. *)
Theorem Abc_NtkFastExtract_OK_iff pNtk p :
  (∃ out,
     Abc_NtkFastExtract Abc_SopGetVarNum Abc_SopGetCubeNum Abc_NtkToSop
       Abc_NtkCleanup Fxu_FastExtract Abc_NtkCheck pNtk p = OK out)
  ↔ Abc_NtkFastExtractSafe Abc_SopGetVarNum Abc_SopGetCubeNum Abc_NtkToSop
      Abc_NtkCleanup Fxu_FastExtract pNtk p = true.
Proof.
  unfold Abc_NtkFastExtract, Abc_NtkFastExtractSafe.
  destruct (Abc_NtkIsLogic pNtk); cbn [assert mbind Result_bind andb];
    [|split; [by intros [out ?] | done]].
  destruct (Abc_NtkToSop pNtk) as [[|] pNtk1]; cbn [negb orb];
    [|split; [done | intros _; by eexists]].
  destruct (Abc_NtkFxuCheck pNtk1); cbn [negb orb];
    [|split; [done | intros _; by eexists]].
  rewrite Abc_NtkFxuCollectInfo_closed.
  destruct (Abc_NtkNodesHaveSop (Abc_NtkCleanup pNtk1));
    cbn [mbind Result_bind andb]; [|split; [by intros [out ?] | done]].
  destruct (Fxu_FastExtract _ _) as [nRes p2].
  case_bool_decide as Hpos.
  - rewrite bool_decide_eq_false_2 by lia. cbn [orb]. split.
    + intros [out Hrun]. apply bind_OK in Hrun as (pNtk3 & Hrun & _).
      by eapply Abc_NtkFxuReconstruct_OK_ready.
    + intros Hready. rewrite (Abc_NtkFxuReconstruct_ok _ _ Hready).
      cbn [mbind Result_bind]. by eexists.
  - rewrite bool_decide_eq_true_2 by lia. cbn [orb].
    split; [done | intros _; by eexists].
Qed.

End FastExtractMore.

(** ** Releasing the context *)

Section FreeInfoProperties.

Implicit Types (h : heap) (a x v p : addr).

Lemma load_release h x a :
  load (<[x := None]> h) a = if decide (a = x) then None else load h a.
Proof.
  unfold load. destruct (decide (a = x)) as [->|Hne].
  - destruct (decide (x < length h)) as [Hlt|Hge].
    + by rewrite list_lookup_insert_eq.
    + rewrite list_insert_ge by lia. by rewrite lookup_ge_None_2 by lia.
  - by rewrite list_lookup_insert_ne.
Qed.

Lemma load_heap_without h blocks a :
  load (heap_without h blocks) a = if decide (a ∈ blocks) then None else load h a.
Proof.
  unfold heap_without. revert h.
  induction blocks as [|x blocks IH]; intros h; cbn [foldl].
  - by rewrite decide_False by apply not_elem_of_nil.
  - rewrite IH, load_release.
    destruct (decide (a ∈ blocks)) as [Hin|Hnin].
    + by rewrite decide_True by (by right).
    + destruct (decide (a = x)) as [->|Hne].
      * by rewrite decide_True by (by left).
      * rewrite decide_False; [done|]. by intros [?|?]%elem_of_cons.
Qed.

Lemma heap_without_snoc h blocks x :
  heap_without h (blocks ++ [x]) = <[x := None]> (heap_without h blocks).
Proof. unfold heap_without. by rewrite foldl_app. Qed.

Lemma ABC_FREE_ok h a :
  is_Some (load h a) → ABC_FREE h a = Some (<[a := None]> h).
Proof. intros [b Hb]. unfold ABC_FREE. by rewrite Hb. Qed.

Lemma ABC_FREE_None h a : load h a = None → ABC_FREE h a = None.
Proof. intros Hb. unfold ABC_FREE. by rewrite Hb. Qed.

Lemma ABC_FREE_Some h a h' :
  ABC_FREE h a = Some h' → h' = <[a := None]> h.
Proof. unfold ABC_FREE. destruct (load h a); [by intros [= <-] | done]. Qed.

(** Releasing goes on from what has been released so far. *)
Lemma ABC_FREE_next h blocks x :
  x ∉ blocks → is_Some (load h x) →
  ABC_FREE (heap_without h blocks) x = Some (heap_without h (blocks ++ [x])).
Proof.
  intros Hnin Hx. rewrite heap_without_snoc. apply ABC_FREE_ok.
  by rewrite load_heap_without, decide_False.
Qed.

Lemma Abc_NtkFxuFreeInfo_vec_next h blocks (o : option addr) :
  (∀ x, o = Some x → (x ∉ blocks) ∧ is_Some (load h x)) →
  Abc_NtkFxuFreeInfo_vec (heap_without h blocks) o
  = Some (heap_without h (blocks ++ NonNull [o])).
Proof.
  intros Ho. destruct o as [x|]; simpl.
  - destruct (Ho x eq_refl). by apply ABC_FREE_next.
  - by rewrite app_nil_r.
Qed.

Lemma Abc_NtkFxuFreeInfo_entry_at h v (pre suffix : list (option addr)) e :
  load h v = Some (BlkVecPtr (pre ++ e :: suffix)) →
  Abc_NtkFxuFreeInfo_entry v (length pre) h
  = match e with
    | Some x => Vec_IntFree h x
    | None => Some h
    end.
Proof.
  intros Hv. unfold Abc_NtkFxuFreeInfo_entry. by rewrite Hv, list_lookup_middle.
Qed.

(** The loop over the updated fanin collection releases its non-NULL
    entries, one after the other. *)
Lemma Abc_NtkFxuFreeInfo_entries_from h v (pre suffix : list (option addr)) :
  load h v = Some (BlkVecPtr (pre ++ suffix)) →
  NoDup (NonNull suffix) →
  (∀ x, x ∈ NonNull suffix → is_Some (load h x) ∧ x ≠ v) →
  for_each_heap (Abc_NtkFxuFreeInfo_entry v) (seq (length pre) (length suffix)) h
  = Some (heap_without h (NonNull suffix)).
Proof.
  revert h pre. induction suffix as [|e suffix IH]; intros h pre Hv Hnd Hin; [done|].
  cbn [length seq for_each_heap]. rewrite (Abc_NtkFxuFreeInfo_entry_at _ _ _ _ _ Hv).
  destruct e as [x|]; cbn [NonNull omap id] in *.
  - fold (NonNull suffix) in *. apply NoDup_cons in Hnd as [Hx Hnd].
    destruct (Hin x) as [Hload Hxv]; [by left|].
    unfold Vec_IntFree. rewrite (ABC_FREE_ok _ _ Hload). cbn [mbind option_bind].
    specialize (IH (<[x := None]> h) (pre ++ [Some x])).
    rewrite length_app, Nat.add_1_r, <- app_assoc in IH. rewrite IH; [done| | done |].
    + rewrite load_release, decide_False by done. exact Hv.
    + intros y Hy. destruct (Hin y) as [Hly Hyv]; [by right|].
      split; [|done]. rewrite load_release, decide_False; [done|].
      intros ->. done.
  - cbn [mbind option_bind].
    specialize (IH h (pre ++ [None])).
    rewrite length_app, Nat.add_1_r, <- app_assoc in IH. by apply IH.
Qed.

Lemma NoDup_app_middle (l1 l2 : list addr) x :
  NoDup (l1 ++ x :: l2) → x ∉ l1.
Proof.
  intros [_ [Hdisj _]]%NoDup_app Hx. apply (Hdisj x Hx). by left.
Qed.

Lemma Fxu_Owned_next h (done_ rest blocks : list addr) (o : option addr) :
  blocks = done_ ++ NonNull [o] ++ rest →
  NoDup blocks →
  (∀ a, a ∈ blocks → is_Some (load h a)) →
  ∀ x, o = Some x → (x ∉ done_) ∧ is_Some (load h x).
Proof.
  intros -> Hnd Hall x ->. cbn in *. split.
  - by eapply NoDup_app_middle.
  - apply Hall. rewrite elem_of_app. right. by left.
Qed.

(** X15.  Releasing a context that owns its blocks takes away exactly what
    the context owns: when the fanin lists stored in the updated fanin
    collection, the four collections and the context itself are allocated
    and pairwise distinct, the release ends well, each of these addresses is
    released, and every other address holds what it held.  In particular
    the covers the collections point to and the fanin vectors of the nodes
    that the original fanin collection points to stay allocated. *)
Theorem Abc_NtkFxuFreeInfo_releases h p :
  Fxu_OwnsDistinct h p = true →
  ∃ blocks,
    Fxu_OwnedBlocks h p = Some blocks
    ∧ Abc_NtkFxuFreeInfo h p = Some (heap_without h blocks)
    ∧ ∀ a, load (heap_without h blocks) a
           = if decide (a ∈ blocks) then None else load h a.
Proof.
  unfold Fxu_OwnsDistinct. destruct (Fxu_OwnedBlocks h p) as [blocks|] eqn:Hblocks;
    [|done].
  intros [Hnd%bool_decide_eq_true Hall]%andb_true_iff.
  assert (Halloc : ∀ a, a ∈ blocks → is_Some (load h a)).
  { rewrite forallb_forall in Hall. intros a Ha%list_elem_of_In.
    by eapply bool_decide_eq_true, Hall. }
  exists blocks. split; [done|]. split; [|apply load_heap_without].
  unfold Fxu_OwnedBlocks in Hblocks. unfold Abc_NtkFxuFreeInfo.
  destruct (load h p) as [[a b c d| |]|] eqn:Hp; [|done..].
  set (found := match d with
                  | Some v => match load h v with
                              | Some (BlkVecPtr pArray) => Some (NonNull pArray)
                              | _ => None
                              end
                  | None => Some []
                  end) in Hblocks.
  destruct found as [entries|] eqn:Hentries; [|done].
  assert (Hshape : blocks = entries ++ NonNull [a] ++ NonNull [b] ++ NonNull [c]
                             ++ NonNull [d] ++ [p]).
  { cbn [mbind option_bind] in Hblocks. injection Hblocks as <-.
    by destruct a, b, c, d. }
  clear Hblocks.
  assert (Hloop : match d with
                  | Some v =>
                      nSize ← Vec_PtrSize h v;
                      for_each_heap (Abc_NtkFxuFreeInfo_entry v) (seq 0 nSize) h
                  | None => Some h
                  end = Some (heap_without h entries)).
  { unfold found in Hentries. destruct d as [v|]; [|by injection Hentries as <-].
    unfold Vec_PtrSize.
    destruct (load h v) as [[| pArray |]|] eqn:Hv; [done| |done..].
    injection Hentries as <-. cbn [mbind option_bind].
    apply (Abc_NtkFxuFreeInfo_entries_from h v [] pArray Hv).
    - rewrite Hshape in Hnd. by apply NoDup_app in Hnd as [? _].
    - intros x Hx. split.
      + apply Halloc. rewrite Hshape. apply elem_of_app. by left.
      + intros ->. rewrite Hshape in Hnd.
        apply NoDup_app in Hnd as [_ [Hdisj _]]. apply (Hdisj v Hx).
        rewrite !elem_of_app. do 3 right. left. apply list_elem_of_here. }
  rewrite Hloop. cbn [mbind option_bind].
  rewrite (Abc_NtkFxuFreeInfo_vec_next h entries a); cycle 1.
  { by eapply (Fxu_Owned_next h entries _ blocks a). }
  cbn [mbind option_bind].
  rewrite (Abc_NtkFxuFreeInfo_vec_next h (entries ++ NonNull [a]) b); cycle 1.
  { eapply (Fxu_Owned_next h _ _ blocks b); [|done..].
    rewrite Hshape. by rewrite <- !app_assoc. }
  cbn [mbind option_bind].
  rewrite (Abc_NtkFxuFreeInfo_vec_next h ((entries ++ NonNull [a]) ++ NonNull [b]) c);
    cycle 1.
  { eapply (Fxu_Owned_next h _ _ blocks c); [|done..].
    rewrite Hshape. by rewrite <- !app_assoc. }
  cbn [mbind option_bind].
  rewrite (Abc_NtkFxuFreeInfo_vec_next h
             (((entries ++ NonNull [a]) ++ NonNull [b]) ++ NonNull [c]) d); cycle 1.
  { eapply (Fxu_Owned_next h _ _ blocks d); [|done..].
    rewrite Hshape. by rewrite <- !app_assoc. }
  cbn [mbind option_bind].
  rewrite ABC_FREE_next.
  - f_equal. f_equal. rewrite Hshape. by rewrite <- !app_assoc.
  - eapply NoDup_app_middle with (l2 := []). rewrite Hshape in Hnd.
    by rewrite <- !app_assoc in *.
  - apply Halloc. rewrite Hshape, !elem_of_app. do 5 right.
    apply list_elem_of_here.
Qed.

(** Releasing never brings a block back or changes one. *)
Lemma Abc_NtkFxuFreeInfo_entry_shrinks v i h h' y :
  Abc_NtkFxuFreeInfo_entry v i h = Some h' →
  load h' y = None ∨ load h' y = load h y.
Proof.
  unfold Abc_NtkFxuFreeInfo_entry.
  destruct (load h v) as [[| pArray |]|]; [done| |done..].
  destruct (pArray !! i) as [[x|]|]; [| |done].
  - intros ->%ABC_FREE_Some. rewrite load_release. case_decide; auto.
  - intros [= <-]. by right.
Qed.

Lemma Abc_NtkFxuFreeInfo_entry_released v (pArray : list (option addr)) k x idxs h :
  load h x = None →
  load h v = None ∨ load h v = Some (BlkVecPtr pArray) →
  k ∈ idxs → pArray !! k = Some (Some x) →
  for_each_heap (Abc_NtkFxuFreeInfo_entry v) idxs h = None.
Proof.
  revert h. induction idxs as [|m idxs IH]; intros h Hx Hv Hk Hkx.
  - by apply elem_of_nil in Hk.
  - cbn [for_each_heap].
    destruct (Abc_NtkFxuFreeInfo_entry v m h) as [h'|] eqn:Hstep; [|done].
    cbn [mbind option_bind].
    apply elem_of_cons in Hk as [<- | Hk].
    + exfalso. unfold Abc_NtkFxuFreeInfo_entry in Hstep.
      destruct Hv as [Hv | Hv]; rewrite Hv in Hstep; [done|].
      rewrite Hkx in Hstep. unfold Vec_IntFree in Hstep.
      by rewrite ABC_FREE_None in Hstep.
    + apply IH; [| |done..].
      * destruct (Abc_NtkFxuFreeInfo_entry_shrinks _ _ _ _ x Hstep); congruence.
      * destruct (Abc_NtkFxuFreeInfo_entry_shrinks _ _ _ _ v Hstep) as [?|Heq];
          [by left|]. rewrite Heq. done.
Qed.

Lemma Abc_NtkFxuFreeInfo_entry_twice v (pArray : list (option addr)) i j x idxs h :
  load h v = None ∨ load h v = Some (BlkVecPtr pArray) →
  NoDup idxs → i ∈ idxs → j ∈ idxs → i ≠ j →
  pArray !! i = Some (Some x) → pArray !! j = Some (Some x) →
  for_each_heap (Abc_NtkFxuFreeInfo_entry v) idxs h = None.
Proof.
  revert h. induction idxs as [|m idxs IH]; intros h Hv Hnd Hi Hj Hij Hix Hjx.
  - by apply elem_of_nil in Hi.
  - cbn [for_each_heap]. apply NoDup_cons in Hnd as [Hm Hnd].
    destruct (Abc_NtkFxuFreeInfo_entry v m h) as [h'|] eqn:Hstep; [|done].
    cbn [mbind option_bind].
    assert (Hv' : load h' v = None ∨ load h' v = Some (BlkVecPtr pArray)).
    { destruct (Abc_NtkFxuFreeInfo_entry_shrinks _ _ _ _ v Hstep) as [?|Heq];
        [by left|]. by rewrite Heq. }
    assert (Hfreed : ∀ k, k = m → pArray !! k = Some (Some x) → load h' x = None).
    { intros k -> Hkx. unfold Abc_NtkFxuFreeInfo_entry in Hstep.
      destruct Hv as [Hv | Hv]; rewrite Hv in Hstep; [done|].
      rewrite Hkx in Hstep. apply ABC_FREE_Some in Hstep as ->.
      by rewrite load_release, decide_True. }
    apply elem_of_cons in Hi as [Hi | Hi]; apply elem_of_cons in Hj as [Hj | Hj].
    + congruence.
    + eapply (Abc_NtkFxuFreeInfo_entry_released v pArray j x); eauto.
    + eapply (Abc_NtkFxuFreeInfo_entry_released v pArray i x); eauto.
    + by apply IH.
Qed.

(** X16.  The release does not look for shared fanin lists: when two slots
    of the updated fanin collection hold the same fanin list, that list is
    released twice, which is undefined behaviour. *)
Theorem Abc_NtkFxuFreeInfo_shared_entry
    h p (vSops vSopsNew vFanins : option addr) v (pArray : list (option addr))
    (i j : nat) x :
  load h p = Some (BlkData vSops vSopsNew vFanins (Some v)) →
  load h v = Some (BlkVecPtr pArray) →
  i ≠ j →
  pArray !! i = Some (Some x) →
  pArray !! j = Some (Some x) →
  Abc_NtkFxuFreeInfo h p = None.
Proof.
  intros Hp Hv Hij Hi Hj. unfold Abc_NtkFxuFreeInfo, Vec_PtrSize.
  rewrite Hp, Hv. cbn [mbind option_bind].
  rewrite (Abc_NtkFxuFreeInfo_entry_twice v pArray i j x); [done| | | | |done..].
  - by right.
  - apply NoDup_seq.
  - apply elem_of_seq. apply lookup_lt_Some in Hi. lia.
  - apply elem_of_seq. apply lookup_lt_Some in Hj. lia.
Qed.

End FreeInfoProperties.

(** ** The scenarios, run *)

Section Examples.

Import Scenario.

Local Abbreviation run ToSop Cleanup engine :=
  (Abc_NtkFastExtract cv_vars cv_cubes ToSop Cleanup engine Check_yes).

(** The three scenarios of the specification. *)
Example scenario_no_change :
  ∃ out, run ToSop_id Cleanup_id engine_declines ntk (fresh 5) = OK out
         ∧ changed out = false ∧ network out = ntk.
Proof. eexists. split; [vm_compute; reflexivity | done]. Qed.

Example scenario_one_new_node :
  ∃ out, run ToSop_id Cleanup_id engine_extracts ntk (fresh 5) = OK out
         ∧ changed out = true
         ∧ Abc.vObjs (network out)
           = [Some (node [3] fx); Some pi; Some pi; Some (node [1; 2] gxy)].
Proof. eexists. split; [vm_compute; reflexivity | done]. Qed.

Example scenario_duplicate :
  Abc_NtkFxuCheck ntk_dup = false
  ∧ ∃ out, run ToSop_id Cleanup_id engine_extracts ntk_dup (fresh 5) = OK out
           ∧ changed out = false ∧ network out = ntk_dup.
Proof. split; [done|]. eexists. split; [vm_compute; reflexivity | done]. Qed.

Lemma Abc_NtkFxuCheck_sound_witness :
  Abc_NtkFaninsLive ntk_dup = true
  ∧ (Abc_NtkFxuCheck ntk_dup = false ↔ FxuViolation ntk_dup)
  ∧ (¬ FxuViolation ntk_dup → Abc_NtkFxuCheck ntk_dup = true).
Proof.
  split; [reflexivity|].
  apply (Abc_NtkFxuCheck_sound ntk_dup). reflexivity.
Defined.

Lemma Abc_NtkFxuReconstruct_updates_old_witness :
  ∃ pNtk' o pSop,
    Abc_NtkFxuReconstruct ntk answer = OK pNtk'
    ∧ Abc_NtkLive ntk 0 = Some o
    ∧ Fxu.vSopsNew answer !! 0 = Some (Some pSop)
    ∧ Abc_NtkLive pNtk' 0
      = Some (Abc.mkObj (Abc.ObjType o) false false (Z.to_nat <$> [3%Z]) (Some pSop)).
Proof.
  apply (Abc_NtkFxuReconstruct_updates_old ntk answer 0 [3%Z]).
  - reflexivity.
  - vm_compute. lia.
  - reflexivity.
Defined.

Lemma Abc_NtkFxuReconstruct_frame_witness :
  ∃ pNtk',
    Abc_NtkFxuReconstruct ntk answer = OK pNtk'
    ∧ Abc.vObjs pNtk' !! 1 = Abc.vObjs ntk !! 1
    ∧ (Abc.vFanins <$> Abc_NtkLive pNtk' 1) = (Abc.vFanins <$> Abc_NtkLive ntk 1)
    ∧ (Abc.pData <$> Abc_NtkLive pNtk' 1) = (Abc.pData <$> Abc_NtkLive ntk 1).
Proof.
  apply (Abc_NtkFxuReconstruct_frame ntk answer 1).
  - reflexivity.
  - vm_compute. lia.
  - reflexivity.
Defined.

Lemma Abc_NtkFxuReconstruct_creates_new_witness :
  ∃ pNtk',
    Abc_NtkFxuReconstruct ntk answer = OK pNtk'
    ∧ length (Fxu.vFanins answer) = Abc_NtkObjNumMax ntk
    ∧ Abc_NtkObjNumMax pNtk' = Abc_NtkObjNumMax ntk + Z.to_nat (Fxu.nNodesNew answer)
    ∧ (∀ j, j < Abc_NtkObjNumMax ntk →
         is_Some (Abc_NtkLive pNtk' j) ↔ is_Some (Abc_NtkLive ntk j))
    ∧ ∀ k, k < Z.to_nat (Fxu.nNodesNew answer) →
        let i := Abc_NtkObjNumMax ntk + k in
        ∃ vFanins pSop,
          Fxu.vFaninsNew answer !! i = Some (Some vFanins)
          ∧ Fxu.vSopsNew answer !! i = Some (Some pSop)
          ∧ Abc.vObjs ntk !! i = None
          ∧ Abc_NtkLive pNtk' i
            = Some (Abc.mkObj Abc.ABC_OBJ_NODE false false (Z.to_nat <$> vFanins)
                      (Some pSop)).
Proof.
  apply (Abc_NtkFxuReconstruct_creates_new ntk answer).
  - reflexivity.
  - vm_compute. reflexivity.
Defined.

Lemma Abc_NtkFxuCollectInfo_eligible_witness :
  Abc_NtkNodesHaveSop ntk = true
  ∧ ∃ p',
      Abc_NtkFxuCollectInfo cv_vars cv_cubes ntk (fresh 5) = OK p'
      ∧ length (Fxu.vSops p') = Abc_NtkObjNumMax ntk
      ∧ length (Fxu.vFanins p') = Abc_NtkObjNumMax ntk
      ∧ (∀ i pSop,
           Fxu.vSops p' !! i = Some (Some pSop)
           ↔ ∃ pNode, Abc_NodeEligible cv_vars cv_cubes ntk i pNode pSop)
      ∧ (∀ i r,
           Fxu.vFanins p' !! i = Some (Some r)
           ↔ r = FaninsOf i
             ∧ ∃ pNode pSop, Abc_NodeEligible cv_vars cv_cubes ntk i pNode pSop)
      ∧ (∀ i pNode pSop (pNtk' : Abc_Ntk_t cover),
           Abc_NodeEligible cv_vars cv_cubes ntk i pNode pSop →
           FaninsRef_deref ntk (FaninsOf i) = Some (Abc.vFanins pNode)
           ∧ FaninsRef_deref pNtk' (FaninsOf i) = Abc.vFanins <$> Abc_NtkLive pNtk' i).
Proof.
  split; [reflexivity|].
  apply (Abc_NtkFxuCollectInfo_eligible cv_vars cv_cubes ntk (fresh 5)).
  reflexivity.
Defined.

Lemma Abc_NtkFxuCollectInfo_room_witness :
  ∃ p',
    Abc_NtkFxuCollectInfo cv_vars cv_cubes ntk (fresh 5) = OK p'
    ∧ length (Fxu.vFanins p') = Abc_NtkObjNumMax ntk
    ∧ Z.of_nat (length (Fxu.vSopsNew p'))
      = (Z.of_nat (Abc_NtkObjNumMax ntk) + Fxu.nNodesExt (fresh 5))%Z
    ∧ Z.of_nat (length (Fxu.vFaninsNew p'))
      = (Z.of_nat (Abc_NtkObjNumMax ntk) + Fxu.nNodesExt (fresh 5))%Z
    ∧ (∀ i, i < length (Fxu.vSopsNew p') →
         Fxu.vSopsNew p' !! i = Some None ∧ Fxu.vFaninsNew p' !! i = Some None)
    ∧ ∀ p2,
        Fxu_WithinLimit p' p2 = true →
        (0 < Fxu.nNodesNew p2)%Z →
        bool_decide (length (Fxu.vFanins p2) < length (Fxu.vFaninsNew p2)) = true.
Proof.
  apply (Abc_NtkFxuCollectInfo_room cv_vars cv_cubes ntk (fresh 5)).
  - reflexivity.
  - simpl. lia.
  - vm_compute. discriminate.
Defined.

Lemma Abc_NtkFxuReconstruct_old_needs_cover_witness :
  Fxu.vSopsNew answer_no_cover !! 0 = Some None
  ∧ (∀ pNtk', Abc_NtkFxuReconstruct ntk answer_no_cover = OK pNtk' →
       ∃ pSop, Fxu.vSopsNew answer_no_cover !! 0 = Some (Some pSop)
               ∧ (Abc.pData <$> Abc_NtkLive pNtk' 0) = Some (Some pSop))
  ∧ (Fxu.vSopsNew answer_no_cover !! 0 = Some None →
       (∃ f, Abc_NtkFxuReconstruct ntk answer_no_cover = Crash f)
       ∧ ∀ pNtk1, is_Some (Abc_NtkLive pNtk1 0) →
                  Fxu_FaninsOk pNtk1 [2; 1]%Z = true →
                  Abc_NtkFxuReconstruct_old answer_no_cover 0 pNtk1
                  = Crash AssertionFailure).
Proof.
  split; [reflexivity|].
  apply (Abc_NtkFxuReconstruct_old_needs_cover ntk answer_no_cover 0 [2; 1]%Z).
  - vm_compute. lia.
  - reflexivity.
Defined.

Lemma Abc_NtkFxuReconstruct_new_needs_fanins_witness :
  Fxu.vFaninsNew answer_no_fanins !! 3 = Some None
  ∧ (∀ pNtk', Abc_NtkFxuReconstruct ntk answer_no_fanins = OK pNtk' →
       ∃ vFanins, Fxu.vFaninsNew answer_no_fanins !! 3 = Some (Some vFanins))
  ∧ (Fxu.vFaninsNew answer_no_fanins !! 3 = Some None →
       (∃ f, Abc_NtkFxuReconstruct ntk answer_no_fanins = Crash f)
       ∧ ∀ pNtk1 : Abc_Ntk_t cover, 3 < Abc_NtkObjNumMax pNtk1 →
           Abc_NtkFxuReconstruct_new answer_no_fanins 3 pNtk1 = Crash NullDereference).
Proof.
  split; [reflexivity|].
  apply (Abc_NtkFxuReconstruct_new_needs_fanins ntk answer_no_fanins 3).
  simpl. lia.
Defined.



End Examples.

(** ** The further properties, run *)

Section MoreExamples.

Import Scenario Scenario2.

Lemma Abc_NtkFxuReconstruct_keeps_fanins_live_witness :
  Abc_NtkFxuReconstruct ntk answer = OK ntk_after
  ∧ Abc_NtkFaninsLive ntk_after = true.
Proof.
  split; [reflexivity|].
  apply (Abc_NtkFxuReconstruct_keeps_fanins_live ntk answer ntk_after);
    reflexivity.
Defined.

Lemma Abc_NtkFxuReconstruct_keeps_objects_witness :
  Abc.ntkType ntk_after = Abc.ntkType ntk
  ∧ Abc.ntkFunc ntk_after = Abc.ntkFunc ntk
  ∧ Abc.pManFunc ntk_after = Abc.pManFunc ntk
  ∧ (∀ j o, Abc_NtkLive ntk j = Some o →
       ∃ o', Abc_NtkLive ntk_after j = Some o' ∧ Abc.ObjType o' = Abc.ObjType o)
  ∧ (∀ j, j < Abc_NtkObjNumMax ntk → Abc_NtkLive ntk j = None →
       Abc_NtkLive ntk_after j = None).
Proof.
  apply (Abc_NtkFxuReconstruct_keeps_objects ntk answer ntk_after). reflexivity.
Defined.

Lemma Abc_NtkFxuReconstruct_fanins_in_range_witness :
  Abc_NtkObjNumMax ntk_after = Abc_NtkObjNumMax ntk + Z.to_nat (Fxu.nNodesNew answer)
  ∧ (0 ≤ 3 < Z.of_nat (Abc_NtkObjNumMax ntk_after))%Z
  ∧ is_Some (Abc_NtkLive ntk_after (Z.to_nat 3)).
Proof.
  apply (Abc_NtkFxuReconstruct_fanins_in_range ntk answer ntk_after 0 [3%Z] 0 3%Z).
  - reflexivity.
  - vm_compute. lia.
  - reflexivity.
  - reflexivity.
Defined.

Lemma Abc_NtkFxuReconstruct_no_updates_witness :
  Abc_NtkFxuReconstruct ntk built = OK ntk.
Proof.
  apply (Abc_NtkFxuReconstruct_no_updates ntk built).
  - vm_compute. lia.
  - simpl. lia.
  - reflexivity.
Defined.

Lemma Abc_NtkFxuReconstruct_id_mismatch_witness :
  Abc_NtkFxuReconstruct ntk_after answer = Crash AssertionFailure.
Proof.
  apply (Abc_NtkFxuReconstruct_id_mismatch ntk_after answer).
  - vm_compute. lia.
  - simpl. lia.
  - vm_compute. lia.
Defined.

Lemma Abc_NtkFxuReconstruct_twice_new_faults_witness :
  Abc_NtkFxuReconstruct ntk answer = OK ntk_after
  ∧ Abc_NtkFxuReconstruct ntk_after answer = Crash AssertionFailure.
Proof.
  split; [reflexivity|].
  apply (Abc_NtkFxuReconstruct_twice_new_faults ntk answer ntk_after).
  - simpl. lia.
  - reflexivity.
Defined.

Lemma Abc_NtkFxuReconstruct_twice_same_witness :
  Abc_NtkFxuReconstruct ntk answer_rewired = OK ntk_rewired
  ∧ Abc_NtkFxuReconstruct ntk_rewired answer_rewired = OK ntk_rewired.
Proof.
  split; [reflexivity|].
  apply (Abc_NtkFxuReconstruct_twice_same ntk answer_rewired ntk_rewired).
  - simpl. lia.
  - reflexivity.
Defined.

Lemma Abc_NtkFxuReconstruct_duplicate_fails_check_witness :
  Abc_NtkFxuCheck ntk = true
  ∧ Abc_NtkFxuReconstruct ntk answer_dup = OK ntk_dup
  ∧ Abc_NtkFxuCheck ntk_dup = false.
Proof.
  split; [reflexivity|]. split; [reflexivity|].
  apply (Abc_NtkFxuReconstruct_duplicate_fails_check ntk answer_dup ntk_dup
           0 [1; 1]%Z (node [1; 1] f3) 0 1 1%Z).
  - reflexivity.
  - vm_compute. lia.
  - reflexivity.
  - reflexivity.
  - reflexivity.
  - lia.
  - reflexivity.
  - reflexivity.
Defined.

Lemma Abc_NtkFxuReconstruct_keeps_check_witness :
  Abc_NtkFxuCheck ntk_after = true.
Proof.
  apply (Abc_NtkFxuReconstruct_keeps_check ntk answer ntk_after); reflexivity.
Defined.

Lemma Abc_NtkFxuCollectInfo_discards_context_witness :
  Abc_NtkFxuCollectInfo cv_vars cv_cubes ntk (fresh 5)
  = Abc_NtkFxuCollectInfo cv_vars cv_cubes ntk answer_dup.
Proof.
  apply (Abc_NtkFxuCollectInfo_discards_context cv_vars cv_cubes ntk
           (fresh 5) answer_dup); reflexivity.
Defined.

Lemma Abc_NtkFxuCollectInfo_then_Reconstruct_witness :
  ∃ p', Abc_NtkFxuCollectInfo cv_vars cv_cubes ntk (fresh 5) = OK p'
        ∧ Abc_NtkFxuReconstruct ntk p' = OK ntk.
Proof.
  apply (Abc_NtkFxuCollectInfo_then_Reconstruct cv_vars cv_cubes ntk (fresh 5)).
  - reflexivity.
  - simpl. lia.
  - vm_compute. discriminate.
  - simpl. lia.
Defined.

Lemma Abc_NtkFastExtract_return_value_witness :
  (changed (mkOutcome true ntk_after answer []) = false
   ∧ (network (mkOutcome true ntk_after answer []) = (ToSop_id ntk).2
      ∨ network (mkOutcome true ntk_after answer []) = Cleanup_id (ToSop_id ntk).2))
  ∨ (changed (mkOutcome true ntk_after answer []) = true
     ∧ Abc_NtkFxuReconstruct (Cleanup_id (ToSop_id ntk).2)
         (context (mkOutcome true ntk_after answer []))
       = OK (network (mkOutcome true ntk_after answer []))).
Proof.
  apply (Abc_NtkFastExtract_return_value cv_vars cv_cubes ToSop_id Cleanup_id
           engine_extracts Check_yes ntk (fresh 5)
           (mkOutcome true ntk_after answer [])).
  reflexivity.
Defined.

Lemma Abc_NtkFastExtract_extracts_witness :
  ∃ out,
    Abc_NtkFastExtract cv_vars cv_cubes ToSop_id Cleanup_id engine_extracts
      (fun _ => false) ntk (fresh 5) = OK out
    ∧ changed out = true
    ∧ context out = answer
    ∧ Abc_NtkFxuReconstruct (Cleanup_id ntk) answer = OK (network out)
    ∧ Abc_NtkObjNumMax (network out)
      = Abc_NtkObjNumMax (Cleanup_id ntk) + Z.to_nat (Fxu.nNodesNew answer)
    ∧ printed out
      = if (fun _ : Abc_Ntk_t cover => false) (network out) then []
        else [MsgNetworkCheckFailed].
Proof.
  apply (Abc_NtkFastExtract_extracts cv_vars cv_cubes ToSop_id Cleanup_id
           engine_extracts (fun _ => false) ntk (fresh 5) ntk 1%Z answer).
  - reflexivity.
  - reflexivity.
  - reflexivity.
  - reflexivity.
  - reflexivity.
  - lia.
  - reflexivity.
Defined.

Lemma Abc_NtkFxuFreeInfo_releases_witness :
  ∃ blocks,
    Fxu_OwnedBlocks heap_owned 0 = Some blocks
    ∧ Abc_NtkFxuFreeInfo heap_owned 0 = Some (heap_without heap_owned blocks)
    ∧ ∀ a, load (heap_without heap_owned blocks) a
           = if decide (a ∈ blocks) then None else load heap_owned a.
Proof.
  apply (Abc_NtkFxuFreeInfo_releases heap_owned 0). reflexivity.
Defined.

Lemma Abc_NtkFxuFreeInfo_shared_entry_witness :
  Abc_NtkFxuFreeInfo heap_shared 0 = None.
Proof.
  apply (Abc_NtkFxuFreeInfo_shared_entry heap_shared 0 (Some 1) (Some 2) (Some 3) 4
           [Some 5; None; None; Some 5; None] 0 3 5).
  - reflexivity.
  - reflexivity.
  - lia.
  - reflexivity.
  - reflexivity.
Defined.

End MoreExamples.
